(** * A caching Dropbox client: the two [downloadFile] implementations

    Shallow embedding of the retry-capable service (token refresh through
    axios, [downloadFile] with a bounded re-authentication loop,
    [testConnection]) and of the simplified service of
    [src/services/dropboxService.js], together with the properties of the
    specification that concern them.

    Asynchronous functions are modelled as computations in a state and
    exception monad: an [await] is a sequencing point, a rejected promise is
    a thrown value.  The module-level [let] variables of each file, the
    local file system and the outside world (token endpoint, Dropbox API,
    clock) make up the state.  A ghost [trace] records the calls that leave
    the process and the writes that reach the disk; [console] output is not
    modelled. *)

From Stdlib Require Import ZArith Ascii String List Bool Lia.
From stdpp Require Import gmap strings list fin_maps.

Local Open Scope string_scope.
Local Open Scope list_scope.
Set Warnings "-register-all".

(** ** JavaScript values and thrown errors *)

(** The values that flow through the code: what [JSON.parse] and the HTTP
    libraries hand back.  A number is kept only up to being non-zero, the
    one thing the code can observe of it (through truthiness). *)
Inductive value : Type :=
| VUndefined
| VNull
| VBool (b : bool)
| VNumber (nonzero : bool)
| VString (s : string)
| VArray (items : list value)
| VObject (props : list (string * value)).

(** [!v] is [negb (truthy v)]. *)
Definition truthy (v : value) : bool :=
  match v with
  | VUndefined | VNull => false
  | VBool b => b
  | VNumber nonzero => nonzero
  | VString s => negb (String.eqb s "")
  | VArray _ | VObject _ => true
  end.

Fixpoint own_property (k : string) (props : list (string * value)) : value :=
  match props with
  | [] => VUndefined
  | (k', v) :: rest => if String.eqb k k' then v else own_property k rest
  end.

(** A thrown value.  [status] is the [status] property ([None] when it is
    [undefined]), [response] the [response] property of an axios error:
    the status and the body the endpoint answered with. *)
Record JsError : Type := mkJsError {
  e_name : string;
  message : string;
  status : option Z;
  response : option (Z * string)
}.

(** [new Error(msg)] *)
Definition Error (msg : string) : JsError := mkJsError "Error" msg None None.
Definition TypeError (msg : string) : JsError := mkJsError "TypeError" msg None None.

(** [error.status === 401] *)
Definition status_is_401 (error : JsError) : bool :=
  match status error with
  | Some s => Z.eqb s 401
  | None => false
  end.

Inductive result (A : Type) : Type :=
| Ok (a : A)
| Thrown (error : JsError).
Arguments Ok {A} a.
Arguments Thrown {A} error.

Definition is_ok {A} (r : result A) : bool :=
  match r with Ok _ => true | Thrown _ => false end.

(** [v.k]: reading a property of [undefined] or [null] throws, a primitive
    or an array has none of the property names the code reads. *)
Definition get_prop (v : value) (k : string) : result value :=
  match v with
  | VUndefined | VNull =>
      Thrown (TypeError ("Cannot read properties of undefined or null: " +:+ k))
  | VObject props => Ok (own_property k props)
  | _ => Ok VUndefined
  end.

(** [v?.k] *)
Definition opt_prop (v : value) (k : string) : value :=
  match v with
  | VObject props => own_property k props
  | _ => VUndefined
  end.

(** [remote === cached] where [remote] is the [rev] of a Dropbox metadata
    record, a string or [undefined] (folders carry no revision). *)
Definition rev_strict_equal (remote : option string) (cached : value) : bool :=
  match remote, cached with
  | None, VUndefined => true
  | Some r, VString c => String.eqb r c
  | _, _ => false
  end.

Definition rev_value (rev : option string) : value :=
  match rev with Some r => VString r | None => VUndefined end.

(** An object literal as [JSON.stringify] sees it: properties whose value is
    [undefined] are left out. *)
Definition object_literal (props : list (string * value)) : value :=
  VObject (List.filter
             (fun kv => match snd kv with VUndefined => false | _ => true end)
             props).

(** ** The Dropbox SDK and the HTTP libraries *)

(** [new Dropbox({ accessToken, fetch })] *)
Record Client : Type := Dropbox { accessToken : value }.

(** What [fs.writeFileSync] may be handed as data. *)
Inductive FileData : Type :=
| DUndefined
| DBuffer (bytes : string)
| DBlob (bytes : string)
| DString (s : string).

Definition data_truthy (d : FileData) : bool :=
  match d with
  | DUndefined => false
  | DString s => negb (String.eqb s "")
  | DBuffer _ | DBlob _ => true
  end.

(** [a || b] *)
Definition data_or (a b : FileData) : FileData := if data_truthy a then a else b.

(** [response.result] of [filesDownload] *)
Record DownloadResult : Type := mkDownloadResult {
  fileBinary : FileData;
  fileBlob : FileData;
  rev : option string;
  server_modified : option string
}.

(** [currentMeta.result] of [filesGetMetadata] *)
Record MetadataResult : Type := mkMetadataResult {
  meta_rev : option string
}.

(** The response of node-fetch: [ok], and what [text()] and [json()] resolve
    or reject with. *)
Record FetchResponse : Type := mkFetchResponse {
  ok : bool;
  text : result string;
  json : result value
}.

(** Everything the code reaches outside the process.  [World] is the state
    of the outside; every call answers from it and moves it. *)
Class Runtime : Type := {
  World : Type;
  tmpdir : string;
  sha256_hex : string -> string;
  JSON_parse : string -> result value;
  JSON_stringify : value -> string;
  toISOString_now : World -> string;
  axios_post_token : World -> result value * World;
  fetch_token : World -> result FetchResponse * World;
  filesGetMetadata : Client -> string -> World -> result MetadataResult * World;
  filesDownload : Client -> string -> World -> result DownloadResult * World;
  usersGetCurrentAccount : Client -> World -> result value * World
}.

(** ** Process state *)

Inductive Node : Type :=
| File (content : string)
| Directory.

Inductive Event : Type :=
| TokenRequest (succeeded : bool)
| GetMetadata (path : string) (succeeded : bool)
| DownloadCall (path : string) (succeeded : bool)
| CurrentAccount (succeeded : bool)
| WriteFile (path : string).

Record State `{Runtime} (V : Type) : Type := mkState {
  vars : V;
  files : gmap string Node;
  world : World;
  trace : list Event
}.
Arguments mkState {_ V} _ _ _ _.
Arguments vars {_ V} _.
Arguments files {_ V} _.
Arguments world {_ V} _.
Arguments trace {_ V} _.

Definition is_token_request (e : Event) : bool :=
  match e with TokenRequest _ => true | _ => false end.
Definition is_download_call (e : Event) : bool :=
  match e with DownloadCall _ _ => true | _ => false end.
Definition is_download_success (e : Event) : bool :=
  match e with DownloadCall _ true => true | _ => false end.
Definition is_write (e : Event) : bool :=
  match e with WriteFile _ => true | _ => false end.

Definition count (f : Event -> bool) (t : list Event) : nat :=
  List.length (List.filter f t).

(** ** The monad of asynchronous functions *)

Section Monad.
Context `{Runtime} {V : Type}.

Definition M (A : Type) : Type := State V -> result A * State V.

Definition ret {A} (a : A) : M A := fun st => (Ok a, st).

Definition throw {A} (error : JsError) : M A := fun st => (Thrown error, st).

Definition bind {A B} (m : M A) (k : A -> M B) : M B :=
  fun st =>
    match m st with
    | (Ok a, st') => k a st'
    | (Thrown error, st') => (Thrown error, st')
    end.

(** [try { m } catch (error) { handler }]: what [m] did before it threw
    stays done. *)
Definition try_catch {A} (m : M A) (handler : JsError -> M A) : M A :=
  fun st =>
    match m st with
    | (Ok a, st') => (Ok a, st')
    | (Thrown error, st') => handler error st'
    end.

(** The completion of [m], for a [catch] that goes on with the loop. *)
Definition attempt_ {A} (m : M A) : M (result A) :=
  fun st => let '(r, st') := m st in (Ok r, st').

Definition lift {A} (r : result A) : M A := fun st => (r, st).

Definition get_vars : M V := fun st => (Ok (vars st), st).

Definition set_vars (f : V -> V) : M unit :=
  fun st => (Ok tt, mkState (f (vars st)) (files st) (world st) (trace st)).

Definition emit (e : Event) (st : State V) : State V :=
  mkState (vars st) (files st) (world st) (trace st ++ [e]).

(** A call that leaves the process: the world answers and moves, the call
    is recorded. *)
Definition call {A} (f : World -> result A * World) (ev : result A -> Event) : M A :=
  fun st =>
    let '(r, w) := f (world st) in
    (r, mkState (vars st) (files st) w (trace st ++ [ev r])).

(** [dbx.method(...)]: a method of [null] cannot be called. *)
Definition method {A} (dbx : option Client) (m : Client -> M A) : M A :=
  match dbx with
  | Some c => m c
  | None => throw (TypeError "Cannot read properties of null")
  end.

Definition now_ISO : M string := fun st => (Ok (toISOString_now (world st)), st).

(** *** [fs] *)

Definition existsSync (path : string) : M bool :=
  fun st => (Ok (bool_decide (is_Some (files st !! path))), st).

(** [fs.readFileSync(path, 'utf8')] *)
Definition readFileSync (path : string) : M string :=
  fun st =>
    match files st !! path with
    | Some (File content) => (Ok content, st)
    | Some Directory =>
        (Thrown (Error "EISDIR: illegal operation on a directory, read"), st)
    | None => (Thrown (Error "ENOENT: no such file or directory"), st)
    end.

(** [fs.writeFileSync(path, data, encoding)]: the data is checked before
    the file is opened; a directory cannot be opened for writing.  [files]
    holds what is inside the cache directory, which the module creates when
    it is loaded: the directory is taken to be there and writable at every
    write.  A write that Node refuses for another reason (the directory
    removed since, no permission, a full disk) is not modelled, so a write
    shown to succeed here is one Node performs as long as the directory
    stays in place. *)
Definition writeFileSync (path : string) (data : FileData) : M unit :=
  fun st =>
    match data with
    | DBuffer content | DString content =>
        match files st !! path with
        | Some Directory =>
            (Thrown (Error "EISDIR: illegal operation on a directory, open"), st)
        | _ =>
            (Ok tt, mkState (vars st) (<[path := File content]> (files st))
                            (world st) (trace st ++ [WriteFile path]))
        end
    | DUndefined | DBlob _ =>
        (Thrown (TypeError "The data argument must be of type string or an instance of Buffer, TypedArray, or DataView"), st)
    end.
End Monad.

Notation "'let*' x ':=' m 'in' k" := (bind m (fun x => k))
  (at level 10, x name, m at level 100, k at level 200, only parsing).

(** ** Cache file names (the same in both files, up to the directory) *)

Definition path_join (a b : string) : string := a +:+ "/" +:+ b.

(** ** The retry-capable service *)

Module Retry.
Section Service.
Context `{Runtime}.

(** [let dbxInstance = null; let currentAccessToken = null;] *)
Record Vars : Type := mkVars {
  dbxInstance : option Client;
  currentAccessToken : value
}.

Definition initial : Vars := mkVars None VNull.

Definition refresh_failed : JsError :=
  Error "No se pudo refrescar el token de acceso a Dropbox".

Definition refreshAccessToken : M value :=
  try_catch
    (let* data := call axios_post_token (fun r => TokenRequest (is_ok r)) in
     let* access_token := lift (get_prop data "access_token") in
     let* _ := set_vars (fun v => mkVars (dbxInstance v) access_token) in
     let* v := get_vars in
     ret (currentAccessToken v))
    (fun error => throw refresh_failed).

Definition getDropboxInstance : M (option Client) :=
  let* v := get_vars in
  let* _ :=
    if negb (bool_decide (is_Some (dbxInstance v))) || negb (truthy (currentAccessToken v))
    then
      let* _ := refreshAccessToken in
      set_vars (fun v => mkVars (Some (Dropbox (currentAccessToken v)))
                                (currentAccessToken v))
    else ret tt in
  let* v := get_vars in
  ret (dbxInstance v).

(** A client and a token are held: the negation of the test of
    [getDropboxInstance]. *)
Definition holds_credentials (v : Vars) : bool :=
  bool_decide (is_Some (dbxInstance v)) && truthy (currentAccessToken v).

Definition cacheDir : string := path_join tmpdir "dropbox_cache".

Definition hashString (str : string) : string := sha256_hex str.

Definition getCacheFilePath (dropboxPath : string) : string :=
  let hashedName := hashString dropboxPath in
  path_join cacheDir hashedName.

(** [metaPath] of [downloadFile], as a function of its argument. *)
Definition metaFilePath (dropboxPath : string) : string :=
  getCacheFilePath dropboxPath +:+ ".meta.json".

(** The [try] block of the cache check: [Some localPath] when it returns
    from [downloadFile], [None] when the revisions differ. *)
Definition cache_probe (dropboxPath localPath metaPath : string) : M (option string) :=
  let* content := readFileSync metaPath in
  let* cachedMeta := lift (JSON_parse content) in
  let* dbx := getDropboxInstance in
  let* currentMeta :=
    method dbx (fun c => call (filesGetMetadata c dropboxPath)
                              (fun r => GetMetadata dropboxPath (is_ok r))) in
  let* cached_rev := lift (get_prop cachedMeta "rev") in
  if rev_strict_equal (meta_rev currentMeta) cached_rev
  then ret (Some localPath)
  else ret None.

(** The [if] that opens [downloadFile]; [None] when control goes on to the
    loop. *)
Definition cache_check (dropboxPath localPath metaPath : string) : M (option string) :=
  let* has_local := existsSync localPath in
  let* has_meta := if has_local then existsSync metaPath else ret false in
  if has_local && has_meta then
    try_catch (cache_probe dropboxPath localPath metaPath) (fun error => ret None)
  else ret None.

(** The [try] block of one iteration. *)
Definition download_attempt (dropboxPath localPath metaPath : string) : M string :=
  let* dbx := getDropboxInstance in
  let* response :=
    method dbx (fun c => call (filesDownload c dropboxPath)
                              (fun r => DownloadCall dropboxPath (is_ok r))) in
  let* _ := writeFileSync localPath (fileBinary response) in
  let* last_updated := now_ISO in
  let* _ := writeFileSync metaPath
              (DString (JSON_stringify (object_literal
                 [("rev", rev_value (rev response));
                  ("server_modified", rev_value (server_modified response));
                  ("last_updated", VString last_updated)]))) in
  ret localPath.

(** [dbxInstance = null; currentAccessToken = null;] *)
Definition invalidate : M unit := set_vars (fun _ => mkVars None VNull).

(** How the [for] statement is left. *)
Inductive LoopExit : Type :=
| Returned (localPath : string)
| Fell_through (lastError : option JsError).

(** [for (let attempt = 1; attempt <= maxRetries; attempt++)], run over the
    values [attempt] still has to take. *)
Fixpoint attempts (dropboxPath localPath metaPath : string) (maxRetries : nat)
    (range : list nat) (lastError : option JsError) : M LoopExit :=
  match range with
  | [] => ret (Fell_through lastError)
  | attempt :: rest =>
      let* completion := attempt_ (download_attempt dropboxPath localPath metaPath) in
      match completion with
      | Ok path => ret (Returned path)
      | Thrown error =>
          if status_is_401 error && (attempt <? maxRetries)%nat then
            let* _ := invalidate in
            attempts dropboxPath localPath metaPath maxRetries rest (Some error)
          else ret (Fell_through (Some error))
      end
  end.

Definition unknown_error : JsError := Error "Error desconocido al descargar archivo".

(** From [let lastError = null] to the end of [downloadFile]. *)
Definition download_with_retries (dropboxPath localPath metaPath : string)
    (maxRetries : nat) : M string :=
  let* exit := attempts dropboxPath localPath metaPath maxRetries
                        (seq 1 maxRetries) None in
  match exit with
  | Returned path => ret path
  | Fell_through (Some lastError) => throw lastError
  | Fell_through None => throw unknown_error
  end.

(** [maxRetries] is 3 when the caller leaves it out; here it is always
    given, as a natural number. *)
Definition downloadFile (dropboxPath : string) (maxRetries : nat) : M string :=
  let localPath := getCacheFilePath dropboxPath in
  let metaPath := localPath +:+ ".meta.json" in
  let* cached := cache_check dropboxPath localPath metaPath in
  match cached with
  | Some path => ret path
  | None => download_with_retries dropboxPath localPath metaPath maxRetries
  end.

Definition testConnection : M bool :=
  try_catch
    (let* dbx := getDropboxInstance in
     let* account :=
       method dbx (fun c => call (usersGetCurrentAccount c)
                                 (fun r => CurrentAccount (is_ok r))) in
     if truthy (opt_prop (opt_prop (opt_prop account "result") "name") "display_name")
     then ret true
     else throw (Error "Respuesta inesperada de la API"))
    (fun error => ret false).

End Service.
End Retry.

(** ** The simplified service of [src/services/dropboxService.js] *)

Module Simple.
Section Service.
Context `{Runtime}.

(** [let dbx = null;] *)
Record Vars : Type := mkVars { dbx : option Client }.

Definition initial : Vars := mkVars None.

Definition getDropboxInstance : M (option Client) :=
  let* v := get_vars in
  if bool_decide (is_Some (dbx v)) then ret (dbx v)
  else
    let* tokenResponse :=
      call fetch_token
           (fun r => TokenRequest (match r with Ok resp => ok resp | Thrown _ => false end)) in
    let* _ :=
      if negb (ok tokenResponse) then
        let* errorText := lift (text tokenResponse) in
        throw (Error ("Failed to refresh access token: " +:+ errorText))
      else ret tt in
    let* tokenData := lift (json tokenResponse) in
    let* accessToken := lift (get_prop tokenData "access_token") in
    let* _ := set_vars (fun _ => mkVars (Some (Dropbox accessToken))) in
    let* _ :=
      try_catch
        (let* v := get_vars in
         let* currentAccount :=
           method (dbx v) (fun c => call (usersGetCurrentAccount c)
                                         (fun r => CurrentAccount (is_ok r))) in
         ret tt)
        (fun error => throw error) in
    let* v := get_vars in
    ret (dbx v).

Definition cacheDir : string := path_join tmpdir "ijcvwabot_dropbox_cache".

Definition hashString (str : string) : string := sha256_hex str.

Definition getCacheFilePath (dropboxPath : string) : string :=
  let hashedName := hashString dropboxPath in
  path_join cacheDir hashedName.

Definition metaFilePath (dropboxPath : string) : string :=
  getCacheFilePath dropboxPath +:+ ".meta.json".

Definition cache_probe (dropboxPath localPath metaPath : string) : M (option string) :=
  let* content := readFileSync metaPath in
  let* meta := lift (JSON_parse content) in
  let* dbx := getDropboxInstance in
  let* currentMeta :=
    method dbx (fun c => call (filesGetMetadata c dropboxPath)
                              (fun r => GetMetadata dropboxPath (is_ok r))) in
  let* cached_rev := lift (get_prop meta "rev") in
  if rev_strict_equal (meta_rev currentMeta) cached_rev
  then ret (Some localPath)
  else ret None.

Definition cache_check (dropboxPath localPath metaPath : string) : M (option string) :=
  let* has_local := existsSync localPath in
  let* has_meta := if has_local then existsSync metaPath else ret false in
  if has_local && has_meta then
    try_catch (cache_probe dropboxPath localPath metaPath) (fun err => ret None)
  else ret None.

(** The [try] block that downloads. *)
Definition download (dropboxPath localPath metaPath : string) : M string :=
  let* dbx := getDropboxInstance in
  let* response :=
    method dbx (fun c => call (filesDownload c dropboxPath)
                              (fun r => DownloadCall dropboxPath (is_ok r))) in
  let fileBinary :=
    data_or (data_or (fileBinary response) (fileBlob response)) (fileBinary response) in
  let* _ := writeFileSync localPath fileBinary in
  let meta := object_literal
                [("rev", rev_value (rev response));
                 ("server_modified", rev_value (server_modified response))] in
  let* _ := writeFileSync metaPath (DString (JSON_stringify meta)) in
  ret localPath.

(** [try { ... } catch (error) { throw error; }] *)
Definition download_or_rethrow (dropboxPath localPath metaPath : string) : M string :=
  try_catch (download dropboxPath localPath metaPath) (fun error => throw error).

Definition downloadFile (dropboxPath : string) : M string :=
  let localPath := getCacheFilePath dropboxPath in
  let metaPath := localPath +:+ ".meta.json" in
  let* cached := cache_check dropboxPath localPath metaPath in
  match cached with
  | Some path => ret path
  | None => download_or_rethrow dropboxPath localPath metaPath
  end.

End Service.
End Simple.

(** ** A scripted runtime, to run the services on concrete scenarios *)

Module Mock.

(** The outside world as a script: each kind of call consumes the next
    answer prepared for it; a call with no answer left finds no network. *)
Record Script : Type := mkScript {
  token_answers : list (result value);
  fetch_answers : list (result FetchResponse);
  metadata_answers : list (result MetadataResult);
  download_answers : list (result DownloadResult);
  account_answers : list (result value);
  clock : string
}.

Definition unreachable : JsError := Error "getaddrinfo ENOTFOUND".

Definition next {A} (answers : list (result A)) : result A * list (result A) :=
  match answers with
  | [] => (Thrown unreachable, [])
  | a :: rest => (a, rest)
  end.

(** A toy codec in place of JSON, for flat records of strings, written
    [key=value;key=value;]. *)
Fixpoint split_on (sep : ascii) (s acc : string) : list string :=
  match s with
  | EmptyString => if String.eqb acc "" then [] else [acc]
  | String c rest =>
      if Ascii.eqb c sep then acc :: split_on sep rest ""
      else split_on sep rest (acc +:+ String c EmptyString)
  end.

Definition parse_field (field : string) : option (string * value) :=
  match split_on "="%char field "" with
  | [k; v] => Some (k, VString v)
  | _ => None
  end.

Fixpoint parse_fields (fields : list string) : option (list (string * value)) :=
  match fields with
  | [] => Some []
  | f :: rest =>
      match parse_field f, parse_fields rest with
      | Some kv, Some kvs => Some (kv :: kvs)
      | _, _ => None
      end
  end.

Definition parse (content : string) : result value :=
  match parse_fields (split_on ";"%char content "") with
  | Some props => Ok (VObject props)
  | None => Thrown (mkJsError "SyntaxError" "Unexpected token" None None)
  end.

Fixpoint print_fields (props : list (string * value)) : string :=
  match props with
  | [] => ""
  | (k, VString v) :: rest => k +:+ "=" +:+ v +:+ ";" +:+ print_fields rest
  | _ :: rest => print_fields rest
  end.

Definition stringify (v : value) : string :=
  match v with
  | VObject props => print_fields props
  | _ => "null"
  end.

#[export] Instance runtime : Runtime := {|
  World := Script;
  tmpdir := "/tmp";
  sha256_hex := fun str => "sha256(" +:+ str +:+ ")";
  JSON_parse := parse;
  JSON_stringify := stringify;
  toISOString_now := clock;
  axios_post_token := fun w =>
    let '(r, rest) := next (token_answers w) in
    (r, mkScript rest (fetch_answers w) (metadata_answers w) (download_answers w)
                 (account_answers w) (clock w));
  fetch_token := fun w =>
    let '(r, rest) := next (fetch_answers w) in
    (r, mkScript (token_answers w) rest (metadata_answers w) (download_answers w)
                 (account_answers w) (clock w));
  filesGetMetadata := fun _ _ w =>
    let '(r, rest) := next (metadata_answers w) in
    (r, mkScript (token_answers w) (fetch_answers w) rest (download_answers w)
                 (account_answers w) (clock w));
  filesDownload := fun _ _ w =>
    let '(r, rest) := next (download_answers w) in
    (r, mkScript (token_answers w) (fetch_answers w) (metadata_answers w) rest
                 (account_answers w) (clock w));
  usersGetCurrentAccount := fun _ w =>
    let '(r, rest) := next (account_answers w) in
    (r, mkScript (token_answers w) (fetch_answers w) (metadata_answers w)
                 (download_answers w) rest (clock w))
|}.

(** Answers used by the scenarios. *)
Definition token_ok (token : string) : result value :=
  Ok (VObject [("access_token", VString token); ("token_type", VString "bearer")]).

Definition token_rejection : JsError :=
  mkJsError "AxiosError" "Request failed with status code 400" None
            (Some (400%Z, "invalid_grant")).

Definition token_rejected : result value := Thrown token_rejection.

Definition fetch_ok (token : string) : result FetchResponse :=
  Ok (mkFetchResponse true (Ok "")
        (Ok (VObject [("access_token", VString token)]))).

Definition expired_token : JsError :=
  mkJsError "DropboxResponseError" "Response failed with a 401 code" (Some 401%Z) None.

Definition not_found : JsError :=
  mkJsError "DropboxResponseError" "Response failed with a 409 code" (Some 409%Z) None.

Definition file_v (bytes revision : string) : DownloadResult :=
  mkDownloadResult (DBuffer bytes) DUndefined (Some revision)
                   (Some "2024-05-01T10:00:00Z").

Definition account_ok : result value :=
  Ok (VObject [("result", VObject [("name", VObject [("display_name", VString "Ana")])])]).

Definition script (tokens : list (result value)) (metas : list (result MetadataResult))
    (downloads : list (result DownloadResult)) : Script :=
  mkScript tokens [] metas downloads [account_ok] "2024-06-01T00:00:00.000Z".

Definition start {V} (v : V) (fs : gmap string Node) (w : Script) : State V :=
  mkState v fs w [].

End Mock.

(** ** Vocabulary of the statements *)

(** The text [fs.writeFileSync] puts on the disk, when it accepts the data. *)
Definition data_content (d : FileData) : option string :=
  match d with
  | DBuffer content | DString content => Some content
  | DUndefined | DBlob _ => None
  end.

(** [s] has [sub] somewhere in it. *)
Definition mentions (sub s : string) : bool :=
  match String.index 0 sub s with Some _ => true | None => false end.

(** An error that carries the status and the body the token endpoint
    answered with: as the [response] of an axios error does, or as a status
    of its own and a message quoting the body. *)
Definition carries_status_and_body (x : JsError) (endpoint_status : Z) (body : string) : Prop :=
  response x = Some (endpoint_status, body) \/
  (status x = Some endpoint_status /\ mentions body (message x) = true).

(** A [DownloadError] as the specification describes it: an error of that
    name that identifies the remote path and the number of attempts. *)
Definition is_DownloadError (x : JsError) (dropboxPath : string) (attempts_made : string) : Prop :=
  e_name x = "DownloadError" /\
  mentions dropboxPath (message x) = true /\
  mentions attempts_made (message x) = true.

Definition no_transfer (e : Event) : bool := negb (is_download_call e) && negb (is_write e).

Section Vocabulary.
Context `{Runtime}.

(** From [st] to [st'] no file changed, nothing was downloaded and nothing
    written. *)
Definition quiet {V} (st st' : State V) : Prop :=
  files st' = files st /\
  exists new, trace st' = trace st ++ new /\ forallb no_transfer new = true.

Definition quiet_run {V A} (m : M (V:=V) A) : Prop :=
  forall st r st', m st = (r, st') -> quiet st st'.

(** The state once the [catch] block has dropped the credentials. *)
Definition cleared (st : State Retry.Vars) : State Retry.Vars :=
  mkState (Retry.mkVars None VNull) (files st) (world st) (trace st).

(** What a call of [Retry.getDropboxInstance] can have done. *)
Inductive instance_outcome (st : State Retry.Vars)
    : result (option Client) -> State Retry.Vars -> Prop :=
| instance_kept :
    Retry.holds_credentials (vars st) = true ->
    instance_outcome st (Ok (Retry.dbxInstance (vars st))) st
| instance_refreshed access_token w :
    Retry.holds_credentials (vars st) = false ->
    instance_outcome st (Ok (Some (Dropbox access_token)))
      (mkState (Retry.mkVars (Some (Dropbox access_token)) access_token)
               (files st) w (trace st ++ [TokenRequest true]))
| instance_failed w answered :
    Retry.holds_credentials (vars st) = false ->
    instance_outcome st (Thrown Retry.refresh_failed)
      (mkState (vars st) (files st) w (trace st ++ [TokenRequest answered])).

(** The metadata record of the retry-capable service, as written. *)
Definition retry_meta_text (response : DownloadResult) (last_updated : string) : string :=
  JSON_stringify (object_literal
    [("rev", rev_value (rev response));
     ("server_modified", rev_value (server_modified response));
     ("last_updated", VString last_updated)]).

(** The metadata record of the simplified service, as written. *)
Definition simple_meta_text (response : DownloadResult) : string :=
  JSON_stringify (object_literal
    [("rev", rev_value (rev response));
     ("server_modified", rev_value (server_modified response))]).

(** The state in which a download attempt that got its content from the
    call answered in [sa] and wrote both files ends. *)
Definition downloaded {V} (dropboxPath localPath metaPath : string) (sa : State V)
    (w : World) (content meta : string) : State V :=
  mkState (vars sa)
    (<[metaPath := File meta]> (<[localPath := File content]> (files sa)))
    w
    (trace sa ++ [DownloadCall dropboxPath true; WriteFile localPath; WriteFile metaPath]).

(** The state in which an attempt whose download call is rejected ends. *)
Definition rejected {V} (dropboxPath : string) (sa : State V) (w : World) : State V :=
  mkState (vars sa) (files sa) w (trace sa ++ [DownloadCall dropboxPath false]).

(** The state at the start of attempt [n + 1], and the error held in
    [lastError], when the first [n] attempts were all rejected with status
    401 and each was followed by the invalidation. *)
Fixpoint after_rejections (dropboxPath localPath metaPath : string) (n : nat)
    (lastError : option JsError) (st : State Retry.Vars)
    : option (option JsError * State Retry.Vars) :=
  match n with
  | O => Some (lastError, st)
  | S n' =>
      match Retry.download_attempt dropboxPath localPath metaPath st with
      | (Thrown error, st1) =>
          if status_is_401 error
          then after_rejections dropboxPath localPath metaPath n' (Some error) (cleared st1)
          else None
      | (Ok _, _) => None
      end
  end.

(** The fast path of a [downloadFile]: with both cache files there, a
    metadata record that parses and a remote revision strictly equal to the
    cached one, it returns the local path having downloaded and written
    nothing. *)
Definition short_circuits {V} (getInstance : M (V:=V) (option Client))
    (download_file : M (V:=V) string) (dropboxPath localPath metaPath : string) : Prop :=
  forall (st sa : State V) content cachedMeta c currentMeta w cached_rev,
    is_Some (files st !! localPath) ->
    files st !! metaPath = Some (File content) ->
    JSON_parse content = Ok cachedMeta ->
    getInstance st = (Ok (Some c), sa) ->
    filesGetMetadata c dropboxPath (world sa) = (Ok currentMeta, w) ->
    get_prop cachedMeta "rev" = Ok cached_rev ->
    rev_strict_equal (meta_rev currentMeta) cached_rev = true ->
    exists st',
      download_file st = (Ok localPath, st') /\
      files st' = files st /\
      exists new, trace st' = trace st ++ new /\
        count is_download_call new = 0%nat /\ count is_write new = 0%nat.

(** A failed cache check is not seen by the caller: when the [try] block of
    the check throws, [downloadFile] is what the statements after the check
    make of the state the check left. *)
Definition falls_through {V} (probe : M (V:=V) (option string))
    (download_file rest : M (V:=V) string) (localPath metaPath : string) : Prop :=
  forall (st st1 : State V) error,
    is_Some (files st !! localPath) ->
    is_Some (files st !! metaPath) ->
    probe st = (Thrown error, st1) ->
    download_file st = rest st1.


End Vocabulary.

(** ** Scenarios *)

Module Scenario.
Import Mock.

Definition remote_path : string := "/a/b.txt".

Definition revision_1 : string := "rev=rev1;server_modified=2024-05-01T10:00:00Z;".

(** The cache of each service holding [remote_path] at revision [rev1]. *)
Definition retry_cache : gmap string Node :=
  <[Retry.metaFilePath remote_path := File revision_1]>
    (<[Retry.getCacheFilePath remote_path := File "hello"]> ∅).

Definition simple_cache : gmap string Node :=
  <[Simple.metaFilePath remote_path := File revision_1]>
    (<[Simple.getCacheFilePath remote_path := File "hello"]> ∅).

Definition same_revision : result MetadataResult := Ok (mkMetadataResult (Some "rev1")).

(** The cached revision is still the remote one. *)
Definition retry_fresh : State Retry.Vars :=
  start Retry.initial retry_cache (script [token_ok "t1"] [same_revision] []).

Definition simple_fresh : State Simple.Vars :=
  start Simple.initial simple_cache
        (mkScript [] [fetch_ok "t1"] [same_revision] [] [account_ok] "2024-06-01T00:00:00.000Z").

(** The metadata query finds no network; the download then works. *)
Definition retry_check_fails : State Retry.Vars :=
  start Retry.initial retry_cache
        (script [token_ok "t1"] [] [Ok (file_v "hello again" "rev2")]).

Definition simple_check_fails : State Simple.Vars :=
  start Simple.initial simple_cache
        (mkScript [] [fetch_ok "t1"] [] [Ok (file_v "hello again" "rev2")] [account_ok]
                  "2024-06-01T00:00:00.000Z").

(** Nothing cached; the first download is rejected, the second answered. *)
Definition expired_then_fine : State Retry.Vars :=
  start Retry.initial ∅
        (script [token_ok "t1"; token_ok "t2"] []
                [Thrown expired_token; Ok (file_v "hello" "rev1")]).

(** Nothing cached; every download is rejected. *)
Definition always_rejected : State Retry.Vars :=
  start Retry.initial ∅
        (script [token_ok "t1"; token_ok "t2"; token_ok "t3"] []
                [Thrown expired_token; Thrown expired_token; Thrown expired_token]).

(** Nothing cached; the remote path does not exist. *)
Definition missing_remotely : State Retry.Vars :=
  start Retry.initial ∅ (script [token_ok "t1"] [] [Thrown not_found]).

(** The token endpoint rejects the refresh token. *)
Definition refresh_rejected : State Retry.Vars :=
  start Retry.initial ∅ (script [token_rejected] [] []).

(** Nothing cached; every call is answered. *)
Definition retry_all_fine : State Retry.Vars :=
  start Retry.initial ∅ (script [token_ok "t1"] [] [Ok (file_v "hello" "rev1")]).


End Scenario.

(** ** Vocabulary of the further properties *)

(** The client held, if any, is bound to the token held. *)
Definition coherent (v : Retry.Vars) : Prop :=
  forall c, Retry.dbxInstance v = Some c -> accessToken c = Retry.currentAccessToken v.

(** [after] differs from [before] at most at the two paths. *)
Definition same_elsewhere (localPath metaPath : string) (before after : gmap string Node) : Prop :=
  forall x, x <> localPath -> x <> metaPath -> after !! x = before !! x.

Section RunSummaries.
Context `{Runtime}.

(** What a run from [st] to [st'] of a function working for the cache files
    [localPath] and [metaPath] may have done: [downloads] download calls and
    [tokens] token requests at most, no file touched but those two. *)
Definition within {V} (localPath metaPath : string) (downloads tokens : nat)
    (st st' : State V) : Prop :=
  same_elsewhere localPath metaPath (files st) (files st') /\
  exists new,
    trace st' = trace st ++ new /\
    (count is_download_call new <= downloads)%nat /\
    (count is_token_request new <= tokens)%nat.

(** The metadata object of the retry-capable service, before it is turned
    into text. *)
Definition retry_meta_object (response : DownloadResult) (last_updated : string) : value :=
  object_literal
    [("rev", rev_value (rev response));
     ("server_modified", rev_value (server_modified response));
     ("last_updated", VString last_updated)].

Definition simple_meta_object (response : DownloadResult) : value :=
  object_literal
    [("rev", rev_value (rev response));
     ("server_modified", rev_value (server_modified response))].

End RunSummaries.

Section MoreSummaries.
Context `{Runtime}.

(** From [sa] to [st1] the variables of the module were left alone, no
    token was asked for, at most [downloads] download calls were made and
    no file was touched but the two. *)
Definition follows {V} (localPath metaPath : string) (downloads : nat)
    (sa st1 : State V) : Prop :=
  vars st1 = vars sa /\
  same_elsewhere localPath metaPath (files sa) (files st1) /\
  exists tail,
    trace st1 = trace sa ++ tail /\
    count is_token_request tail = 0%nat /\
    (count is_download_call tail <= downloads)%nat.

End MoreSummaries.

(** ** Further scenarios *)

Module Cases.
Import Mock.

Definition noon : string := "2024-06-01T00:00:00.000Z".

(** The token endpoint answers 200 with a body that has no [access_token]. *)
Definition token_missing : State Retry.Vars :=
  start Retry.initial ∅ (script [Ok (VObject [("token_type", VString "bearer")])] [] []).

(** A directory sits where the metadata file should go. *)
Definition meta_is_directory : State Retry.Vars :=
  start Retry.initial
        (<[Retry.metaFilePath Scenario.remote_path := Directory]> ∅)
        (script [token_ok "t1"] [] [Ok (file_v "hello" "rev1")]).

(** A download, then a metadata query that reports the same revision. *)
Definition retry_download_then_query : State Retry.Vars :=
  start Retry.initial ∅
        (script [token_ok "t1"] [Scenario.same_revision] [Ok (file_v "hello" "rev1")]).

Definition simple_download_then_query : State Simple.Vars :=
  start Simple.initial ∅
        (mkScript [] [fetch_ok "t1"] [Scenario.same_revision] [Ok (file_v "hello" "rev1")]
                  [account_ok] noon).

(** The token endpoint refuses the refresh token of the simplified service. *)
Definition fetch_refused : FetchResponse :=
  mkFetchResponse false (Ok "invalid_grant") (Ok (VObject [("error", VString "invalid_grant")])).

Definition simple_refused : State Simple.Vars :=
  start Simple.initial ∅ (mkScript [] [Ok fetch_refused] [] [] [] noon).

(** The token is obtained, the connection test finds no network. *)
Definition simple_test_fails : State Simple.Vars :=
  start Simple.initial ∅ (mkScript [] [fetch_ok "t1"] [] [] [] noon).

(** The simplified service holds a client whose token has expired. *)
Definition simple_holding_expired : State Simple.Vars :=
  start (Simple.mkVars (Some (Dropbox (VString "old")))) ∅
        (mkScript [] [fetch_ok "t2"] [] [Thrown expired_token] [account_ok] noon).

Definition other_path : string := "/a/c.txt".

(** Another remote path is cached while [Scenario.remote_path] is fetched. *)
Definition retry_with_neighbour : State Retry.Vars :=
  start Retry.initial
        (<[Retry.getCacheFilePath other_path := File "neighbour"]> ∅)
        (script [token_ok "t1"] [] [Ok (file_v "hello" "rev1")]).

End Cases.

(** ** Vocabulary of the refetch *)

Section RefetchVocabulary.
Context `{Runtime}.

(** The cache holds an entry that [downloadFile] will not serve, and [st0]
    is the state its cache check leaves: either the metadata parses, the
    metadata query is answered and the cached revision is not the revision
    of the answer, or the [try] block of the check throws. *)
Inductive needs_refetch {V} (getInstance : M (V:=V) (option Client))
    (probe : M (V:=V) (option string)) (dropboxPath localPath metaPath : string)
    (st : State V) : State V -> Prop :=
| revision_differs content cachedMeta c sa currentMeta w cached_rev :
    is_Some (files st !! localPath) ->
    files st !! metaPath = Some (File content) ->
    JSON_parse content = Ok cachedMeta ->
    getInstance st = (Ok (Some c), sa) ->
    filesGetMetadata c dropboxPath (world sa) = (Ok currentMeta, w) ->
    get_prop cachedMeta "rev" = Ok cached_rev ->
    cached_rev <> rev_value (meta_rev currentMeta) ->
    needs_refetch getInstance probe dropboxPath localPath metaPath st
      (mkState (vars sa) (files sa) w (trace sa ++ [GetMetadata dropboxPath true]))
| check_inconclusive error st0 :
    is_Some (files st !! localPath) ->
    is_Some (files st !! metaPath) ->
    probe st = (Thrown error, st0) ->
    needs_refetch getInstance probe dropboxPath localPath metaPath st st0.

End RefetchVocabulary.

(** ** Scenarios of the refetch *)

Module Stale.
Import Mock.

Definition newer_revision : result MetadataResult := Ok (mkMetadataResult (Some "rev2")).

(** The cache holds revision [rev1], the remote is at [rev2]; the first
    download call is rejected, the second answered. *)
Definition retry_expired : State Retry.Vars :=
  start Retry.initial Scenario.retry_cache
        (script [token_ok "t1"; token_ok "t2"] [newer_revision]
                [Thrown expired_token; Ok (file_v "hello again" "rev2")]).

(** The cache holds revision [rev1], the remote is at [rev2]. *)
Definition simple_stale : State Simple.Vars :=
  start Simple.initial Scenario.simple_cache
        (mkScript [] [fetch_ok "t1"] [newer_revision] [Ok (file_v "hello again" "rev2")]
                  [account_ok] Cases.noon).

(** Nothing cached; the first download call is rejected, and the token
    endpoint then refuses the refresh. *)
Definition rejected_then_refused : State Retry.Vars :=
  start Retry.initial ∅
        (script [token_ok "t1"; token_rejected] [] [Thrown expired_token]).

End Stale.

(** ** General facts *)

Section MonadFacts.
Context `{Runtime} {V : Type}.

Lemma bind_Ok {A B} (m : M A) (k : A -> M B) (st st' : State V) a :
  m st = (Ok a, st') -> bind m k st = k a st'.
Proof. intros E. unfold bind. now rewrite E. Qed.

Lemma bind_Thrown {A B} (m : M A) (k : A -> M B) (st st' : State V) e :
  m st = (Thrown e, st') -> bind m k st = (Thrown e, st').
Proof. intros E. unfold bind. now rewrite E. Qed.

Lemma try_catch_Ok {A} (m : M A) h (st st' : State V) a :
  m st = (Ok a, st') -> try_catch m h st = (Ok a, st').
Proof. intros E. unfold try_catch. now rewrite E. Qed.

Lemma try_catch_Thrown {A} (m : M A) h (st st' : State V) e :
  m st = (Thrown e, st') -> try_catch m h st = h e st'.
Proof. intros E. unfold try_catch. now rewrite E. Qed.

End MonadFacts.

Lemma count_app f (a b : list Event) : count f (a ++ b) = (count f a + count f b)%nat.
Proof. unfold count. now rewrite List.filter_app, List.length_app. Qed.

Lemma append_cons (c : ascii) (a b : string) : String c a +:+ b = String c (a +:+ b).
Proof. reflexivity. Qed.

Lemma append_length (a b : string) :
  String.length (a +:+ b) = (String.length a + String.length b)%nat.
Proof.
  induction a as [|c a IH]; [reflexivity |].
  rewrite append_cons. simpl. now rewrite IH.
Qed.

Lemma append_neq (a b : string) : b <> "" -> a <> a +:+ b.
Proof.
  intros Hb E. apply (f_equal String.length) in E. rewrite append_length in E.
  destruct b; [congruence | simpl in E; lia].
Qed.

Lemma append_assoc (a b c : string) : (a +:+ b) +:+ c = a +:+ (b +:+ c).
Proof.
  induction a as [|x a IH]; [reflexivity|].
  rewrite !append_cons. now rewrite IH.
Qed.

Lemma append_inj_l (a x y : string) : a +:+ x = a +:+ y -> x = y.
Proof.
  induction a as [|c a IH]; [trivial|].
  rewrite !append_cons. intros E. injection E. exact IH.
Qed.

(** ** The retry-capable service: credentials *)

Section RetryFacts.
Context `{Runtime}.
Import Retry.

Lemma invalidate_eq (st : State Vars) : invalidate st = (Ok tt, cleared st).
Proof. reflexivity. Qed.

Lemma holds_credentials_test (v : Vars) :
  negb (bool_decide (is_Some (dbxInstance v))) || negb (truthy (currentAccessToken v))
  = negb (holds_credentials v).
Proof. unfold holds_credentials. now rewrite negb_andb. Qed.

Lemma getDropboxInstance_held (st : State Vars) :
  holds_credentials (vars st) = true ->
  getDropboxInstance st = (Ok (dbxInstance (vars st)), st).
Proof.
  intros Hh. unfold getDropboxInstance, bind, get_vars.
  rewrite holds_credentials_test, Hh. reflexivity.
Qed.

Lemma getDropboxInstance_refreshed (st : State Vars) data w access_token :
  holds_credentials (vars st) = false ->
  axios_post_token (world st) = (Ok data, w) ->
  get_prop data "access_token" = Ok access_token ->
  getDropboxInstance st =
    (Ok (Some (Dropbox access_token)),
     mkState (mkVars (Some (Dropbox access_token)) access_token)
             (files st) w (trace st ++ [TokenRequest true])).
Proof.
  intros Hh Hpost Htok.
  unfold getDropboxInstance, bind, get_vars.
  rewrite holds_credentials_test, Hh. cbn [negb].
  unfold refreshAccessToken, try_catch, bind, call, lift, set_vars, get_vars, ret.
  rewrite Hpost. cbn. rewrite Htok. reflexivity.
Qed.

Lemma getDropboxInstance_post_failed (st : State Vars) error w :
  holds_credentials (vars st) = false ->
  axios_post_token (world st) = (Thrown error, w) ->
  getDropboxInstance st =
    (Thrown refresh_failed,
     mkState (vars st) (files st) w (trace st ++ [TokenRequest false])).
Proof.
  intros Hh Hpost.
  unfold getDropboxInstance, bind, get_vars.
  rewrite holds_credentials_test, Hh. cbn [negb].
  unfold refreshAccessToken, try_catch, bind, call, throw.
  rewrite Hpost. reflexivity.
Qed.

Lemma getDropboxInstance_no_data (st : State Vars) data error w :
  holds_credentials (vars st) = false ->
  axios_post_token (world st) = (Ok data, w) ->
  get_prop data "access_token" = Thrown error ->
  getDropboxInstance st =
    (Thrown refresh_failed,
     mkState (vars st) (files st) w (trace st ++ [TokenRequest true])).
Proof.
  intros Hh Hpost Htok.
  unfold getDropboxInstance, bind, get_vars.
  rewrite holds_credentials_test, Hh. cbn [negb].
  unfold refreshAccessToken, try_catch, bind, call, lift, throw.
  rewrite Hpost. cbn. rewrite Htok. reflexivity.
Qed.

Lemma getDropboxInstance_outcome (st : State Vars) :
  instance_outcome st (fst (getDropboxInstance st)) (snd (getDropboxInstance st)).
Proof.
  destruct (holds_credentials (vars st)) eqn:Hh.
  - rewrite getDropboxInstance_held by assumption. now constructor.
  - destruct (axios_post_token (world st)) as [[data|error] w] eqn:Hpost.
    + destruct (get_prop data "access_token") as [tok|e] eqn:Htok.
      * erewrite getDropboxInstance_refreshed by eassumption. now constructor.
      * erewrite getDropboxInstance_no_data by eassumption. now constructor.
    + erewrite getDropboxInstance_post_failed by eassumption. now constructor.
Qed.

Lemma getDropboxInstance_inv (st : State Vars) r st' :
  getDropboxInstance st = (r, st') -> instance_outcome st r st'.
Proof. intros E. pose proof (getDropboxInstance_outcome st) as O. now rewrite E in O. Qed.

Lemma holds_credentials_Some (v : Vars) :
  holds_credentials v = true -> exists c, dbxInstance v = Some c.
Proof.
  unfold holds_credentials. intros Hh. apply andb_true_iff in Hh as [Hc _].
  apply bool_decide_eq_true in Hc. destruct Hc as [c Hc]. eauto.
Qed.

(** [getDropboxInstance] never hands back [null]. *)
Lemma getDropboxInstance_client (st : State Vars) dbx st' :
  getDropboxInstance st = (Ok dbx, st') -> exists c, dbx = Some c.
Proof.
  intros E. apply getDropboxInstance_inv in E. inversion E; subst; eauto.
  now apply holds_credentials_Some.
Qed.

(** It touches no file, and asks for a token at most once. *)
Lemma getDropboxInstance_frame (st : State Vars) r st' :
  getDropboxInstance st = (r, st') ->
  files st' = files st /\
  exists new, trace st' = trace st ++ new /\
    count is_download_call new = 0%nat /\ count is_write new = 0%nat /\
    count is_token_request new =
      (if holds_credentials (vars st) then 0 else 1)%nat.
Proof.
  intros E. apply getDropboxInstance_inv in E.
  inversion E as [Hh | tok w Hh | w b Hh]; subst; cbn; split; try reflexivity.
  - exists []. rewrite app_nil_r, Hh. auto.
  - eexists. split; [reflexivity|]. rewrite Hh. auto.
  - eexists. split; [reflexivity|]. rewrite Hh. auto.
Qed.

Lemma getDropboxInstance_status (st : State Vars) error st' :
  getDropboxInstance st = (Thrown error, st') -> status error = None.
Proof. intros E. apply getDropboxInstance_inv in E. now inversion E. Qed.

End RetryFacts.

(** ** The retry-capable service: one download attempt *)

Section WriteFacts.
Context `{Runtime} {V : Type}.

Lemma writeFileSync_Ok (path : string) (data : FileData) (st : State V) content :
  data_content data = Some content ->
  files st !! path <> Some Directory ->
  writeFileSync path data st =
    (Ok tt, mkState (vars st) (<[path := File content]> (files st)) (world st)
                    (trace st ++ [WriteFile path])).
Proof.
  intros Hd Hn. unfold writeFileSync.
  destruct data; try discriminate; injection Hd as ->;
    (destruct (files st !! path) as [[|]|]; [reflexivity | congruence | reflexivity]).
Qed.

Lemma writeFileSync_inv (path : string) (data : FileData) (st : State V) r st' :
  writeFileSync path data st = (r, st') ->
  (exists content, data_content data = Some content /\
     files st !! path <> Some Directory /\ r = Ok tt /\
     st' = mkState (vars st) (<[path := File content]> (files st)) (world st)
                   (trace st ++ [WriteFile path]))
  \/ (exists error, r = Thrown error /\ status error = None /\ st' = st /\
        (data_content data = None \/ files st !! path = Some Directory)).
Proof.
  unfold writeFileSync. intros E.
  destruct data; cbn in *;
    try (injection E as <- <-; right; eexists; repeat split; auto; fail);
    (destruct (files st !! path) as [[|]|] eqn:Hl; injection E as <- <-;
     [ left; eexists; repeat split; congruence
     | right; eexists; repeat split; auto
     | left; eexists; repeat split; congruence ]).
Qed.

End WriteFacts.

Section RetryAttempt.
Context `{Runtime}.
Import Retry.
Variables dropboxPath localPath metaPath : string.

Lemma download_attempt_rejected (st sa : State Vars) c error w :
  getDropboxInstance st = (Ok (Some c), sa) ->
  filesDownload c dropboxPath (world sa) = (Thrown error, w) ->
  download_attempt dropboxPath localPath metaPath st = (Thrown error, rejected dropboxPath sa w).
Proof.
  intros Hi Hd. unfold download_attempt.
  rewrite (bind_Ok _ _ _ _ _ Hi).
  unfold bind, method, call. rewrite Hd. reflexivity.
Qed.

Lemma download_attempt_no_client (st sa : State Vars) error :
  getDropboxInstance st = (Thrown error, sa) ->
  download_attempt dropboxPath localPath metaPath st = (Thrown error, sa).
Proof. intros Hi. unfold download_attempt. now rewrite (bind_Thrown _ _ _ _ _ Hi). Qed.

Lemma download_attempt_downloaded (st sa : State Vars) c response w content :
  getDropboxInstance st = (Ok (Some c), sa) ->
  filesDownload c dropboxPath (world sa) = (Ok response, w) ->
  data_content (fileBinary response) = Some content ->
  files sa !! localPath <> Some Directory ->
  files sa !! metaPath <> Some Directory ->
  localPath <> metaPath ->
  download_attempt dropboxPath localPath metaPath st
  = (Ok localPath, downloaded dropboxPath localPath metaPath sa w content
          (retry_meta_text response (toISOString_now w))).
Proof.
  intros Hi Hd Hc Hl Hm Hne. unfold download_attempt.
  rewrite (bind_Ok _ _ _ _ _ Hi).
  unfold method.
  erewrite bind_Ok; [| unfold call; rewrite Hd; reflexivity ].
  erewrite bind_Ok; [| apply writeFileSync_Ok; [exact Hc | exact Hl] ].
  erewrite bind_Ok; [| reflexivity ].
  erewrite bind_Ok.
  2:{ apply writeFileSync_Ok; [reflexivity |]. cbn.
      rewrite lookup_insert_ne by exact Hne. exact Hm. }
  unfold ret, downloaded. cbn. rewrite <- !app_assoc. reflexivity.
Qed.

(** Only the download call itself can fail with a status. *)
Lemma download_attempt_status (st st1 : State Vars) error s :
  download_attempt dropboxPath localPath metaPath st = (Thrown error, st1) ->
  status error = Some s ->
  exists c sa w,
    getDropboxInstance st = (Ok (Some c), sa) /\
    filesDownload c dropboxPath (world sa) = (Thrown error, w) /\
    st1 = rejected dropboxPath sa w.
Proof.
  intros E Hs. unfold download_attempt in E.
  destruct (getDropboxInstance st) as [[dbx|e0] sa] eqn:Hi.
  2:{ rewrite (bind_Thrown _ _ _ _ _ Hi) in E. injection E as -> ->.
      apply getDropboxInstance_status in Hi. congruence. }
  rewrite (bind_Ok _ _ _ _ _ Hi) in E.
  destruct (getDropboxInstance_client _ _ _ Hi) as [c ->].
  unfold method in E.
  destruct (filesDownload c dropboxPath (world sa)) as [[response|e1] w] eqn:Hd.
  2:{ unfold bind, call in E. rewrite Hd in E. injection E as -> <-.
      exists c, sa, w. auto. }
  exfalso.
  erewrite bind_Ok in E; [| unfold call; rewrite Hd; reflexivity ].
  match type of E with bind (writeFileSync ?p ?d) _ ?s = _ =>
    destruct (writeFileSync p d s) as [r1 s1] eqn:W1 end.
  destruct (writeFileSync_inv _ _ _ _ _ W1) as [(content & _ & _ & -> & ->)|(e2 & -> & Hn & _)].
  2:{ rewrite (bind_Thrown _ _ _ _ _ W1) in E. injection E as -> _. congruence. }
  rewrite (bind_Ok _ _ _ _ _ W1) in E.
  erewrite bind_Ok in E; [| reflexivity ].
  match type of E with bind (writeFileSync ?p ?d) _ ?s = _ =>
    destruct (writeFileSync p d s) as [r2 s2] eqn:W2 end.
  destruct (writeFileSync_inv _ _ _ _ _ W2) as [(content2 & _ & _ & -> & ->)|(e2 & -> & Hn & _)].
  - rewrite (bind_Ok _ _ _ _ _ W2) in E. discriminate.
  - rewrite (bind_Thrown _ _ _ _ _ W2) in E. injection E as -> _. congruence.
Qed.

Lemma download_attempt_Ok (st st' : State Vars) path :
  download_attempt dropboxPath localPath metaPath st = (Ok path, st') ->
  localPath <> metaPath ->
  path = localPath /\
  exists c sa response w content,
    getDropboxInstance st = (Ok (Some c), sa) /\
    filesDownload c dropboxPath (world sa) = (Ok response, w) /\
    data_content (fileBinary response) = Some content /\
    st' = downloaded dropboxPath localPath metaPath sa w content
          (retry_meta_text response (toISOString_now w)).
Proof.
  intros E Hne. unfold download_attempt in E.
  destruct (getDropboxInstance st) as [[dbx|e0] sa] eqn:Hi.
  2:{ rewrite (bind_Thrown _ _ _ _ _ Hi) in E. discriminate. }
  rewrite (bind_Ok _ _ _ _ _ Hi) in E.
  destruct (getDropboxInstance_client _ _ _ Hi) as [c ->].
  unfold method in E.
  destruct (filesDownload c dropboxPath (world sa)) as [[response|e1] w] eqn:Hd.
  2:{ unfold bind, call in E. rewrite Hd in E. discriminate. }
  erewrite bind_Ok in E; [| unfold call; rewrite Hd; reflexivity ].
  match type of E with bind (writeFileSync ?p ?d) _ ?s = _ =>
    destruct (writeFileSync p d s) as [r1 s1] eqn:W1 end.
  destruct (writeFileSync_inv _ _ _ _ _ W1) as [(content & Hc & _ & -> & ->)|(e2 & -> & _)].
  2:{ rewrite (bind_Thrown _ _ _ _ _ W1) in E. discriminate. }
  rewrite (bind_Ok _ _ _ _ _ W1) in E.
  erewrite bind_Ok in E; [| reflexivity ].
  match type of E with bind (writeFileSync ?p ?d) _ ?s = _ =>
    destruct (writeFileSync p d s) as [r2 s2] eqn:W2 end.
  destruct (writeFileSync_inv _ _ _ _ _ W2) as [(content2 & Hc2 & _ & -> & ->)|(e2 & -> & _)].
  2:{ rewrite (bind_Thrown _ _ _ _ _ W2) in E. discriminate. }
  rewrite (bind_Ok _ _ _ _ _ W2) in E. unfold ret in E. injection E as <- <-.
  split; [reflexivity|].
  exists c, sa, response, w, content. repeat split; auto.
  cbn in Hc2. injection Hc2 as <-.
  unfold downloaded. cbn. rewrite <- !app_assoc. reflexivity.
Qed.

End RetryAttempt.

(** ** Calls that neither download nor write *)

Section Quiet.
Context `{Runtime} {V : Type}.

Lemma quiet_refl (st : State V) : quiet st st.
Proof. split; [reflexivity|]. exists []. now rewrite app_nil_r. Qed.

Lemma quiet_trans (a b c : State V) : quiet a b -> quiet b c -> quiet a c.
Proof.
  intros [F1 (n1 & T1 & Q1)] [F2 (n2 & T2 & Q2)]. split; [congruence|].
  exists (n1 ++ n2). rewrite T2, T1, <- app_assoc. split; [reflexivity|].
  now rewrite forallb_app, Q1, Q2.
Qed.

Lemma quiet_counts (st st' : State V) :
  quiet st st' ->
  files st' = files st /\
  exists new, trace st' = trace st ++ new /\
    count is_download_call new = 0%nat /\ count is_write new = 0%nat.
Proof.
  intros [F (new & T & Q)]. split; [exact F|]. exists new. split; [exact T|].
  clear T. unfold count. induction new as [|e new IH]; [auto|].
  cbn in Q. apply andb_true_iff in Q as [Qe Q]. destruct (IH Q) as [D W].
  unfold no_transfer in Qe. apply andb_true_iff in Qe as [Qd Qw].
  apply negb_true_iff in Qd, Qw. cbn. rewrite Qd, Qw. auto.
Qed.

Lemma quiet_bind {A B} (m : M (V:=V) A) (k : A -> M (V:=V) B) :
  quiet_run m -> (forall a, quiet_run (k a)) -> quiet_run (bind m k).
Proof.
  intros Qm Qk st r st' E. unfold bind in E.
  destruct (m st) as [[a|e] s1] eqn:Em.
  - eapply quiet_trans; [eapply Qm; eassumption | eapply Qk; eassumption].
  - injection E as <- <-. eapply Qm; eassumption.
Qed.

Lemma quiet_try_catch {A} (m : M (V:=V) A) h :
  quiet_run m -> (forall e, quiet_run (h e)) -> quiet_run (try_catch m h).
Proof.
  intros Qm Qh st r st' E. unfold try_catch in E.
  destruct (m st) as [[a|e] s1] eqn:Em.
  - injection E as <- <-. eapply Qm; eassumption.
  - eapply quiet_trans; [eapply Qm; eassumption | eapply Qh; eassumption].
Qed.

Lemma quiet_pure {A} (m : M (V:=V) A) :
  (forall st, snd (m st) = st) -> quiet_run m.
Proof. intros P st r st' E. specialize (P st). rewrite E in P. cbn in P. subst. apply quiet_refl. Qed.

Lemma quiet_ret {A} (a : A) : quiet_run (V:=V) (ret a).
Proof. now apply quiet_pure. Qed.

Lemma quiet_throw {A} e : quiet_run (V:=V) (throw (A:=A) e).
Proof. now apply quiet_pure. Qed.

Lemma quiet_lift {A} (r : result A) : quiet_run (V:=V) (lift r).
Proof. now apply quiet_pure. Qed.

Lemma quiet_get_vars : quiet_run (V:=V) get_vars.
Proof. now apply quiet_pure. Qed.

Lemma quiet_existsSync path : quiet_run (V:=V) (existsSync path).
Proof. now apply quiet_pure. Qed.

Lemma quiet_readFileSync path : quiet_run (V:=V) (readFileSync path).
Proof.
  apply quiet_pure. intros st. unfold readFileSync.
  now destruct (files st !! path) as [[|]|].
Qed.

Lemma quiet_set_vars f : quiet_run (V:=V) (set_vars f).
Proof.
  intros st r st' E. injection E as <- <-. split; [reflexivity|].
  exists []. now rewrite app_nil_r.
Qed.

Lemma quiet_call {A} (f : World -> result A * World) ev :
  (forall r, no_transfer (ev r) = true) -> quiet_run (V:=V) (call f ev).
Proof.
  intros Hev st r st' E. unfold call in E.
  destruct (f (world st)) as [r0 w]. injection E as <- <-.
  split; [reflexivity|]. eexists. split; [reflexivity|]. cbn. now rewrite Hev.
Qed.

Lemma quiet_method {A} dbx (m : Client -> M (V:=V) A) :
  (forall c, quiet_run (m c)) -> quiet_run (method dbx m).
Proof. intros Qm. destruct dbx; [apply Qm | apply quiet_throw]. Qed.

End Quiet.

Create HintDb quiet.
#[local] Hint Resolve quiet_ret quiet_throw quiet_lift quiet_get_vars quiet_existsSync
  quiet_readFileSync quiet_set_vars : quiet.

Ltac quiet_steps :=
  repeat first
    [ apply quiet_bind; [| intros ? ]
    | apply quiet_try_catch; [| intros ? ]
    | apply quiet_method; intros ?
    | apply quiet_call; intros ?; reflexivity
    | solve [ auto with quiet ]
    | solve [ apply quiet_pure; intros ?; reflexivity ]
    | match goal with |- quiet_run (if ?b then _ else _) => destruct b end ].

Section RetryLoop.
Context `{Runtime}.
Import Retry.
Variables dropboxPath localPath metaPath : string.
Variable maxRetries : nat.

Lemma quiet_getDropboxInstance : quiet_run getDropboxInstance.
Proof. unfold getDropboxInstance, refreshAccessToken. quiet_steps. Qed.

Lemma quiet_cache_probe : quiet_run (cache_probe dropboxPath localPath metaPath).
Proof. unfold cache_probe. quiet_steps. Qed.

Lemma quiet_cache_check : quiet_run (cache_check dropboxPath localPath metaPath).
Proof. unfold cache_check. quiet_steps. Qed.

(** The cache check never throws. *)
Lemma cache_check_total (st : State Vars) :
  exists cached st0, cache_check dropboxPath localPath metaPath st = (Ok cached, st0).
Proof.
  unfold cache_check, bind, existsSync.
  destruct (bool_decide (is_Some (files st !! localPath))); cbn.
  - destruct (bool_decide (is_Some (files st !! metaPath))); cbn.
    + unfold try_catch.
      destruct (cache_probe dropboxPath localPath metaPath st) as [[o|e] s]; eauto.
    + eauto.
  - eauto.
Qed.

Lemma cache_check_cached (st : State Vars) :
  is_Some (files st !! localPath) -> is_Some (files st !! metaPath) ->
  cache_check dropboxPath localPath metaPath st
  = try_catch (cache_probe dropboxPath localPath metaPath) (fun _ => ret None) st.
Proof.
  intros Hl Hm. unfold cache_check, bind, existsSync.
  rewrite !bool_decide_eq_true_2 by assumption. reflexivity.
Qed.

Lemma attempts_nil lastError (st : State Vars) :
  attempts dropboxPath localPath metaPath maxRetries [] lastError st
  = (Ok (Fell_through lastError), st).
Proof. reflexivity. Qed.

Lemma attempts_Ok attempt rest lastError (st st1 : State Vars) path :
  download_attempt dropboxPath localPath metaPath st = (Ok path, st1) ->
  attempts dropboxPath localPath metaPath maxRetries (attempt :: rest) lastError st
  = (Ok (Returned path), st1).
Proof. intros E. cbn [attempts]. unfold bind, attempt_. now rewrite E. Qed.

Lemma attempts_Thrown attempt rest lastError (st st1 : State Vars) error :
  download_attempt dropboxPath localPath metaPath st = (Thrown error, st1) ->
  attempts dropboxPath localPath metaPath maxRetries (attempt :: rest) lastError st
  = if status_is_401 error && (attempt <? maxRetries)%nat
    then attempts dropboxPath localPath metaPath maxRetries rest (Some error) (cleared st1)
    else (Ok (Fell_through (Some error)), st1).
Proof.
  intros E. cbn [attempts]. unfold bind, attempt_. rewrite E.
  destruct (status_is_401 error && (attempt <? maxRetries)%nat); reflexivity.
Qed.

Lemma attempts_after_rejections n : forall first rest lastError (st : State Vars) last s,
  after_rejections dropboxPath localPath metaPath n lastError st = Some (last, s) ->
  (first + n <= maxRetries)%nat ->
  attempts dropboxPath localPath metaPath maxRetries (seq first n ++ rest) lastError st
  = attempts dropboxPath localPath metaPath maxRetries rest last s.
Proof.
  induction n as [|n IH]; intros first rest lastError st last s R Hle.
  - cbn in R. now injection R as <- <-.
  - cbn [after_rejections] in R.
    destruct (download_attempt dropboxPath localPath metaPath st) as [[path|error] st1] eqn:E;
      [discriminate|].
    destruct (status_is_401 error) eqn:S401; [|discriminate].
    cbn [seq app]. rewrite (attempts_Thrown _ _ _ _ _ _ E), S401.
    replace (first <? maxRetries)%nat with true by (symmetry; apply Nat.ltb_lt; lia).
    cbn [andb]. apply IH; [exact R | lia].
Qed.

End RetryLoop.

Section RetryDownload.
Context `{Runtime}.
Import Retry.
Variables dropboxPath localPath metaPath : string.
Variable maxRetries : nat.

Lemma attempts_total range : forall lastError (st : State Vars),
  exists exit st',
    attempts dropboxPath localPath metaPath maxRetries range lastError st = (Ok exit, st').
Proof.
  induction range as [|attempt rest IH]; intros lastError st.
  - rewrite attempts_nil. eauto.
  - destruct (download_attempt dropboxPath localPath metaPath st) as [[path|error] st1] eqn:E.
    + rewrite (attempts_Ok _ _ _ _ _ _ _ _ _ _ E). eauto.
    + rewrite (attempts_Thrown _ _ _ _ _ _ _ _ _ _ E).
      destruct (status_is_401 error && (attempt <? maxRetries)%nat); eauto.
Qed.

Lemma download_with_retries_exit (st0 st' : State Vars) exit :
  attempts dropboxPath localPath metaPath maxRetries (seq 1 maxRetries) None st0
  = (Ok exit, st') ->
  download_with_retries dropboxPath localPath metaPath maxRetries st0
  = match exit with
    | Returned path => (Ok path, st')
    | Fell_through (Some lastError) => (Thrown lastError, st')
    | Fell_through None => (Thrown unknown_error, st')
    end.
Proof.
  intros E. unfold download_with_retries. rewrite (bind_Ok _ _ _ _ _ E).
  destruct exit as [path|[e|]]; reflexivity.
Qed.

Lemma download_with_retries_thrown (st0 st' : State Vars) error :
  attempts dropboxPath localPath metaPath maxRetries (seq 1 maxRetries) None st0
  = (Ok (Fell_through (Some error)), st') ->
  download_with_retries dropboxPath localPath metaPath maxRetries st0 = (Thrown error, st').
Proof. intros E. now rewrite (download_with_retries_exit _ _ _ E). Qed.

Lemma download_with_retries_returned (st0 st' : State Vars) path :
  attempts dropboxPath localPath metaPath maxRetries (seq 1 maxRetries) None st0
  = (Ok (Returned path), st') ->
  download_with_retries dropboxPath localPath metaPath maxRetries st0 = (Ok path, st').
Proof. intros E. now rewrite (download_with_retries_exit _ _ _ E). Qed.

Lemma attempts_fell_through n : forall first lastError (st st' : State Vars) last,
  (first + n = S maxRetries)%nat ->
  attempts dropboxPath localPath metaPath maxRetries (seq first n) lastError st
  = (Ok (Fell_through last), st') ->
  (n = 0%nat /\ last = lastError /\ st' = st) \/
  exists k held s error,
    (k < n)%nat /\
    after_rejections dropboxPath localPath metaPath k lastError st = Some (held, s) /\
    download_attempt dropboxPath localPath metaPath s = (Thrown error, st') /\
    last = Some error /\
    (status_is_401 error = true -> (first + k = maxRetries)%nat).
Proof.
  induction n as [|n IH]; intros first lastError st st' last Hn E.
  - left. rewrite attempts_nil in E. injection E as <- <-. auto.
  - right. cbn [seq] in E.
    destruct (download_attempt dropboxPath localPath metaPath st) as [[path|error] st1] eqn:D.
    { rewrite (attempts_Ok _ _ _ _ _ _ _ _ _ _ D) in E. discriminate. }
    rewrite (attempts_Thrown _ _ _ _ _ _ _ _ _ _ D) in E.
    destruct (status_is_401 error) eqn:S401;
      [rewrite andb_true_l in E | rewrite andb_false_l in E].
    + destruct (first <? maxRetries)%nat eqn:L.
      * apply Nat.ltb_lt in L.
        destruct (IH (S first) (Some error) (cleared st1) st' last ltac:(lia) E)
          as [(-> & _) | (k & held & s & e & Hk & R & D' & -> & Hmax)]; [lia|].
        exists (S k), held, s, e. repeat split; [lia | | exact D' | ].
        -- cbn [after_rejections]. now rewrite D, S401.
        -- intros S'. specialize (Hmax S'). lia.
      * apply Nat.ltb_ge in L. inversion E; subst.
        exists 0%nat, lastError, st, error. repeat split; [lia | exact D | ].
        intros _. lia.
    + inversion E; subst.
      exists 0%nat, lastError, st, error. repeat split; [lia | exact D | ].
      congruence.
Qed.

Lemma downloadFile_miss (st st0 : State Vars) :
  cache_check dropboxPath (getCacheFilePath dropboxPath)
              (metaFilePath dropboxPath) st = (Ok None, st0) ->
  downloadFile dropboxPath maxRetries st
  = download_with_retries dropboxPath (getCacheFilePath dropboxPath)
      (metaFilePath dropboxPath) maxRetries st0.
Proof. intros E. unfold downloadFile. now rewrite (bind_Ok _ _ _ _ _ E). Qed.

Lemma downloadFile_hit (st st0 : State Vars) path :
  cache_check dropboxPath (getCacheFilePath dropboxPath)
              (metaFilePath dropboxPath) st = (Ok (Some path), st0) ->
  downloadFile dropboxPath maxRetries st = (Ok path, st0).
Proof. intros E. unfold downloadFile. now rewrite (bind_Ok _ _ _ _ _ E). Qed.

Lemma getDropboxInstance_stored (st sa : State Vars) c :
  getDropboxInstance st = (Ok (Some c), sa) -> dbxInstance (vars sa) = Some c.
Proof. intros E. apply getDropboxInstance_inv in E. inversion E; subst; auto. Qed.

Lemma seq_last (n : nat) : seq 1 (S n) = seq 1 n ++ [S n].
Proof. now rewrite seq_S. Qed.

End RetryDownload.

(** ** Properties of the retry-capable service *)

Section RetryClaims.
Context `{Runtime}.
Import Retry.

(** C7 (as amended).  [getDropboxInstance] asks the token endpoint for a
    token exactly when it holds no client or no token: it then stores the
    token of the answer and returns a client bound to it; when it holds
    both it returns the client it has and asks nothing.  When the request
    fails it throws a plain [Error] with a fixed message, which carries
    neither the status nor the body of the answer, after that one request. *)
Theorem getDropboxInstance_refreshes_when_empty (st : State Vars) :
  (holds_credentials (vars st) = true ->
     getDropboxInstance st = (Ok (dbxInstance (vars st)), st))
  /\ (holds_credentials (vars st) = false ->
      (forall data w access_token,
         axios_post_token (world st) = (Ok data, w) ->
         get_prop data "access_token" = Ok access_token ->
         getDropboxInstance st =
           (Ok (Some (Dropbox access_token)),
            mkState (mkVars (Some (Dropbox access_token)) access_token)
                    (files st) w (trace st ++ [TokenRequest true])))
      /\ (forall error w,
         axios_post_token (world st) = (Thrown error, w) ->
         getDropboxInstance st =
           (Thrown (Error "No se pudo refrescar el token de acceso a Dropbox"),
            mkState (vars st) (files st) w (trace st ++ [TokenRequest false]))))
  /\ (exists new,
        trace (snd (getDropboxInstance st)) = trace st ++ new /\
        count is_token_request new
        = if holds_credentials (vars st) then 0%nat else 1%nat).
Proof.
  split; [apply getDropboxInstance_held|]. split.
  - intros Hh. split.
    + intros data w tok. now apply getDropboxInstance_refreshed.
    + intros error w. now apply getDropboxInstance_post_failed.
  - destruct (getDropboxInstance st) as [r st'] eqn:E.
    destruct (getDropboxInstance_frame _ _ _ E) as [_ (new & T & _ & _ & C)].
    exists new. auto.
Qed.

(** C10.  [testConnection] never throws: it returns [true] exactly when a
    client is obtained and the account query answers with a truthy
    [result.name.display_name], and [false] in every other case. *)
Theorem testConnection_returns_boolean (st : State Vars) :
  exists connected st',
    testConnection st = (Ok connected, st') /\
    (connected = true <->
     exists c sa account w,
       getDropboxInstance st = (Ok (Some c), sa) /\
       usersGetCurrentAccount c (world sa) = (Ok account, w) /\
       truthy (opt_prop (opt_prop (opt_prop account "result") "name") "display_name")
       = true).
Proof.
  unfold testConnection, try_catch, bind.
  destruct (getDropboxInstance st) as [[dbx|e] sa] eqn:Hi.
  2:{ do 2 eexists. split; [reflexivity|]. split; [discriminate|].
      intros (c & sa' & account & w & E & _). discriminate. }
  destruct (getDropboxInstance_client _ _ _ Hi) as [c ->].
  unfold method, call.
  destruct (usersGetCurrentAccount c (world sa)) as [[account|e] w] eqn:Ha.
  2:{ do 2 eexists. split; [reflexivity|]. split; [discriminate|].
      intros (c' & sa' & account & w' & E & A & _).
      injection E as <- <-. rewrite Ha in A. discriminate. }
  destruct (truthy (opt_prop (opt_prop (opt_prop account "result") "name") "display_name"))
    eqn:Ht.
  - do 2 eexists. split; [reflexivity|]. split; [|reflexivity].
    intros _. exists c, sa, account, w. auto.
  - do 2 eexists. split; [reflexivity|]. split; [discriminate|].
    intros (c' & sa' & account' & w' & E & A & T).
    injection E as <- <-. rewrite Ha in A. injection A as <- <-. congruence.
Qed.

Variable dropboxPath : string.
Variable maxRetries : nat.

(** C5.  When the download call of the first attempt fails with an error
    whose status is not 401 (a path that does not exist), [downloadFile]
    fails with that very error, after one download call, and leaves the
    credentials as [getDropboxInstance] left them. *)
Theorem not_found_fails_at_once (st st0 sa : State Vars) c error w :
  cache_check dropboxPath (getCacheFilePath dropboxPath) (metaFilePath dropboxPath) st
  = (Ok None, st0) ->
  getDropboxInstance st0 = (Ok (Some c), sa) ->
  filesDownload c dropboxPath (world sa) = (Thrown error, w) ->
  status_is_401 error = false ->
  (1 <= maxRetries)%nat ->
  downloadFile dropboxPath maxRetries st
  = (Thrown error,
     mkState (vars sa) (files sa) w (trace sa ++ [DownloadCall dropboxPath false]))
  /\ exists new,
       trace sa ++ [DownloadCall dropboxPath false] = trace st0 ++ new /\
       count is_download_call new = 1%nat.
Proof.
  intros Hc Hi Hd Hs Hmax. split.
  - rewrite (downloadFile_miss _ _ _ _ Hc).
    destruct maxRetries as [|n]; [lia|].
    apply download_with_retries_thrown.
    cbn [seq].
    rewrite (attempts_Thrown _ _ _ _ _ _ _ _ _ _
               (download_attempt_rejected _ _ _ _ _ _ _ _ Hi Hd)).
    now rewrite Hs.
  - destruct (getDropboxInstance_frame _ _ _ Hi) as [_ (new & T & D & _)].
    exists (new ++ [DownloadCall dropboxPath false]).
    rewrite T, <- app_assoc. split; [reflexivity|].
    rewrite count_app, D. reflexivity.
Qed.

(** C9.  When attempt [maxRetries] is rejected with status 401,
    [downloadFile] throws that error and leaves [dbxInstance] and
    [currentAccessToken] as they were before the failure, so that the next
    [getDropboxInstance] hands out the same client again without asking for
    a token; an attempt that fails otherwise than with 401 below
    [maxRetries] leaves the loop with the state untouched. *)
Theorem last_rejection_keeps_credentials (st st0 s sa : State Vars) held c error w :
  cache_check dropboxPath (getCacheFilePath dropboxPath) (metaFilePath dropboxPath) st
  = (Ok None, st0) ->
  (1 <= maxRetries)%nat ->
  after_rejections dropboxPath (getCacheFilePath dropboxPath) (metaFilePath dropboxPath)
                   (maxRetries - 1) None st0 = Some (held, s) ->
  getDropboxInstance s = (Ok (Some c), sa) ->
  filesDownload c dropboxPath (world sa) = (Thrown error, w) ->
  status error = Some 401%Z ->
  let final := mkState (vars sa) (files sa) w (trace sa ++ [DownloadCall dropboxPath false]) in
  downloadFile dropboxPath maxRetries st = (Thrown error, final)
  /\ dbxInstance (vars final) = Some c
  /\ (truthy (currentAccessToken (vars final)) = true ->
      getDropboxInstance final = (Ok (Some c), final))
  /\ (forall attempt rest lastError (a a1 : State Vars) failure,
        download_attempt dropboxPath (getCacheFilePath dropboxPath)
                         (metaFilePath dropboxPath) a = (Thrown failure, a1) ->
        ~ (status failure = Some 401%Z /\ (attempt < maxRetries)%nat) ->
        attempts dropboxPath (getCacheFilePath dropboxPath) (metaFilePath dropboxPath)
                 maxRetries (attempt :: rest) lastError a
        = (Ok (Fell_through (Some failure)), a1)).
Proof.
  intros Hc Hmax R Hi Hd Hs final.
  assert (S401 : status_is_401 error = true) by (unfold status_is_401; now rewrite Hs).
  pose proof (getDropboxInstance_stored _ _ _ Hi) as Hstored.
  split; [| split; [exact Hstored | split]].
  - rewrite (downloadFile_miss _ _ _ _ Hc).
    apply download_with_retries_thrown.
    replace maxRetries with (S (maxRetries - 1)) at 2 by lia.
    rewrite seq_last.
    rewrite (attempts_after_rejections _ _ _ _ _ _ _ _ _ _ _ R) by lia.
    rewrite (attempts_Thrown _ _ _ _ _ _ _ _ _ _
               (download_attempt_rejected _ _ _ _ _ _ _ _ Hi Hd)).
    rewrite S401.
    replace (S (maxRetries - 1) <? maxRetries)%nat with false
      by (symmetry; apply Nat.ltb_ge; lia).
    reflexivity.
  - intros Ht.
    rewrite getDropboxInstance_held.
    + cbn. now rewrite Hstored.
    + unfold holds_credentials. cbn in *. rewrite Hstored, Ht.
      rewrite bool_decide_eq_true_2; eauto.
  - intros attempt rest lastError a a1 failure D N.
    rewrite (attempts_Thrown _ _ _ _ _ _ _ _ _ _ D).
    destruct (status_is_401 failure) eqn:F; [|reflexivity].
    destruct (attempt <? maxRetries)%nat eqn:L; [|reflexivity].
    exfalso. apply N. apply Nat.ltb_lt in L. split; [|exact L].
    unfold status_is_401 in F. destruct (status failure) as [z|]; [|discriminate].
    apply Z.eqb_eq in F. now subst.
Qed.

End RetryClaims.

Lemma filter_filter_implied {A} (f g : A -> bool) (l : list A) :
  (forall x, f x = true -> g x = true) ->
  List.filter f (List.filter g l) = List.filter f l.
Proof.
  intros I. induction l as [|x l IH]; [reflexivity|]. cbn.
  destruct (g x) eqn:G; cbn.
  - destruct (f x); now rewrite IH.
  - destruct (f x) eqn:F; [|exact IH]. apply I in F. congruence.
Qed.

Lemma count_success_of_calls (new : list Event) dropboxPath k :
  List.filter is_download_call new
  = repeat (DownloadCall dropboxPath false) k ++ [DownloadCall dropboxPath true] ->
  count is_download_success new = 1%nat.
Proof.
  intros F. unfold count.
  rewrite <- (filter_filter_implied is_download_success is_download_call).
  - rewrite F, List.filter_app. cbn.
    replace (List.filter is_download_success (repeat (DownloadCall dropboxPath false) k))
      with (@nil Event); [reflexivity|].
    clear F. induction k as [|k IH]; [reflexivity | exact IH].
  - now intros [| | ? [|] | |].
Qed.

Section QuietFilters.
Context `{Runtime} {V : Type}.

Lemma quiet_filters (st st' : State V) :
  quiet st st' ->
  files st' = files st /\
  exists new, trace st' = trace st ++ new /\
    List.filter is_download_call new = [] /\ List.filter is_write new = [].
Proof.
  intros [F (new & T & Q)]. split; [exact F|]. exists new. split; [exact T|].
  clear T. induction new as [|e new IH]; [auto|].
  cbn in Q. apply andb_true_iff in Q as [Qe Q]. destruct (IH Q) as [D W].
  unfold no_transfer in Qe. apply andb_true_iff in Qe as [Qd Qw].
  apply negb_true_iff in Qd, Qw. cbn. rewrite Qd, Qw. auto.
Qed.

End QuietFilters.

Section RetrySuccess.
Context `{Runtime}.
Import Retry.
Variables dropboxPath localPath metaPath : string.
Variable maxRetries : nat.
Hypothesis paths_differ : localPath <> metaPath.

(** A run of the loop that returns: some attempts rejected with 401, then
    one that downloads and writes the two files. *)
Lemma attempts_returned range : forall lastError (st0 st' : State Vars) path,
  attempts dropboxPath localPath metaPath maxRetries range lastError st0
  = (Ok (Returned path), st') ->
  path = localPath /\
  exists new k response content last_updated,
    trace st' = trace st0 ++ new /\
    List.filter is_download_call new
    = repeat (DownloadCall dropboxPath false) k ++ [DownloadCall dropboxPath true] /\
    List.filter is_write new = [WriteFile localPath; WriteFile metaPath] /\
    data_content (fileBinary response) = Some content /\
    files st' = <[metaPath := File (retry_meta_text response last_updated)]>
                  (<[localPath := File content]> (files st0)) /\
    exists c (sa : State Vars) w,
      filesDownload c dropboxPath (world sa) = (Ok response, w) /\
      last_updated = toISOString_now w.
Proof.
  induction range as [|attempt rest IH]; intros lastError st0 st' path E.
  - rewrite attempts_nil in E. discriminate.
  - destruct (download_attempt dropboxPath localPath metaPath st0)
      as [[path0|error] st1] eqn:D.
    + rewrite (attempts_Ok _ _ _ _ _ _ _ _ _ _ D) in E. inversion E; subst. clear E.
      destruct (download_attempt_Ok _ _ _ _ _ _ D paths_differ)
        as [-> (c & sa & response & w & content & Hi & Hd & Hc & ->)].
      split; [reflexivity|].
      destruct (quiet_filters _ _ (quiet_getDropboxInstance _ _ _ Hi))
        as [Fs (n0 & T0 & Fd & Fw)].
      exists (n0 ++ [DownloadCall dropboxPath true; WriteFile localPath; WriteFile metaPath]),
        0%nat, response, content, (toISOString_now w).
      cbn [downloaded trace files]. rewrite T0, Fs, <- app_assoc.
      rewrite !List.filter_app, Fd, Fw. cbn.
      repeat split; auto. exists c, sa, w. auto.
    + rewrite (attempts_Thrown _ _ _ _ _ _ _ _ _ _ D) in E.
      destruct (status_is_401 error) eqn:S401; [|discriminate].
      destruct (attempt <? maxRetries)%nat; [|discriminate].
      rewrite andb_true_l in E.
      destruct (IH _ _ _ _ E)
        as [-> (new & k & response & content & last_updated & T & Fd & Fw & Hc & Fs & Hr)].
      split; [reflexivity|].
      assert (exists s, status error = Some s) as [s Hs].
      { unfold status_is_401 in S401. destruct (status error); [eauto | discriminate]. }
      destruct (download_attempt_status _ _ _ _ _ _ _ D Hs)
        as (c & sa & w & Hi & Hd & ->).
      destruct (quiet_filters _ _ (quiet_getDropboxInstance _ _ _ Hi))
        as [Fs0 (n0 & T0 & Fd0 & Fw0)].
      exists (n0 ++ [DownloadCall dropboxPath false] ++ new), (S k), response, content,
        last_updated.
      cbn [cleared rejected trace files] in T, Fs.
      rewrite T, T0, Fs, Fs0, <- !app_assoc.
      rewrite !List.filter_app, Fd0, Fw0, Fd, Fw. cbn.
      repeat split; auto.
Qed.

End RetrySuccess.

Section RetryOutcomes.
Context `{Runtime}.
Import Retry.
Variable dropboxPath : string.
Variable maxRetries : nat.

Lemma retry_paths_differ : getCacheFilePath dropboxPath <> metaFilePath dropboxPath.
Proof. apply append_neq. discriminate. Qed.


(** C4 (as amended).  When [downloadFile] fails, the cache check had not
    returned, and the error thrown is the error of the last attempt made,
    as it was raised: no attempt at all when [maxRetries] is 0, where the
    error is a plain [Error] with a fixed message; otherwise attempt
    [k + 1] after [k] attempts rejected with 401, and if that error is a 401
    too the attempt is attempt [maxRetries]. *)
Theorem download_failure_rethrows_last_error (st st' : State Vars) error :
  downloadFile dropboxPath maxRetries st = (Thrown error, st') ->
  exists st0,
    cache_check dropboxPath (getCacheFilePath dropboxPath) (metaFilePath dropboxPath) st
    = (Ok None, st0) /\
    ((maxRetries = 0%nat /\
      error = Error "Error desconocido al descargar archivo" /\ st' = st0)
     \/
     exists k held s,
       (k < maxRetries)%nat /\
       after_rejections dropboxPath (getCacheFilePath dropboxPath)
                        (metaFilePath dropboxPath) k None st0 = Some (held, s) /\
       download_attempt dropboxPath (getCacheFilePath dropboxPath)
                        (metaFilePath dropboxPath) s = (Thrown error, st') /\
       (status_is_401 error = true -> S k = maxRetries)).
Proof.
  intros E.
  destruct (cache_check_total dropboxPath (getCacheFilePath dropboxPath)
              (metaFilePath dropboxPath) st) as (cached & st0 & Hc).
  destruct cached as [path|].
  { rewrite (downloadFile_hit _ _ _ _ _ Hc) in E. discriminate. }
  exists st0. split; [exact Hc|].
  rewrite (downloadFile_miss _ _ _ _ Hc) in E.
  destruct (attempts_total dropboxPath (getCacheFilePath dropboxPath)
              (metaFilePath dropboxPath) maxRetries (seq 1 maxRetries) None st0)
    as (exit & s' & A).
  rewrite (download_with_retries_exit _ _ _ _ _ _ _ A) in E.
  destruct exit as [path|last]; [discriminate|].
  destruct (attempts_fell_through dropboxPath _ _ maxRetries maxRetries 1 None st0 s' last
              eq_refl A)
    as [(Hn & -> & ->) | (k & held & s & e & Hk & R & D & -> & Hmax)].
  - left. inversion E; subst. auto.
  - right. inversion E; subst. exists k, held, s.
    split; [exact Hk|]. split; [exact R|]. split; [exact D|].
    intros S401. specialize (Hmax S401). lia.
Qed.

End RetryOutcomes.

(** ** The simplified service *)

Section SimpleFacts.
Context `{Runtime}.
Import Simple.
Variables dropboxPath localPath metaPath : string.

Lemma simple_quiet_getDropboxInstance : quiet_run getDropboxInstance.
Proof. unfold getDropboxInstance. quiet_steps. Qed.

Lemma simple_quiet_cache_probe : quiet_run (cache_probe dropboxPath localPath metaPath).
Proof. unfold cache_probe. quiet_steps. Qed.

Lemma simple_quiet_cache_check : quiet_run (cache_check dropboxPath localPath metaPath).
Proof. unfold cache_check. quiet_steps. Qed.

Lemma simple_cache_check_total (st : State Vars) :
  exists cached st0, cache_check dropboxPath localPath metaPath st = (Ok cached, st0).
Proof.
  unfold cache_check, bind, existsSync.
  destruct (bool_decide (is_Some (files st !! localPath))); cbn.
  - destruct (bool_decide (is_Some (files st !! metaPath))); cbn.
    + unfold try_catch.
      destruct (cache_probe dropboxPath localPath metaPath st) as [[o|e] s]; eauto.
    + eauto.
  - eauto.
Qed.

Lemma simple_cache_check_cached (st : State Vars) :
  is_Some (files st !! localPath) -> is_Some (files st !! metaPath) ->
  cache_check dropboxPath localPath metaPath st
  = try_catch (cache_probe dropboxPath localPath metaPath) (fun _ => ret None) st.
Proof.
  intros Hl Hm. unfold cache_check, bind, existsSync.
  rewrite !bool_decide_eq_true_2 by assumption. reflexivity.
Qed.

(** [getDropboxInstance] never hands back [null]. *)
Lemma simple_getDropboxInstance_client (st st' : State Vars) dbx0 :
  getDropboxInstance st = (Ok dbx0, st') -> exists c, dbx0 = Some c.
Proof.
  unfold getDropboxInstance, bind, get_vars. 
  destruct (bool_decide (is_Some (dbx (vars st)))) eqn:Hd.
  - intros E. injection E as <- <-. apply bool_decide_eq_true in Hd as [c Hc]. eauto.
  - unfold call. destruct (fetch_token (world st)) as [[resp|e] w]; [|discriminate].
    destruct (ok resp); cbn [negb].
    2:{ unfold lift, throw. destruct (text resp); discriminate. }
    unfold ret, lift. destruct (json resp) as [tokenData|e]; [|discriminate].
    destruct (get_prop tokenData "access_token") as [tok|e]; [|discriminate].
    unfold set_vars, try_catch, method. cbn.
    destruct (usersGetCurrentAccount (Dropbox tok) w) as [[account|e] w']; cbn.
    + intros E. injection E as <- <-. eauto.
    + discriminate.
Qed.

Lemma download_or_rethrow_eq (st : State Vars) :
  download_or_rethrow dropboxPath localPath metaPath st
  = download dropboxPath localPath metaPath st.
Proof.
  unfold download_or_rethrow, try_catch.
  now destruct (download dropboxPath localPath metaPath st) as [[path|e] s].
Qed.

Lemma download_downloaded (st sa : State Vars) c response w content :
  getDropboxInstance st = (Ok (Some c), sa) ->
  filesDownload c dropboxPath (world sa) = (Ok response, w) ->
  data_content (data_or (data_or (fileBinary response) (fileBlob response))
                        (fileBinary response)) = Some content ->
  files sa !! localPath <> Some Directory ->
  files sa !! metaPath <> Some Directory ->
  localPath <> metaPath ->
  download dropboxPath localPath metaPath st
  = (Ok localPath,
     downloaded dropboxPath localPath metaPath sa w content (simple_meta_text response)).
Proof.
  intros Hi Hd Hc Hl Hm Hne. unfold download.
  rewrite (bind_Ok _ _ _ _ _ Hi).
  unfold method.
  erewrite bind_Ok; [| unfold call; rewrite Hd; reflexivity ].
  erewrite bind_Ok; [| apply writeFileSync_Ok; [exact Hc | exact Hl] ].
  erewrite bind_Ok.
  2:{ apply writeFileSync_Ok; [reflexivity |]. cbn.
      rewrite lookup_insert_ne by exact Hne. exact Hm. }
  unfold ret, downloaded. cbn. rewrite <- !app_assoc. reflexivity.
Qed.

Lemma download_Ok (st st' : State Vars) path :
  download dropboxPath localPath metaPath st = (Ok path, st') ->
  localPath <> metaPath ->
  path = localPath /\
  exists c sa response w content,
    getDropboxInstance st = (Ok (Some c), sa) /\
    filesDownload c dropboxPath (world sa) = (Ok response, w) /\
    data_content (data_or (data_or (fileBinary response) (fileBlob response))
                          (fileBinary response)) = Some content /\
    st' = downloaded dropboxPath localPath metaPath sa w content (simple_meta_text response).
Proof.
  intros E Hne. unfold download in E.
  destruct (getDropboxInstance st) as [[dbx0|e0] sa] eqn:Hi.
  2:{ rewrite (bind_Thrown _ _ _ _ _ Hi) in E. discriminate. }
  rewrite (bind_Ok _ _ _ _ _ Hi) in E.
  destruct (simple_getDropboxInstance_client _ _ _ Hi) as [c ->].
  unfold method in E.
  destruct (filesDownload c dropboxPath (world sa)) as [[response|e1] w] eqn:Hd.
  2:{ unfold bind, call in E. rewrite Hd in E. discriminate. }
  erewrite bind_Ok in E; [| unfold call; rewrite Hd; reflexivity ].
  match type of E with bind (writeFileSync ?p ?d) _ ?s = _ =>
    destruct (writeFileSync p d s) as [r1 s1] eqn:W1 end.
  destruct (writeFileSync_inv _ _ _ _ _ W1) as [(content & Hc & _ & -> & ->)|(e2 & -> & _)].
  2:{ rewrite (bind_Thrown _ _ _ _ _ W1) in E. discriminate. }
  rewrite (bind_Ok _ _ _ _ _ W1) in E.
  match type of E with bind (writeFileSync ?p ?d) _ ?s = _ =>
    destruct (writeFileSync p d s) as [r2 s2] eqn:W2 end.
  destruct (writeFileSync_inv _ _ _ _ _ W2) as [(content2 & Hc2 & _ & -> & ->)|(e2 & -> & _)].
  2:{ rewrite (bind_Thrown _ _ _ _ _ W2) in E. discriminate. }
  rewrite (bind_Ok _ _ _ _ _ W2) in E. unfold ret in E. injection E as <- <-.
  split; [reflexivity|].
  exists c, sa, response, w, content. repeat split; auto.
  cbn in Hc2. injection Hc2 as <-.
  unfold downloaded. cbn. rewrite <- !app_assoc. reflexivity.
Qed.

Lemma simple_downloadFile_miss (st st0 : State Vars) :
  cache_check dropboxPath (getCacheFilePath dropboxPath) (metaFilePath dropboxPath) st
  = (Ok None, st0) ->
  downloadFile dropboxPath st
  = download_or_rethrow dropboxPath (getCacheFilePath dropboxPath)
      (metaFilePath dropboxPath) st0.
Proof. intros E. unfold downloadFile. now rewrite (bind_Ok _ _ _ _ _ E). Qed.

Lemma simple_downloadFile_hit (st st0 : State Vars) path :
  cache_check dropboxPath (getCacheFilePath dropboxPath) (metaFilePath dropboxPath) st
  = (Ok (Some path), st0) ->
  downloadFile dropboxPath st = (Ok path, st0).
Proof. intros E. unfold downloadFile. now rewrite (bind_Ok _ _ _ _ _ E). Qed.

Lemma simple_paths_differ : getCacheFilePath dropboxPath <> metaFilePath dropboxPath.
Proof. apply append_neq. discriminate. Qed.

End SimpleFacts.

(** ** Properties shared by the two services *)


Section SharedClaims.
Context `{Runtime}.
Variable dropboxPath : string.
Variable maxRetries : nat.

Lemma retry_cache_probe_hit (st sa : State Retry.Vars) localPath metaPath
    content cachedMeta c currentMeta w cached_rev :
  files st !! metaPath = Some (File content) ->
  JSON_parse content = Ok cachedMeta ->
  Retry.getDropboxInstance st = (Ok (Some c), sa) ->
  filesGetMetadata c dropboxPath (world sa) = (Ok currentMeta, w) ->
  get_prop cachedMeta "rev" = Ok cached_rev ->
  rev_strict_equal (meta_rev currentMeta) cached_rev = true ->
  Retry.cache_probe dropboxPath localPath metaPath st
  = (Ok (Some localPath),
     mkState (vars sa) (files sa) w (trace sa ++ [GetMetadata dropboxPath true])).
Proof.
  intros Hm Hp Hi Hq Hr He. unfold Retry.cache_probe.
  erewrite bind_Ok; [| unfold readFileSync; rewrite Hm; reflexivity ].
  erewrite bind_Ok; [| unfold lift; rewrite Hp; reflexivity ].
  rewrite (bind_Ok _ _ _ _ _ Hi). unfold method.
  erewrite bind_Ok; [| unfold call; rewrite Hq; reflexivity ].
  erewrite bind_Ok; [| unfold lift; rewrite Hr; reflexivity ].
  now rewrite He.
Qed.

Lemma simple_cache_probe_hit (st sa : State Simple.Vars) localPath metaPath
    content cachedMeta c currentMeta w cached_rev :
  files st !! metaPath = Some (File content) ->
  JSON_parse content = Ok cachedMeta ->
  Simple.getDropboxInstance st = (Ok (Some c), sa) ->
  filesGetMetadata c dropboxPath (world sa) = (Ok currentMeta, w) ->
  get_prop cachedMeta "rev" = Ok cached_rev ->
  rev_strict_equal (meta_rev currentMeta) cached_rev = true ->
  Simple.cache_probe dropboxPath localPath metaPath st
  = (Ok (Some localPath),
     mkState (vars sa) (files sa) w (trace sa ++ [GetMetadata dropboxPath true])).
Proof.
  intros Hm Hp Hi Hq Hr He. unfold Simple.cache_probe.
  erewrite bind_Ok; [| unfold readFileSync; rewrite Hm; reflexivity ].
  erewrite bind_Ok; [| unfold lift; rewrite Hp; reflexivity ].
  rewrite (bind_Ok _ _ _ _ _ Hi). unfold method.
  erewrite bind_Ok; [| unfold call; rewrite Hq; reflexivity ].
  erewrite bind_Ok; [| unfold lift; rewrite Hr; reflexivity ].
  now rewrite He.
Qed.

(** C1.  In both services, when the content file and its metadata file
    exist, the metadata parses, and the metadata query answers with a
    revision equal to the cached one, [downloadFile] returns the cached
    local path, calls no download and writes nothing. *)
Theorem cached_revision_short_circuits :
  short_circuits Retry.getDropboxInstance (Retry.downloadFile dropboxPath maxRetries)
    dropboxPath (Retry.getCacheFilePath dropboxPath) (Retry.metaFilePath dropboxPath)
  /\
  short_circuits Simple.getDropboxInstance (Simple.downloadFile dropboxPath)
    dropboxPath (Simple.getCacheFilePath dropboxPath) (Simple.metaFilePath dropboxPath).
Proof.
  split; intros st sa content cachedMeta c currentMeta w cached_rev
                Hl Hm Hp Hi Hq Hr He.
  - assert (Hc : Retry.cache_check dropboxPath (Retry.getCacheFilePath dropboxPath)
                   (Retry.metaFilePath dropboxPath) st
                 = (Ok (Some (Retry.getCacheFilePath dropboxPath)),
                    mkState (vars sa) (files sa) w
                            (trace sa ++ [GetMetadata dropboxPath true]))).
    { rewrite cache_check_cached; [| exact Hl | rewrite Hm; eauto ].
      apply try_catch_Ok. eapply retry_cache_probe_hit; eassumption. }
    eexists. split; [exact (downloadFile_hit _ _ _ _ _ Hc)|].
    exact (quiet_counts _ _ (quiet_cache_check _ _ _ _ _ _ Hc)).
  - assert (Hc : Simple.cache_check dropboxPath (Simple.getCacheFilePath dropboxPath)
                   (Simple.metaFilePath dropboxPath) st
                 = (Ok (Some (Simple.getCacheFilePath dropboxPath)),
                    mkState (vars sa) (files sa) w
                            (trace sa ++ [GetMetadata dropboxPath true]))).
    { rewrite simple_cache_check_cached; [| exact Hl | rewrite Hm; eauto ].
      apply try_catch_Ok. eapply simple_cache_probe_hit; eassumption. }
    eexists. split; [exact (simple_downloadFile_hit _ _ _ _ Hc)|].
    exact (quiet_counts _ _ (simple_quiet_cache_check _ _ _ _ _ _ Hc)).
Qed.

(** C2.  In both services, when the cached files exist and the cache check
    throws, whatever the error, [downloadFile] does not throw it: it goes on
    to the download, from the state the check left. *)
Theorem failed_check_falls_through :
  falls_through
    (Retry.cache_probe dropboxPath (Retry.getCacheFilePath dropboxPath)
                       (Retry.metaFilePath dropboxPath))
    (Retry.downloadFile dropboxPath maxRetries)
    (Retry.download_with_retries dropboxPath (Retry.getCacheFilePath dropboxPath)
                                 (Retry.metaFilePath dropboxPath) maxRetries)
    (Retry.getCacheFilePath dropboxPath) (Retry.metaFilePath dropboxPath)
  /\
  falls_through
    (Simple.cache_probe dropboxPath (Simple.getCacheFilePath dropboxPath)
                        (Simple.metaFilePath dropboxPath))
    (Simple.downloadFile dropboxPath)
    (Simple.download_or_rethrow dropboxPath (Simple.getCacheFilePath dropboxPath)
                                (Simple.metaFilePath dropboxPath))
    (Simple.getCacheFilePath dropboxPath) (Simple.metaFilePath dropboxPath).
Proof.
  split; intros st st1 error Hl Hm Hp.
  - apply downloadFile_miss.
    rewrite cache_check_cached by assumption.
    now rewrite (try_catch_Thrown _ _ _ _ _ Hp).
  - apply simple_downloadFile_miss.
    rewrite simple_cache_check_cached by assumption.
    now rewrite (try_catch_Thrown _ _ _ _ _ Hp).
Qed.

End SharedClaims.

(** The ways the cache check fails each make its [try] block throw. *)
Lemma retry_check_failures_throw (dropboxPath localPath metaPath : string)
    `{Runtime} (st : State Retry.Vars) :
  (files st !! metaPath = Some Directory ->
   exists error, Retry.cache_probe dropboxPath localPath metaPath st = (Thrown error, st))
  /\ (forall content error,
        files st !! metaPath = Some (File content) ->
        JSON_parse content = Thrown error ->
        Retry.cache_probe dropboxPath localPath metaPath st = (Thrown error, st))
  /\ (forall content cachedMeta error st1,
        files st !! metaPath = Some (File content) ->
        JSON_parse content = Ok cachedMeta ->
        Retry.getDropboxInstance st = (Thrown error, st1) ->
        Retry.cache_probe dropboxPath localPath metaPath st = (Thrown error, st1))
  /\ (forall content cachedMeta c sa error w,
        files st !! metaPath = Some (File content) ->
        JSON_parse content = Ok cachedMeta ->
        Retry.getDropboxInstance st = (Ok (Some c), sa) ->
        filesGetMetadata c dropboxPath (world sa) = (Thrown error, w) ->
        Retry.cache_probe dropboxPath localPath metaPath st
        = (Thrown error,
           mkState (vars sa) (files sa) w (trace sa ++ [GetMetadata dropboxPath false]))).
Proof.
  unfold Retry.cache_probe. repeat split.
  - intros Hm. eexists. erewrite bind_Thrown; [reflexivity|].
    unfold readFileSync. now rewrite Hm.
  - intros content error Hm Hp.
    erewrite bind_Ok; [| unfold readFileSync; rewrite Hm; reflexivity ].
    erewrite bind_Thrown; [reflexivity|]. unfold lift. now rewrite Hp.
  - intros content cachedMeta error st1 Hm Hp Hi.
    erewrite bind_Ok; [| unfold readFileSync; rewrite Hm; reflexivity ].
    erewrite bind_Ok; [| unfold lift; rewrite Hp; reflexivity ].
    now rewrite (bind_Thrown _ _ _ _ _ Hi).
  - intros content cachedMeta c sa error w Hm Hp Hi Hq.
    erewrite bind_Ok; [| unfold readFileSync; rewrite Hm; reflexivity ].
    erewrite bind_Ok; [| unfold lift; rewrite Hp; reflexivity ].
    rewrite (bind_Ok _ _ _ _ _ Hi). unfold method.
    erewrite bind_Thrown; [reflexivity|]. unfold call. now rewrite Hq.
Qed.

Lemma simple_check_failures_throw (dropboxPath localPath metaPath : string)
    `{Runtime} (st : State Simple.Vars) :
  (files st !! metaPath = Some Directory ->
   exists error, Simple.cache_probe dropboxPath localPath metaPath st = (Thrown error, st))
  /\ (forall content error,
        files st !! metaPath = Some (File content) ->
        JSON_parse content = Thrown error ->
        Simple.cache_probe dropboxPath localPath metaPath st = (Thrown error, st))
  /\ (forall content meta error st1,
        files st !! metaPath = Some (File content) ->
        JSON_parse content = Ok meta ->
        Simple.getDropboxInstance st = (Thrown error, st1) ->
        Simple.cache_probe dropboxPath localPath metaPath st = (Thrown error, st1))
  /\ (forall content meta c sa error w,
        files st !! metaPath = Some (File content) ->
        JSON_parse content = Ok meta ->
        Simple.getDropboxInstance st = (Ok (Some c), sa) ->
        filesGetMetadata c dropboxPath (world sa) = (Thrown error, w) ->
        Simple.cache_probe dropboxPath localPath metaPath st
        = (Thrown error,
           mkState (vars sa) (files sa) w (trace sa ++ [GetMetadata dropboxPath false]))).
Proof.
  unfold Simple.cache_probe. repeat split.
  - intros Hm. eexists. erewrite bind_Thrown; [reflexivity|].
    unfold readFileSync. now rewrite Hm.
  - intros content error Hm Hp.
    erewrite bind_Ok; [| unfold readFileSync; rewrite Hm; reflexivity ].
    erewrite bind_Thrown; [reflexivity|]. unfold lift. now rewrite Hp.
  - intros content meta error st1 Hm Hp Hi.
    erewrite bind_Ok; [| unfold readFileSync; rewrite Hm; reflexivity ].
    erewrite bind_Ok; [| unfold lift; rewrite Hp; reflexivity ].
    now rewrite (bind_Thrown _ _ _ _ _ Hi).
  - intros content meta c sa error w Hm Hp Hi Hq.
    erewrite bind_Ok; [| unfold readFileSync; rewrite Hm; reflexivity ].
    erewrite bind_Ok; [| unfold lift; rewrite Hp; reflexivity ].
    rewrite (bind_Ok _ _ _ _ _ Hi). unfold method.
    erewrite bind_Thrown; [reflexivity|]. unfold call. now rewrite Hq.
Qed.

(** ** The refetch *)

Lemma rev_strict_equal_true_iff (remote : option string) (cached : value) :
  rev_strict_equal remote cached = true <-> cached = rev_value remote.
Proof.
  destruct remote as [r|], cached; cbn; split; try discriminate; try reflexivity.
  - intros E. apply String.eqb_eq in E. now subst.
  - intros E. injection E as ->. apply String.eqb_refl.
Qed.

Lemma rev_strict_equal_differs (remote : option string) (cached : value) :
  cached <> rev_value remote -> rev_strict_equal remote cached = false.
Proof.
  intros N. destruct (rev_strict_equal remote cached) eqn:E; [|reflexivity].
  apply rev_strict_equal_true_iff in E. contradiction.
Qed.

Section RefetchFacts.
Context `{Runtime}.
Variables dropboxPath localPath metaPath : string.
Variable maxRetries : nat.

Lemma retry_needs_refetch_check (st st0 : State Retry.Vars) :
  needs_refetch Retry.getDropboxInstance
    (Retry.cache_probe dropboxPath localPath metaPath)
    dropboxPath localPath metaPath st st0 ->
  Retry.cache_check dropboxPath localPath metaPath st = (Ok None, st0).
Proof.
  intros [content cachedMeta c sa currentMeta w cached_rev Hl Hm Hp Hi Hq Hr Hne
         | error st1 Hl Hm Hp].
  - rewrite cache_check_cached; [| exact Hl | rewrite Hm; eauto ].
    apply try_catch_Ok. unfold Retry.cache_probe.
    erewrite bind_Ok; [| unfold readFileSync; rewrite Hm; reflexivity ].
    erewrite bind_Ok; [| unfold lift; rewrite Hp; reflexivity ].
    rewrite (bind_Ok _ _ _ _ _ Hi). unfold method.
    erewrite bind_Ok; [| unfold call; rewrite Hq; reflexivity ].
    erewrite bind_Ok; [| unfold lift; rewrite Hr; reflexivity ].
    now rewrite (rev_strict_equal_differs _ _ Hne).
  - rewrite cache_check_cached by assumption.
    now rewrite (try_catch_Thrown _ _ _ _ _ Hp).
Qed.

Lemma simple_needs_refetch_check (st st0 : State Simple.Vars) :
  needs_refetch Simple.getDropboxInstance
    (Simple.cache_probe dropboxPath localPath metaPath)
    dropboxPath localPath metaPath st st0 ->
  Simple.cache_check dropboxPath localPath metaPath st = (Ok None, st0).
Proof.
  intros [content cachedMeta c sa currentMeta w cached_rev Hl Hm Hp Hi Hq Hr Hne
         | error st1 Hl Hm Hp].
  - rewrite simple_cache_check_cached; [| exact Hl | rewrite Hm; eauto ].
    apply try_catch_Ok. unfold Simple.cache_probe.
    erewrite bind_Ok; [| unfold readFileSync; rewrite Hm; reflexivity ].
    erewrite bind_Ok; [| unfold lift; rewrite Hp; reflexivity ].
    rewrite (bind_Ok _ _ _ _ _ Hi). unfold method.
    erewrite bind_Ok; [| unfold call; rewrite Hq; reflexivity ].
    erewrite bind_Ok; [| unfold lift; rewrite Hr; reflexivity ].
    now rewrite (rev_strict_equal_differs _ _ Hne).
  - rewrite simple_cache_check_cached by assumption.
    now rewrite (try_catch_Thrown _ _ _ _ _ Hp).
Qed.

(** The attempts rejected before the one that counts: each made one download
    call, none wrote. *)
Lemma after_rejections_trace k : forall lastError (st s : State Retry.Vars) held,
  after_rejections dropboxPath localPath metaPath k lastError st = Some (held, s) ->
  files s = files st /\
  exists new,
    trace s = trace st ++ new /\
    List.filter is_download_call new = repeat (DownloadCall dropboxPath false) k /\
    List.filter is_write new = [].
Proof.
  induction k as [|k IH]; intros lastError st s held R.
  - cbn in R. injection R as _ <-. split; [reflexivity|]. exists [].
    now rewrite app_nil_r.
  - cbn [after_rejections] in R.
    destruct (Retry.download_attempt dropboxPath localPath metaPath st)
      as [[path|error] st1] eqn:D; [discriminate|].
    destruct (status_is_401 error) eqn:S401; [|discriminate].
    assert (exists z, status error = Some z) as [z Hz].
    { unfold status_is_401 in S401. destruct (status error); [eauto | discriminate]. }
    destruct (download_attempt_status _ _ _ _ _ _ _ D Hz) as (c & sa & w & Hi & Hd & ->).
    destruct (quiet_filters _ _ (quiet_getDropboxInstance _ _ _ Hi))
      as [F0 (n0 & T0 & Fd0 & Fw0)].
    destruct (IH _ _ _ _ R) as [F1 (n1 & T1 & Fd1 & Fw1)].
    cbn [cleared rejected files trace] in F1, T1.
    split; [congruence|].
    exists (n0 ++ [DownloadCall dropboxPath false] ++ n1).
    rewrite T1, T0, <- !app_assoc. split; [reflexivity|].
    rewrite !List.filter_app, Fd0, Fw0, Fd1, Fw1. cbn. auto.
Qed.

(** A run of the loop that returns: [k] attempts rejected with 401, then
    the attempt that succeeds. *)
Lemma attempts_returned_run n : forall first lastError (st st' : State Retry.Vars) path,
  Retry.attempts dropboxPath localPath metaPath maxRetries (seq first n) lastError st
  = (Ok (Retry.Returned path), st') ->
  exists k held s,
    (k < n)%nat /\
    after_rejections dropboxPath localPath metaPath k lastError st = Some (held, s) /\
    Retry.download_attempt dropboxPath localPath metaPath s = (Ok path, st').
Proof.
  induction n as [|n IH]; intros first lastError st st' path E.
  - rewrite attempts_nil in E. discriminate.
  - cbn [seq] in E.
    destruct (Retry.download_attempt dropboxPath localPath metaPath st)
      as [[path0|error] st1] eqn:D.
    + rewrite (attempts_Ok _ _ _ _ _ _ _ _ _ _ D) in E. inversion E; subst.
      exists 0%nat, lastError, st. repeat split; [lia | exact D].
    + rewrite (attempts_Thrown _ _ _ _ _ _ _ _ _ _ D) in E.
      destruct (status_is_401 error) eqn:S401; [|discriminate].
      destruct (first <? maxRetries)%nat; [|discriminate].
      rewrite andb_true_l in E.
      destruct (IH _ _ _ _ _ E) as (k & held & s & Hk & R & D').
      exists (S k), held, s. repeat split; [lia | | exact D'].
      cbn [after_rejections]. now rewrite D, S401.
Qed.

(** The steps of an attempt that returns. *)
Lemma download_attempt_Ok_steps (st st' : State Retry.Vars) path :
  Retry.download_attempt dropboxPath localPath metaPath st = (Ok path, st') ->
  path = localPath /\
  exists c sa response w mid,
    Retry.getDropboxInstance st = (Ok (Some c), sa) /\
    filesDownload c dropboxPath (world sa) = (Ok response, w) /\
    writeFileSync localPath (fileBinary response)
      (mkState (vars sa) (files sa) w (trace sa ++ [DownloadCall dropboxPath true]))
    = (Ok tt, mid) /\
    writeFileSync metaPath
      (DString (JSON_stringify (retry_meta_object response (toISOString_now (world mid)))))
      mid
    = (Ok tt, st').
Proof.
  intros E. unfold Retry.download_attempt in E.
  destruct (Retry.getDropboxInstance st) as [[dbx|e0] sa] eqn:Hi.
  2:{ rewrite (bind_Thrown _ _ _ _ _ Hi) in E. discriminate. }
  rewrite (bind_Ok _ _ _ _ _ Hi) in E.
  destruct (getDropboxInstance_client _ _ _ Hi) as [c ->].
  unfold method in E.
  destruct (filesDownload c dropboxPath (world sa)) as [[response|e1] w] eqn:Hd.
  2:{ unfold bind, call in E. rewrite Hd in E. discriminate. }
  erewrite bind_Ok in E; [| unfold call; rewrite Hd; reflexivity ].
  cbn [is_ok] in E.
  match type of E with bind (writeFileSync ?p ?d) _ ?s = _ =>
    destruct (writeFileSync p d s) as [[[]|e2] mid] eqn:W1 end.
  2:{ rewrite (bind_Thrown _ _ _ _ _ W1) in E. discriminate. }
  rewrite (bind_Ok _ _ _ _ _ W1) in E.
  erewrite bind_Ok in E; [| reflexivity ].
  match type of E with bind (writeFileSync ?p ?d) _ ?s = _ =>
    destruct (writeFileSync p d s) as [[[]|e2] s2] eqn:W2 end.
  2:{ rewrite (bind_Thrown _ _ _ _ _ W2) in E. discriminate. }
  rewrite (bind_Ok _ _ _ _ _ W2) in E. unfold ret in E. injection E as <- <-.
  split; [reflexivity|]. exists c, sa, response, w, mid. auto.
Qed.

Lemma download_Ok_steps (st st' : State Simple.Vars) path :
  Simple.download dropboxPath localPath metaPath st = (Ok path, st') ->
  path = localPath /\
  exists c sa response w mid,
    Simple.getDropboxInstance st = (Ok (Some c), sa) /\
    filesDownload c dropboxPath (world sa) = (Ok response, w) /\
    writeFileSync localPath
      (data_or (data_or (fileBinary response) (fileBlob response)) (fileBinary response))
      (mkState (vars sa) (files sa) w (trace sa ++ [DownloadCall dropboxPath true]))
    = (Ok tt, mid) /\
    writeFileSync metaPath (DString (JSON_stringify (simple_meta_object response))) mid
    = (Ok tt, st').
Proof.
  intros E. unfold Simple.download in E.
  destruct (Simple.getDropboxInstance st) as [[dbx|e0] sa] eqn:Hi.
  2:{ rewrite (bind_Thrown _ _ _ _ _ Hi) in E. discriminate. }
  rewrite (bind_Ok _ _ _ _ _ Hi) in E.
  destruct (simple_getDropboxInstance_client _ _ _ Hi) as [c ->].
  unfold method in E.
  destruct (filesDownload c dropboxPath (world sa)) as [[response|e1] w] eqn:Hd.
  2:{ unfold bind, call in E. rewrite Hd in E. discriminate. }
  erewrite bind_Ok in E; [| unfold call; rewrite Hd; reflexivity ].
  cbn [is_ok] in E.
  match type of E with bind (writeFileSync ?p ?d) _ ?s = _ =>
    destruct (writeFileSync p d s) as [[[]|e2] mid] eqn:W1 end.
  2:{ rewrite (bind_Thrown _ _ _ _ _ W1) in E. discriminate. }
  rewrite (bind_Ok _ _ _ _ _ W1) in E.
  match type of E with bind (writeFileSync ?p ?d) _ ?s = _ =>
    destruct (writeFileSync p d s) as [[[]|e2] s2] eqn:W2 end.
  2:{ rewrite (bind_Thrown _ _ _ _ _ W2) in E. discriminate. }
  rewrite (bind_Ok _ _ _ _ _ W2) in E. unfold ret in E. injection E as <- <-.
  split; [reflexivity|]. exists c, sa, response, w, mid. auto.
Qed.

(** What a write that succeeds did. *)
Lemma writeFileSync_Ok_inv {V} path data (st st' : State V) :
  writeFileSync path data st = (Ok tt, st') ->
  exists content,
    data_content data = Some content /\
    st' = mkState (vars st) (<[path := File content]> (files st)) (world st)
                  (trace st ++ [WriteFile path]).
Proof.
  intros W. destruct (writeFileSync_inv _ _ _ _ _ W)
    as [(content & Hc & _ & _ & ->) | (e & N & _)]; [eauto | discriminate].
Qed.

End RefetchFacts.

Section Refetch.
Context `{Runtime}.
Variable dropboxPath : string.
Variable maxRetries : nat.

(** C6 (as amended).  In both services, when the cache holds an entry whose
    revision is not the remote one, or whose check threw, a [downloadFile]
    that returns has made exactly one download call that was answered: the
    only call in the simplified service, and in the retry-capable one the
    call of attempt [k + 1], after [k < maxRetries] calls rejected with
    status 401.  Its content is written over the content file first, with
    the metadata file still as it was; the record of the same response is
    then written over the metadata file, from a state in which the content
    file already holds that content; nothing else is written. *)
Theorem refetch_writes_content_then_metadata :
  (forall (st st0 st' : State Retry.Vars) path,
     needs_refetch Retry.getDropboxInstance
       (Retry.cache_probe dropboxPath (Retry.getCacheFilePath dropboxPath)
                          (Retry.metaFilePath dropboxPath))
       dropboxPath (Retry.getCacheFilePath dropboxPath) (Retry.metaFilePath dropboxPath)
       st st0 ->
     Retry.downloadFile dropboxPath maxRetries st = (Ok path, st') ->
     path = Retry.getCacheFilePath dropboxPath /\
     exists k held before c fetched response w content mid,
       (k < maxRetries)%nat /\
       after_rejections dropboxPath (Retry.getCacheFilePath dropboxPath)
         (Retry.metaFilePath dropboxPath) k None st0 = Some (held, before) /\
       Retry.getDropboxInstance before = (Ok (Some c), fetched) /\
       filesDownload c dropboxPath (world fetched) = (Ok response, w) /\
       data_content (fileBinary response) = Some content /\
       files fetched = files st /\
       writeFileSync (Retry.getCacheFilePath dropboxPath) (fileBinary response)
         (mkState (vars fetched) (files fetched) w
                  (trace fetched ++ [DownloadCall dropboxPath true]))
       = (Ok tt, mid) /\
       files mid = <[Retry.getCacheFilePath dropboxPath := File content]> (files st) /\
       files mid !! Retry.getCacheFilePath dropboxPath = Some (File content) /\
       files mid !! Retry.metaFilePath dropboxPath
       = files st !! Retry.metaFilePath dropboxPath /\
       writeFileSync (Retry.metaFilePath dropboxPath)
         (DString (retry_meta_text response (toISOString_now w))) mid
       = (Ok tt, st') /\
       files st'
       = <[Retry.metaFilePath dropboxPath
             := File (retry_meta_text response (toISOString_now w))]>
           (<[Retry.getCacheFilePath dropboxPath := File content]> (files st)) /\
       files st' !! Retry.getCacheFilePath dropboxPath = Some (File content) /\
       files st' !! Retry.metaFilePath dropboxPath
       = Some (File (retry_meta_text response (toISOString_now w))) /\
       exists new,
         trace st' = trace st ++ new /\
         List.filter is_download_call new
         = repeat (DownloadCall dropboxPath false) k ++ [DownloadCall dropboxPath true] /\
         count is_download_success new = 1%nat /\
         List.filter is_write new
         = [WriteFile (Retry.getCacheFilePath dropboxPath);
            WriteFile (Retry.metaFilePath dropboxPath)])
  /\
  (forall (st st0 st' : State Simple.Vars) path,
     needs_refetch Simple.getDropboxInstance
       (Simple.cache_probe dropboxPath (Simple.getCacheFilePath dropboxPath)
                           (Simple.metaFilePath dropboxPath))
       dropboxPath (Simple.getCacheFilePath dropboxPath) (Simple.metaFilePath dropboxPath)
       st st0 ->
     Simple.downloadFile dropboxPath st = (Ok path, st') ->
     path = Simple.getCacheFilePath dropboxPath /\
     exists c fetched response w content mid,
       Simple.getDropboxInstance st0 = (Ok (Some c), fetched) /\
       filesDownload c dropboxPath (world fetched) = (Ok response, w) /\
       data_content (data_or (data_or (fileBinary response) (fileBlob response))
                             (fileBinary response)) = Some content /\
       files fetched = files st /\
       writeFileSync (Simple.getCacheFilePath dropboxPath)
         (data_or (data_or (fileBinary response) (fileBlob response)) (fileBinary response))
         (mkState (vars fetched) (files fetched) w
                  (trace fetched ++ [DownloadCall dropboxPath true]))
       = (Ok tt, mid) /\
       files mid = <[Simple.getCacheFilePath dropboxPath := File content]> (files st) /\
       files mid !! Simple.getCacheFilePath dropboxPath = Some (File content) /\
       files mid !! Simple.metaFilePath dropboxPath
       = files st !! Simple.metaFilePath dropboxPath /\
       writeFileSync (Simple.metaFilePath dropboxPath)
         (DString (simple_meta_text response)) mid
       = (Ok tt, st') /\
       files st'
       = <[Simple.metaFilePath dropboxPath := File (simple_meta_text response)]>
           (<[Simple.getCacheFilePath dropboxPath := File content]> (files st)) /\
       files st' !! Simple.getCacheFilePath dropboxPath = Some (File content) /\
       files st' !! Simple.metaFilePath dropboxPath
       = Some (File (simple_meta_text response)) /\
       exists new,
         trace st' = trace st ++ new /\
         List.filter is_download_call new = [DownloadCall dropboxPath true] /\
         count is_download_success new = 1%nat /\
         List.filter is_write new
         = [WriteFile (Simple.getCacheFilePath dropboxPath);
            WriteFile (Simple.metaFilePath dropboxPath)]).
Proof.
  split; intros st st0 st' path Hn E.
  - pose proof (retry_needs_refetch_check _ _ _ _ _ Hn) as Hc.
    pose proof (retry_paths_differ dropboxPath) as Hne.
    rewrite (downloadFile_miss _ _ _ _ Hc) in E.
    destruct (attempts_total dropboxPath (Retry.getCacheFilePath dropboxPath)
                (Retry.metaFilePath dropboxPath) maxRetries (seq 1 maxRetries) None st0)
      as (exit & s' & A).
    rewrite (download_with_retries_exit _ _ _ _ _ _ _ A) in E.
    destruct exit as [path'|[e|]]; try discriminate. inversion E; subst. clear E.
    destruct (attempts_returned_run _ _ _ _ _ _ _ _ _ _ A) as (k & held & before & Hk & R & D).
    destruct (download_attempt_Ok_steps _ _ _ _ _ _ D)
      as [-> (c & fetched & response & w & mid & Hi & Hd & W1 & W2)].
    split; [reflexivity|].
    destruct (writeFileSync_Ok_inv _ _ _ _ W1) as (content & Hcont & Hmid).
    destruct (writeFileSync_Ok_inv _ _ _ _ W2) as (meta & Hmeta & Hst').
    cbn [data_content] in Hmeta. injection Hmeta as <-.
    cbn [vars files world trace] in Hmid.
    destruct (quiet_filters _ _ (quiet_cache_check _ _ _ _ _ _ Hc))
      as [F0 (n0 & T0 & Fd0 & Fw0)].
    destruct (after_rejections_trace _ _ _ _ _ _ _ _ R) as [F1 (n1 & T1 & Fd1 & Fw1)].
    destruct (quiet_filters _ _ (quiet_getDropboxInstance _ _ _ Hi))
      as [F2 (n2 & T2 & Fd2 & Fw2)].
    assert (Ff : files fetched = files st) by congruence.
    assert (Fm : files mid
                 = <[Retry.getCacheFilePath dropboxPath := File content]> (files st))
      by (rewrite Hmid; cbn [files]; now rewrite Ff).
    assert (Ww : world mid = w) by now rewrite Hmid.
    rewrite Ww in W2, Hst'.
    assert (Fe : files st'
                 = <[Retry.metaFilePath dropboxPath
                       := File (retry_meta_text response (toISOString_now w))]>
                     (<[Retry.getCacheFilePath dropboxPath := File content]> (files st)))
      by (rewrite Hst'; cbn [files]; now rewrite Fm).
    exists k, held, before, c, fetched, response, w, content, mid.
    split; [exact Hk|]. split; [exact R|]. split; [exact Hi|]. split; [exact Hd|].
    split; [exact Hcont|]. split; [exact Ff|]. split; [exact W1|]. split; [exact Fm|].
    split; [rewrite Fm; apply lookup_insert_eq|].
    split; [rewrite Fm; apply lookup_insert_ne; exact Hne|].
    split; [exact W2|]. split; [exact Fe|].
    split; [rewrite Fe, lookup_insert_ne by congruence; apply lookup_insert_eq|].
    split; [rewrite Fe; apply lookup_insert_eq|].
    exists (n0 ++ n1 ++ n2 ++ [DownloadCall dropboxPath true;
                               WriteFile (Retry.getCacheFilePath dropboxPath);
                               WriteFile (Retry.metaFilePath dropboxPath)]).
    assert (Fd : List.filter is_download_call
                   (n0 ++ n1 ++ n2 ++ [DownloadCall dropboxPath true;
                                       WriteFile (Retry.getCacheFilePath dropboxPath);
                                       WriteFile (Retry.metaFilePath dropboxPath)])
                 = repeat (DownloadCall dropboxPath false) k
                   ++ [DownloadCall dropboxPath true])
      by now rewrite !List.filter_app, Fd0, Fd1, Fd2.
    split; [| split; [exact Fd | split]].
    + rewrite Hst', Hmid. cbn [trace]. rewrite T2, T1, T0, <- !app_assoc. reflexivity.
    + eapply count_success_of_calls; exact Fd.
    + now rewrite !List.filter_app, Fw0, Fw1, Fw2.
  - pose proof (simple_needs_refetch_check _ _ _ _ _ Hn) as Hc.
    pose proof (simple_paths_differ dropboxPath) as Hne.
    rewrite (simple_downloadFile_miss _ _ _ Hc), download_or_rethrow_eq in E.
    destruct (download_Ok_steps _ _ _ _ _ _ E)
      as [-> (c & fetched & response & w & mid & Hi & Hd & W1 & W2)].
    split; [reflexivity|].
    destruct (writeFileSync_Ok_inv _ _ _ _ W1) as (content & Hcont & Hmid).
    destruct (writeFileSync_Ok_inv _ _ _ _ W2) as (meta & Hmeta & Hst').
    cbn [data_content] in Hmeta. injection Hmeta as <-.
    cbn [vars files world trace] in Hmid.
    destruct (quiet_filters _ _ (simple_quiet_cache_check _ _ _ _ _ _ Hc))
      as [F0 (n0 & T0 & Fd0 & Fw0)].
    destruct (quiet_filters _ _ (simple_quiet_getDropboxInstance _ _ _ Hi))
      as [F2 (n2 & T2 & Fd2 & Fw2)].
    assert (Ff : files fetched = files st) by congruence.
    assert (Fm : files mid
                 = <[Simple.getCacheFilePath dropboxPath := File content]> (files st))
      by (rewrite Hmid; cbn [files]; now rewrite Ff).
    assert (Fe : files st'
                 = <[Simple.metaFilePath dropboxPath := File (simple_meta_text response)]>
                     (<[Simple.getCacheFilePath dropboxPath := File content]> (files st)))
      by (rewrite Hst'; cbn [files]; now rewrite Fm).
    exists c, fetched, response, w, content, mid.
    split; [exact Hi|]. split; [exact Hd|].
    split; [exact Hcont|]. split; [exact Ff|]. split; [exact W1|]. split; [exact Fm|].
    split; [rewrite Fm; apply lookup_insert_eq|].
    split; [rewrite Fm; apply lookup_insert_ne; exact Hne|].
    split; [exact W2|]. split; [exact Fe|].
    split; [rewrite Fe, lookup_insert_ne by congruence; apply lookup_insert_eq|].
    split; [rewrite Fe; apply lookup_insert_eq|].
    exists (n0 ++ n2 ++ [DownloadCall dropboxPath true;
                         WriteFile (Simple.getCacheFilePath dropboxPath);
                         WriteFile (Simple.metaFilePath dropboxPath)]).
    assert (Fd : List.filter is_download_call
                   (n0 ++ n2 ++ [DownloadCall dropboxPath true;
                                 WriteFile (Simple.getCacheFilePath dropboxPath);
                                 WriteFile (Simple.metaFilePath dropboxPath)])
                 = repeat (DownloadCall dropboxPath false) 0
                   ++ [DownloadCall dropboxPath true])
      by now rewrite !List.filter_app, Fd0, Fd2.
    split; [| split; [exact Fd | split]].
    + rewrite Hst', Hmid. cbn [trace]. rewrite T2, T0, <- !app_assoc. reflexivity.
    + eapply count_success_of_calls; exact Fd.
    + now rewrite !List.filter_app, Fw0, Fw2.
Qed.


End Refetch.

(** ** Run summaries *)

Lemma same_elsewhere_refl lp mp (a : gmap string Node) : same_elsewhere lp mp a a.
Proof. now intros x _ _. Qed.

Lemma same_elsewhere_trans lp mp (a b c : gmap string Node) :
  same_elsewhere lp mp a b -> same_elsewhere lp mp b c -> same_elsewhere lp mp a c.
Proof. intros Hab Hbc x Hl Hm. now rewrite Hbc, Hab. Qed.

Lemma same_elsewhere_insert_l lp mp (a : gmap string Node) node :
  same_elsewhere lp mp a (<[lp := node]> a).
Proof. intros x Hl _. now rewrite lookup_insert_ne. Qed.

Lemma same_elsewhere_insert_m lp mp (a : gmap string Node) node :
  same_elsewhere lp mp a (<[mp := node]> a).
Proof. intros x _ Hm. now rewrite lookup_insert_ne. Qed.

Section Within.
Context `{Runtime} {V : Type}.
Variables localPath metaPath : string.

Lemma within_refl (st : State V) : within localPath metaPath 0 0 st st.
Proof.
  split; [apply same_elsewhere_refl|]. exists []. rewrite app_nil_r. cbn. auto.
Qed.

Lemma within_trans d1 t1 d2 t2 (a b c : State V) :
  within localPath metaPath d1 t1 a b ->
  within localPath metaPath d2 t2 b c ->
  within localPath metaPath (d1 + d2) (t1 + t2) a c.
Proof.
  intros [F1 (n1 & T1 & D1 & K1)] [F2 (n2 & T2 & D2 & K2)].
  split; [eapply same_elsewhere_trans; eassumption|].
  exists (n1 ++ n2). rewrite T2, T1, <- app_assoc, !count_app.
  split; [reflexivity|]. lia.
Qed.

Lemma within_weaken d t d' t' (a b : State V) :
  within localPath metaPath d t a b -> (d <= d')%nat -> (t <= t')%nat ->
  within localPath metaPath d' t' a b.
Proof.
  intros [F (n & T & D & K)] Hd Ht. split; [exact F|]. exists n.
  split; [exact T|]. split; lia.
Qed.

(** A quiet run that asks for [t] tokens at most. *)
Lemma within_of_quiet t (a b : State V) :
  quiet a b ->
  (forall new, trace b = trace a ++ new -> (count is_token_request new <= t)%nat) ->
  within localPath metaPath 0 t a b.
Proof.
  intros Q K. destruct (quiet_counts _ _ Q) as [F (new & T & D & _)].
  split; [intros x _ _; now rewrite F|].
  exists new. split; [exact T|]. split; [lia | now apply K].
Qed.

Lemma within_event (st : State V) w e :
  within localPath metaPath
    (if is_download_call e then 1 else 0) (if is_token_request e then 1 else 0)
    st (mkState (vars st) (files st) w (trace st ++ [e])).
Proof.
  split; [apply same_elsewhere_refl|]. exists [e]. split; [reflexivity|].
  unfold count. cbn. destruct (is_download_call e), (is_token_request e); cbn; lia.
Qed.

Lemma within_writeFileSync path data (st : State V) r st' :
  path = localPath \/ path = metaPath ->
  writeFileSync path data st = (r, st') ->
  within localPath metaPath 0 0 st st'.
Proof.
  intros Hp W.
  destruct (writeFileSync_inv _ _ _ _ _ W)
    as [(content & _ & _ & -> & ->) | (e & -> & _ & -> & _)];
    [| apply within_refl].
  split; cbn.
  - destruct Hp as [-> | ->];
      [apply same_elsewhere_insert_l | apply same_elsewhere_insert_m].
  - exists [WriteFile path]. cbn. auto.
Qed.

End Within.

Section RetrySummaries.
Context `{Runtime}.
Import Retry.
Variables dropboxPath localPath metaPath : string.
Variable maxRetries : nat.

Lemma getDropboxInstance_within (st : State Vars) r st' :
  getDropboxInstance st = (r, st') -> within localPath metaPath 0 1 st st'.
Proof.
  intros E. apply within_of_quiet; [eapply quiet_getDropboxInstance; eassumption|].
  intros new T.
  destruct (getDropboxInstance_frame _ _ _ E) as [_ (new' & T' & _ & _ & C)].
  rewrite T' in T. apply app_inv_head in T. subst new'.
  rewrite C. destruct (holds_credentials (vars st)); lia.
Qed.

Lemma getDropboxInstance_coherent (st : State Vars) r st' :
  getDropboxInstance st = (r, st') -> coherent (vars st) -> coherent (vars st').
Proof.
  intros E C. apply getDropboxInstance_inv in E.
  inversion E as [Hh | tok w Hh | w b Hh]; subst; cbn; auto.
  intros c Hc. cbn in Hc. injection Hc as <-. reflexivity.
Qed.

(** One attempt: at most one download call, at most one token request. *)
Lemma download_attempt_within (st : State Vars) r st1 :
  download_attempt dropboxPath localPath metaPath st = (r, st1) ->
  within localPath metaPath 1 1 st st1 /\ (coherent (vars st) -> coherent (vars st1)).
Proof.
  intros E. unfold download_attempt in E.
  destruct (getDropboxInstance st) as [[dbx|e0] sa] eqn:Hi.
  2:{ rewrite (bind_Thrown _ _ _ _ _ Hi) in E. injection E as <- <-.
      split; [| now apply getDropboxInstance_coherent with (r := Thrown e0)].
      eapply within_weaken; [eapply getDropboxInstance_within; eassumption | lia | lia]. }
  pose proof (getDropboxInstance_within _ _ _ Hi) as W0.
  pose proof (getDropboxInstance_coherent _ _ _ Hi) as C0.
  rewrite (bind_Ok _ _ _ _ _ Hi) in E.
  destruct (getDropboxInstance_client _ _ _ Hi) as [c ->].
  unfold method in E.
  destruct (filesDownload c dropboxPath (world sa)) as [[response|e1] w] eqn:Hd.
  2:{ unfold bind, call in E. rewrite Hd in E. injection E as <- <-.
      split; [| exact C0].
      apply (within_trans _ _ 0 1 1 0 _ _ _ W0).
      apply (within_event _ _ sa w (DownloadCall dropboxPath false)). }
  erewrite bind_Ok in E; [| unfold call; rewrite Hd; reflexivity ].
  cbn [is_ok] in E.
  pose proof (within_trans _ _ 0 1 1 0 _ _ _ W0
                (within_event _ _ sa w (DownloadCall dropboxPath true))) as W1.
  match type of E with bind (writeFileSync ?p ?d) _ ?s = _ =>
    destruct (writeFileSync p d s) as [r1 s1] eqn:Wr1 end.
  pose proof (within_writeFileSync localPath metaPath _ _ _ _ _ (or_introl eq_refl) Wr1) as W2.
  pose proof (within_trans _ _ _ _ _ _ _ _ _ W1 W2) as W12.
  destruct (writeFileSync_inv _ _ _ _ _ Wr1) as [(content & _ & _ & -> & Es1)|(e2 & -> & _ & Es1 & _)].
  2:{ rewrite (bind_Thrown _ _ _ _ _ Wr1) in E. injection E as <- <-.
      split; [exact W12 | now subst s1]. }
  rewrite (bind_Ok _ _ _ _ _ Wr1) in E.
  erewrite bind_Ok in E; [| reflexivity ].
  match type of E with bind (writeFileSync ?p ?d) _ ?s = _ =>
    destruct (writeFileSync p d s) as [r2 s2] eqn:Wr2 end.
  pose proof (within_writeFileSync localPath metaPath _ _ _ _ _ (or_intror eq_refl) Wr2) as W3.
  pose proof (within_trans _ _ _ _ _ _ _ _ _ W12 W3) as W123.
  assert (Vs : vars s2 = vars sa).
  { destruct (writeFileSync_inv _ _ _ _ _ Wr2) as [(c2 & _ & _ & _ & ->)|(e2 & _ & _ & -> & _)];
      subst s1; reflexivity. }
  assert (Es : st1 = s2).
  { destruct r2 as [[]|e2].
    - rewrite (bind_Ok _ _ _ _ _ Wr2) in E. now injection E.
    - rewrite (bind_Thrown _ _ _ _ _ Wr2) in E. now injection E. }
  subst st1. split; [exact W123 | now rewrite Vs].
Qed.

Lemma attempts_within range : forall lastError (st : State Vars) r st',
  attempts dropboxPath localPath metaPath maxRetries range lastError st = (r, st') ->
  within localPath metaPath (List.length range) (List.length range) st st' /\
  (coherent (vars st) -> coherent (vars st')).
Proof.
  induction range as [|attempt rest IH]; intros lastError st r st' E.
  - rewrite attempts_nil in E. injection E as <- <-. split; [apply within_refl | auto].
  - destruct (download_attempt dropboxPath localPath metaPath st) as [[path|error] st1] eqn:D;
      destruct (download_attempt_within _ _ _ D) as [W1 C1].
    + rewrite (attempts_Ok _ _ _ _ _ _ _ _ _ _ D) in E. injection E as <- <-.
      split; [| exact C1]. eapply within_weaken; [exact W1 | cbn; lia | cbn; lia].
    + rewrite (attempts_Thrown _ _ _ _ _ _ _ _ _ _ D) in E.
      destruct (status_is_401 error && (attempt <? maxRetries)%nat).
      * destruct (IH _ _ _ _ E) as [W2 C2]. split.
        -- apply (within_trans _ _ 1 1 _ _ _ _ _ W1).
           destruct W2 as [F (new & T & B)]. split; [exact F|]. exists new. auto.
        -- intros _. apply C2. intros c Hc. discriminate Hc.
      * injection E as <- <-.
        split; [| exact C1]. eapply within_weaken; [exact W1 | cbn; lia | cbn; lia].
Qed.

Lemma cache_check_uncached (st : State Vars) :
  files st !! localPath = None \/ files st !! metaPath = None ->
  cache_check dropboxPath localPath metaPath st = (Ok None, st).
Proof.
  intros Hn. unfold cache_check, bind, existsSync.
  destruct (files st !! localPath) as [n|] eqn:Hl.
  - destruct Hn as [Hn|Hn]; [discriminate|].
    rewrite bool_decide_eq_true_2 by eauto. cbn. rewrite Hn.
    rewrite bool_decide_eq_false_2 by (intros [? ?]; discriminate). reflexivity.
  - rewrite bool_decide_eq_false_2 by (intros [? ?]; discriminate). reflexivity.
Qed.

Lemma cache_probe_within (st : State Vars) r st1 :
  cache_probe dropboxPath localPath metaPath st = (r, st1) ->
  within localPath metaPath 0 1 st st1 /\ (coherent (vars st) -> coherent (vars st1)).
Proof.
  intros E. unfold cache_probe in E.
  assert (W00 : within localPath metaPath 0 1 st st)
    by (eapply within_weaken; [apply within_refl | lia | lia]).
  destruct (readFileSync metaPath st) as [[content|e] s0] eqn:Hr.
  2:{ rewrite (bind_Thrown _ _ _ _ _ Hr) in E. injection E as <- <-.
      unfold readFileSync in Hr. destruct (files st !! metaPath) as [[|]|];
        injection Hr as _ <-; auto. }
  assert (s0 = st) as ->.
  { unfold readFileSync in Hr. destruct (files st !! metaPath) as [[|]|];
      now injection Hr. }
  rewrite (bind_Ok _ _ _ _ _ Hr) in E.
  destruct (JSON_parse content) as [cachedMeta|e] eqn:Hp.
  2:{ erewrite bind_Thrown in E; [| unfold lift; rewrite ?Hp; reflexivity ].
      injection E as <- <-. auto. }
  erewrite bind_Ok in E; [| unfold lift; rewrite ?Hp; reflexivity ].
  destruct (getDropboxInstance st) as [[dbx|e0] sa] eqn:Hi;
    pose proof (getDropboxInstance_within _ _ _ Hi) as W0;
    pose proof (getDropboxInstance_coherent _ _ _ Hi) as C0.
  2:{ rewrite (bind_Thrown _ _ _ _ _ Hi) in E. injection E as <- <-. auto. }
  rewrite (bind_Ok _ _ _ _ _ Hi) in E.
  destruct (getDropboxInstance_client _ _ _ Hi) as [c ->].
  unfold method in E.
  destruct (filesGetMetadata c dropboxPath (world sa)) as [[currentMeta|e1] w] eqn:Hq;
    pose proof (fun b => within_trans _ _ 0 1 0 0 _ _ _ W0
                  (within_event _ _ sa w (GetMetadata dropboxPath b))) as W1.
  2:{ erewrite bind_Thrown in E; [| unfold call; rewrite ?Hq; reflexivity ].
      injection E as <- <-. split; [apply (W1 false) | exact C0]. }
  erewrite bind_Ok in E; [| unfold call; rewrite ?Hq; reflexivity ].
  destruct (get_prop cachedMeta "rev") as [cached_rev|e2] eqn:Hg.
  2:{ erewrite bind_Thrown in E; [| unfold lift; rewrite ?Hg; reflexivity ].
      injection E as <- <-. split; [apply (W1 true) | exact C0]. }
  erewrite bind_Ok in E; [| unfold lift; rewrite ?Hg; reflexivity ].
  destruct (rev_strict_equal (meta_rev currentMeta) cached_rev);
    injection E as <- <-; (split; [apply (W1 true) | exact C0]).
Qed.

Lemma cache_check_within (st : State Vars) r st0 :
  cache_check dropboxPath localPath metaPath st = (r, st0) ->
  within localPath metaPath 0 1 st st0 /\ (coherent (vars st) -> coherent (vars st0)).
Proof.
  intros E.
  destruct (files st !! localPath) as [n1|] eqn:Hl;
    [destruct (files st !! metaPath) as [n2|] eqn:Hm|].
  - rewrite cache_check_cached in E by (rewrite ?Hl, ?Hm; eauto).
    unfold try_catch in E.
    destruct (cache_probe dropboxPath localPath metaPath st) as [[o|e] s1] eqn:P;
      injection E as <- <-; exact (cache_probe_within _ _ _ P).
  - rewrite cache_check_uncached in E by auto. injection E as <- <-.
    split; [eapply within_weaken; [apply within_refl | lia | lia] | auto].
  - rewrite cache_check_uncached in E by auto. injection E as <- <-.
    split; [eapply within_weaken; [apply within_refl | lia | lia] | auto].
Qed.

End RetrySummaries.

Section RetryRuns.
Context `{Runtime}.
Import Retry.
Variable dropboxPath : string.
Variable maxRetries : nat.

Lemma downloadFile_within (st : State Vars) :
  within (getCacheFilePath dropboxPath) (metaFilePath dropboxPath)
         maxRetries (S maxRetries) st (snd (downloadFile dropboxPath maxRetries st)) /\
  (coherent (vars st) -> coherent (vars (snd (downloadFile dropboxPath maxRetries st)))).
Proof.
  destruct (cache_check_total dropboxPath (getCacheFilePath dropboxPath)
              (metaFilePath dropboxPath) st) as (cached & st0 & Hc).
  destruct (cache_check_within _ _ _ _ _ _ Hc) as [W0 C0].
  destruct cached as [path|].
  - rewrite (downloadFile_hit _ _ _ _ _ Hc). cbn.
    split; [| exact C0]. eapply within_weaken; [exact W0 | lia | lia].
  - rewrite (downloadFile_miss _ _ _ _ Hc).
    destruct (attempts_total dropboxPath (getCacheFilePath dropboxPath)
                (metaFilePath dropboxPath) maxRetries (seq 1 maxRetries) None st0)
      as (exit & s' & A).
    destruct (attempts_within _ _ _ _ _ _ _ _ _ A) as [W1 C1].
    rewrite length_seq in W1.
    rewrite (download_with_retries_exit _ _ _ _ _ _ _ A).
    assert (Es : snd (match exit with
                      | Returned path => (Ok path, s')
                      | Fell_through (Some lastError) => (Thrown lastError, s')
                      | Fell_through None => (Thrown unknown_error, s')
                      end : result string * State Vars) = s')
      by (destruct exit as [|[|]]; reflexivity).
    rewrite Es. split; [| auto].
    apply (within_trans _ _ 0 1 _ _ _ _ _ W0 W1).
Qed.

End RetryRuns.

Section Follows.
Context `{Runtime} {V : Type}.
Variables localPath metaPath : string.

Lemma follows_refl (st : State V) : follows localPath metaPath 0 st st.
Proof.
  split; [reflexivity|]. split; [apply same_elsewhere_refl|].
  exists []. rewrite app_nil_r. cbn. auto.
Qed.

Lemma follows_trans d1 d2 (a b c : State V) :
  follows localPath metaPath d1 a b -> follows localPath metaPath d2 b c ->
  follows localPath metaPath (d1 + d2) a c.
Proof.
  intros (V1 & F1 & n1 & T1 & K1 & D1) (V2 & F2 & n2 & T2 & K2 & D2).
  split; [congruence|]. split; [eapply same_elsewhere_trans; eassumption|].
  exists (n1 ++ n2). rewrite T2, T1, <- app_assoc, !count_app.
  split; [reflexivity|]. split; lia.
Qed.

Lemma follows_weaken d d' (a b : State V) :
  follows localPath metaPath d a b -> (d <= d')%nat -> follows localPath metaPath d' a b.
Proof.
  intros (V1 & F1 & n1 & T1 & K1 & D1) Hd. split; [exact V1|]. split; [exact F1|].
  exists n1. split; [exact T1|]. split; [exact K1 | lia].
Qed.

Lemma follows_event (st : State V) w e :
  is_token_request e = false ->
  follows localPath metaPath (if is_download_call e then 1 else 0)
    st (mkState (vars st) (files st) w (trace st ++ [e])).
Proof.
  intros He. split; [reflexivity|]. split; [apply same_elsewhere_refl|].
  exists [e]. split; [reflexivity|]. unfold count. cbn. rewrite He.
  destruct (is_download_call e); cbn; auto.
Qed.

Lemma follows_writeFileSync path data (st : State V) r st' :
  path = localPath \/ path = metaPath ->
  writeFileSync path data st = (r, st') ->
  follows localPath metaPath 0 st st'.
Proof.
  intros Hp W.
  destruct (writeFileSync_inv _ _ _ _ _ W)
    as [(content & _ & _ & -> & ->) | (e & -> & _ & -> & _)];
    [| apply follows_refl].
  split; [reflexivity|]. split; cbn.
  - destruct Hp as [-> | ->];
      [apply same_elsewhere_insert_l | apply same_elsewhere_insert_m].
  - exists [WriteFile path]. cbn. auto.
Qed.

(** A run made of a call that is [within] bounds and of what [follows]. *)
Lemma within_follows d t d' (a b c : State V) :
  within localPath metaPath d t a b -> follows localPath metaPath d' b c ->
  within localPath metaPath (d + d') t a c.
Proof.
  intros [F1 (n1 & T1 & D1 & K1)] (_ & F2 & n2 & T2 & K2 & D2).
  split; [eapply same_elsewhere_trans; eassumption|].
  exists (n1 ++ n2). rewrite T2, T1, <- app_assoc, !count_app.
  split; [reflexivity|]. split; lia.
Qed.

End Follows.

Section SimpleSummaries.
Context `{Runtime}.
Import Simple.
Variables dropboxPath localPath metaPath : string.

Lemma simple_getDropboxInstance_held (st : State Vars) :
  is_Some (dbx (vars st)) -> getDropboxInstance st = (Ok (dbx (vars st)), st).
Proof.
  intros Hd. unfold getDropboxInstance, bind, get_vars.
  now rewrite bool_decide_eq_true_2.
Qed.

(** The refresh of the simplified service: the token endpoint refuses. *)
Lemma simple_getDropboxInstance_refused (st : State Vars) resp w errorText :
  dbx (vars st) = None ->
  fetch_token (world st) = (Ok resp, w) ->
  ok resp = false ->
  text resp = Ok errorText ->
  getDropboxInstance st
  = (Thrown (Error ("Failed to refresh access token: " +:+ errorText)),
     mkState (vars st) (files st) w (trace st ++ [TokenRequest false])).
Proof.
  intros Hn Hf Ho Ht. unfold getDropboxInstance, bind, get_vars.
  rewrite bool_decide_eq_false_2 by (rewrite Hn; intros [? ?]; discriminate).
  unfold call. rewrite Hf, Ho. cbn. unfold lift, throw. rewrite Ht. reflexivity.
Qed.

(** The refresh of the simplified service, up to the connection test. *)
Lemma simple_getDropboxInstance_tested (st : State Vars) resp w tokenData tok account w' :
  dbx (vars st) = None ->
  fetch_token (world st) = (Ok resp, w) ->
  ok resp = true ->
  json resp = Ok tokenData ->
  get_prop tokenData "access_token" = Ok tok ->
  usersGetCurrentAccount (Dropbox tok) w = (account, w') ->
  getDropboxInstance st
  = (match account with
     | Ok _ => Ok (Some (Dropbox tok))
     | Thrown error => Thrown error
     end,
     mkState (mkVars (Some (Dropbox tok))) (files st) w'
             (trace st ++ [TokenRequest true; CurrentAccount (is_ok account)])).
Proof.
  intros Hn Hf Ho Hj Hg Ha. unfold getDropboxInstance, bind, get_vars.
  rewrite bool_decide_eq_false_2 by (rewrite Hn; intros [? ?]; discriminate).
  unfold call. rewrite Hf, Ho. cbn. unfold lift. rewrite Hj, Hg.
  unfold set_vars, try_catch, method, bind, call, get_vars, ret, throw. cbn.
  rewrite Ha. rewrite <- app_assoc. destruct account; reflexivity.
Qed.

Lemma simple_getDropboxInstance_within (st : State Vars) r st' :
  getDropboxInstance st = (r, st') -> within localPath metaPath 0 1 st st'.
Proof.
  intros E. apply within_of_quiet; [eapply simple_quiet_getDropboxInstance; eassumption|].
  intros new T. revert E. unfold getDropboxInstance, bind, get_vars.
  destruct (bool_decide (is_Some (dbx (vars st)))).
  { intros E. injection E as _ <-. rewrite <- (app_nil_r (trace st)) in T at 1.
    apply app_inv_head in T. subst new. cbn. lia. }
  unfold call. destruct (fetch_token (world st)) as [[resp|e] w].
  2:{ intros E. injection E as _ <-. cbn in T. apply app_inv_head in T. subst new.
      cbn. lia. }
  destruct (ok resp); cbn [negb].
  2:{ unfold lift, throw. destruct (text resp); intros E; injection E as _ <-;
        cbn in T; apply app_inv_head in T; subst new; cbn; lia. }
  unfold ret, lift. destruct (json resp) as [tokenData|e].
  2:{ intros E; injection E as _ <-;
        cbn in T; apply app_inv_head in T; subst new; cbn; lia. }
  destruct (get_prop tokenData "access_token") as [tok|e].
  2:{ intros E; injection E as _ <-;
        cbn in T; apply app_inv_head in T; subst new; cbn; lia. }
  unfold set_vars, try_catch, method. cbn.
  destruct (usersGetCurrentAccount (Dropbox tok) w) as [[account|e] w']; cbn;
    intros E; injection E as _ <-; cbn in T; rewrite <- app_assoc in T;
    apply app_inv_head in T; subst new; cbn; lia.
Qed.

(** What comes after [getDropboxInstance] in the cache check. *)
Lemma simple_cache_probe_follows (st : State Vars) r st1 :
  cache_probe dropboxPath localPath metaPath st = (r, st1) ->
  st1 = st \/
  exists r0 sa, getDropboxInstance st = (r0, sa) /\ follows localPath metaPath 0 sa st1.
Proof.
  intros E. unfold cache_probe in E.
  destruct (readFileSync metaPath st) as [[content|e] s0] eqn:Hr.
  2:{ rewrite (bind_Thrown _ _ _ _ _ Hr) in E. injection E as <- <-.
      unfold readFileSync in Hr. destruct (files st !! metaPath) as [[|]|];
        injection Hr as _ <-; auto. }
  assert (s0 = st) as ->.
  { unfold readFileSync in Hr. destruct (files st !! metaPath) as [[|]|];
      now injection Hr. }
  rewrite (bind_Ok _ _ _ _ _ Hr) in E.
  destruct (JSON_parse content) as [cachedMeta|e] eqn:Hp.
  2:{ erewrite bind_Thrown in E; [| unfold lift; rewrite ?Hp; reflexivity ].
      injection E as <- <-. auto. }
  erewrite bind_Ok in E; [| unfold lift; rewrite ?Hp; reflexivity ].
  right.
  destruct (getDropboxInstance st) as [[dbx0|e0] sa] eqn:Hi.
  2:{ rewrite (bind_Thrown _ _ _ _ _ Hi) in E. injection E as <- <-.
      do 2 eexists. split; [reflexivity | apply follows_refl]. }
  rewrite (bind_Ok _ _ _ _ _ Hi) in E.
  exists (Ok dbx0), sa. split; [reflexivity|].
  destruct (simple_getDropboxInstance_client _ _ _ Hi) as [c ->].
  unfold method in E.
  destruct (filesGetMetadata c dropboxPath (world sa)) as [[currentMeta|e1] w] eqn:Hq;
    pose proof (fun b => follows_event localPath metaPath sa w
                           (GetMetadata dropboxPath b) eq_refl) as F1.
  2:{ erewrite bind_Thrown in E; [| unfold call; rewrite ?Hq; reflexivity ].
      injection E as <- <-. apply (F1 false). }
  erewrite bind_Ok in E; [| unfold call; rewrite ?Hq; reflexivity ].
  destruct (get_prop cachedMeta "rev") as [cached_rev|e2] eqn:Hg.
  2:{ erewrite bind_Thrown in E; [| unfold lift; rewrite ?Hg; reflexivity ].
      injection E as <- <-. apply (F1 true). }
  erewrite bind_Ok in E; [| unfold lift; rewrite ?Hg; reflexivity ].
  destruct (rev_strict_equal (meta_rev currentMeta) cached_rev);
    injection E as <- <-; apply (F1 true).
Qed.

Lemma simple_cache_check_follows (st : State Vars) r st0 :
  cache_check dropboxPath localPath metaPath st = (r, st0) ->
  st0 = st \/
  exists r0 sa, getDropboxInstance st = (r0, sa) /\ follows localPath metaPath 0 sa st0.
Proof.
  intros E. unfold cache_check, bind, existsSync in E.
  destruct (bool_decide (is_Some (files st !! localPath))); cbn in E.
  - destruct (bool_decide (is_Some (files st !! metaPath))); cbn in E.
    + unfold try_catch in E.
      destruct (cache_probe dropboxPath localPath metaPath st) as [[o|e] s1] eqn:P;
        injection E as <- <-; exact (simple_cache_probe_follows _ _ _ P).
    + injection E as <- <-. auto.
  - injection E as <- <-. auto.
Qed.

(** What comes after [getDropboxInstance] in the download. *)
Lemma simple_download_follows (st : State Vars) r st1 :
  download dropboxPath localPath metaPath st = (r, st1) ->
  exists r0 sa, getDropboxInstance st = (r0, sa) /\ follows localPath metaPath 1 sa st1.
Proof.
  intros E. unfold download in E.
  destruct (getDropboxInstance st) as [[dbx0|e0] sa] eqn:Hi.
  2:{ rewrite (bind_Thrown _ _ _ _ _ Hi) in E. injection E as <- <-.
      do 2 eexists. split; [reflexivity|].
      eapply follows_weaken; [apply follows_refl | lia]. }
  rewrite (bind_Ok _ _ _ _ _ Hi) in E.
  exists (Ok dbx0), sa. split; [reflexivity|].
  destruct (simple_getDropboxInstance_client _ _ _ Hi) as [c ->].
  unfold method in E.
  destruct (filesDownload c dropboxPath (world sa)) as [[response|e1] w] eqn:Hd;
    pose proof (fun b => follows_event localPath metaPath sa w
                           (DownloadCall dropboxPath b) eq_refl) as F1.
  2:{ erewrite bind_Thrown in E; [| unfold call; rewrite ?Hd; reflexivity ].
      injection E as <- <-. apply (F1 false). }
  erewrite bind_Ok in E; [| unfold call; rewrite ?Hd; reflexivity ].
  cbn [is_ok] in E. specialize (F1 true). cbn in F1.
  match type of E with bind (writeFileSync ?p ?d) _ ?s = _ =>
    destruct (writeFileSync p d s) as [r1 s1] eqn:Wr1 end.
  pose proof (follows_trans _ _ _ _ _ _ _ F1
                (follows_writeFileSync localPath metaPath _ _ _ _ _ (or_introl eq_refl) Wr1))
    as F2.
  destruct r1 as [[]|e2].
  2:{ rewrite (bind_Thrown _ _ _ _ _ Wr1) in E. injection E as <- <-. exact F2. }
  rewrite (bind_Ok _ _ _ _ _ Wr1) in E.
  match type of E with bind (writeFileSync ?p ?d) _ ?s = _ =>
    destruct (writeFileSync p d s) as [r2 s2] eqn:Wr2 end.
  pose proof (follows_trans _ _ _ _ _ _ _ F2
                (follows_writeFileSync localPath metaPath _ _ _ _ _ (or_intror eq_refl) Wr2))
    as F3.
  destruct r2 as [[]|e2].
  - rewrite (bind_Ok _ _ _ _ _ Wr2) in E. injection E as <- <-. exact F3.
  - rewrite (bind_Thrown _ _ _ _ _ Wr2) in E. injection E as <- <-. exact F3.
Qed.

End SimpleSummaries.

(** ** Further properties of the retry-capable service *)

Section RetryExtras.
Context `{Runtime}.
Import Retry.

(** X1.  From a state where the client held is bound to the token held, it
    stays so through [getDropboxInstance], [downloadFile] and
    [testConnection], and the client that [getDropboxInstance] hands out is
    bound to the token then stored. *)
Theorem retry_client_stays_bound_to_token dropboxPath maxRetries (st : State Vars) :
  coherent (vars st) ->
  coherent (vars (snd (getDropboxInstance st))) /\
  coherent (vars (snd (downloadFile dropboxPath maxRetries st))) /\
  coherent (vars (snd (testConnection st))) /\
  (forall c sa, getDropboxInstance st = (Ok (Some c), sa) ->
                accessToken c = currentAccessToken (vars sa)).
Proof.
  intros C.
  assert (G : forall r sa, getDropboxInstance st = (r, sa) -> coherent (vars sa))
    by (intros r sa E; exact (getDropboxInstance_coherent _ _ _ E C)).
  split; [| split; [| split]].
  - apply (G (fst (getDropboxInstance st))). now destruct (getDropboxInstance st).
  - now apply downloadFile_within.
  - unfold testConnection, try_catch, bind.
    pose proof (fun r sa E => G r sa E) as G'.
    destruct (getDropboxInstance st) as [[dbx|e] sa] eqn:E;
      [| cbn; exact (G' _ _ eq_refl)].
    destruct (getDropboxInstance_client _ _ _ E) as [c ->].
    unfold method, call.
    destruct (usersGetCurrentAccount c (world sa)) as [[account|e] w];
      [| cbn; exact (G' _ _ eq_refl)].
    destruct (truthy _); cbn; exact (G' _ _ eq_refl).
  - intros c sa E. apply (G _ _ E). exact (getDropboxInstance_stored _ _ _ E).
Qed.

(** X2.  Once [getDropboxInstance] has succeeded and the token stored is
    truthy, calling it again hands out the same client and changes nothing:
    no second token request. *)
Theorem getDropboxInstance_reuses_client (st sa : State Vars) dbx :
  getDropboxInstance st = (Ok dbx, sa) ->
  truthy (currentAccessToken (vars sa)) = true ->
  getDropboxInstance sa = (Ok dbx, sa).
Proof.
  intros E T.
  destruct (getDropboxInstance_client _ _ _ E) as [c ->].
  pose proof (getDropboxInstance_stored _ _ _ E) as S.
  rewrite getDropboxInstance_held.
  - now rewrite S.
  - unfold holds_credentials. rewrite S, T. rewrite bool_decide_eq_true_2; eauto.
Qed.

(** X3.  An answer of the token endpoint that carries no truthy
    [access_token] is not treated as a failure: [getDropboxInstance] stores
    the falsy value and returns a client bound to it, and since the test at
    its head still fails, the next call asks for a token again. *)
Theorem missing_access_token_is_not_an_error (st : State Vars) data w access_token :
  holds_credentials (vars st) = false ->
  axios_post_token (world st) = (Ok data, w) ->
  get_prop data "access_token" = Ok access_token ->
  truthy access_token = false ->
  exists sa,
    getDropboxInstance st = (Ok (Some (Dropbox access_token)), sa) /\
    currentAccessToken (vars sa) = access_token /\
    holds_credentials (vars sa) = false /\
    exists new,
      trace (snd (getDropboxInstance sa)) = trace sa ++ new /\
      count is_token_request new = 1%nat.
Proof.
  intros Hh Hp Hg Ht. eexists.
  split; [exact (getDropboxInstance_refreshed _ _ _ _ Hh Hp Hg)|].
  split; [reflexivity|].
  assert (Hh' : forall (fs : gmap string Node) (w0 : World) t,
            holds_credentials
              (vars (mkState (mkVars (Some (Dropbox access_token)) access_token) fs w0 t))
            = false).
  { intros. unfold holds_credentials. cbn. rewrite Ht.
    first [reflexivity | apply andb_false_r]. }
  split; [apply Hh'|].
  match goal with |- context [getDropboxInstance ?s] =>
    destruct (getDropboxInstance s) as [r s'] eqn:E end.
  destruct (getDropboxInstance_frame _ _ _ E) as [_ (new & T & _ & _ & K)].
  exists new. split; [exact T|]. now rewrite Hh' in K.
Qed.

Variable dropboxPath : string.
Variable maxRetries : nat.

(** X4.  Whatever the outside answers, one [downloadFile] makes at most
    [maxRetries] download calls and at most [maxRetries + 1] token
    requests. *)
Theorem retry_downloadFile_calls_are_bounded (st : State Vars) :
  exists new,
    trace (snd (downloadFile dropboxPath maxRetries st)) = trace st ++ new /\
    (count is_download_call new <= maxRetries)%nat /\
    (count is_token_request new <= S maxRetries)%nat.
Proof. exact (proj2 (proj1 (downloadFile_within dropboxPath maxRetries st))). Qed.

(** X5.  A token refresh that fails inside the loop ends [downloadFile] at
    once with the error of the refresh, at whichever attempt it happens:
    after [k < maxRetries] attempts rejected with status 401, a refresh that
    fails at attempt [k + 1] is not retried although attempts remain, and
    the [k] rejected calls are all the download calls that were made. *)
Theorem refresh_failure_is_not_retried (st st0 before sa : State Retry.Vars) k held error :
  Retry.cache_check dropboxPath (Retry.getCacheFilePath dropboxPath)
    (Retry.metaFilePath dropboxPath) st = (Ok None, st0) ->
  (k < maxRetries)%nat ->
  after_rejections dropboxPath (Retry.getCacheFilePath dropboxPath)
    (Retry.metaFilePath dropboxPath) k None st0 = Some (held, before) ->
  Retry.getDropboxInstance before = (Thrown error, sa) ->
  Retry.downloadFile dropboxPath maxRetries st = (Thrown error, sa) /\
  error = Error "No se pudo refrescar el token de acceso a Dropbox" /\
  files sa = files st /\
  exists new,
    trace sa = trace st ++ new /\
    List.filter is_download_call new = repeat (DownloadCall dropboxPath false) k /\
    count is_download_call new = k /\
    count is_write new = 0%nat.
Proof.
  intros Hc Hk R Hi.
  destruct (quiet_filters _ _ (quiet_cache_check _ _ _ _ _ _ Hc))
    as [F0 (n0 & T0 & Fd0 & Fw0)].
  destruct (after_rejections_trace _ _ _ _ _ _ _ _ R) as [F1 (n1 & T1 & Fd1 & Fw1)].
  destruct (quiet_filters _ _ (quiet_getDropboxInstance _ _ _ Hi))
    as [F2 (n2 & T2 & Fd2 & Fw2)].
  split; [| split; [| split]].
  - rewrite (downloadFile_miss _ _ _ _ Hc).
    apply download_with_retries_thrown.
    replace maxRetries with (k + S (maxRetries - S k))%nat at 2 by lia.
    rewrite seq_app. cbn [seq].
    rewrite (attempts_after_rejections _ _ _ _ _ _ _ _ _ _ _ R) by lia.
    rewrite (attempts_Thrown _ _ _ _ _ _ _ _ _ _
               (download_attempt_no_client _ _ _ _ _ _ Hi)).
    unfold status_is_401. now rewrite (getDropboxInstance_status _ _ _ Hi).
  - apply getDropboxInstance_inv in Hi. now inversion Hi.
  - congruence.
  - exists (n0 ++ n1 ++ n2).
    assert (Fd : List.filter is_download_call (n0 ++ n1 ++ n2)
                 = repeat (DownloadCall dropboxPath false) k)
      by (rewrite !List.filter_app, Fd0, Fd1, Fd2; cbn; now rewrite app_nil_r).
    split; [now rewrite T2, T1, T0, <- !app_assoc|].
    split; [exact Fd|]. unfold count. split.
    + now rewrite Fd, repeat_length.
    + now rewrite !List.filter_app, Fw0, Fw1, Fw2.
Qed.

(** X6.  When the download succeeds and the content is written but the
    metadata file cannot be (a directory sits at its path), [downloadFile]
    throws the error of the write without another attempt, and leaves the
    new content in the cache with no metadata written for it. *)
Theorem metadata_write_failure_leaves_new_content
    (st st0 sa : State Vars) c response w content :
  cache_check dropboxPath (getCacheFilePath dropboxPath) (metaFilePath dropboxPath) st
  = (Ok None, st0) ->
  getDropboxInstance st0 = (Ok (Some c), sa) ->
  filesDownload c dropboxPath (world sa) = (Ok response, w) ->
  data_content (fileBinary response) = Some content ->
  files sa !! getCacheFilePath dropboxPath <> Some Directory ->
  files sa !! metaFilePath dropboxPath = Some Directory ->
  (1 <= maxRetries)%nat ->
  downloadFile dropboxPath maxRetries st
  = (Thrown (Error "EISDIR: illegal operation on a directory, open"),
     mkState (vars sa)
       (<[getCacheFilePath dropboxPath := File content]> (files sa)) w
       (trace sa ++ [DownloadCall dropboxPath true;
                     WriteFile (getCacheFilePath dropboxPath)])).
Proof.
  intros Hc Hi Hd Hcont Hl Hm Hmax.
  rewrite (downloadFile_miss _ _ _ _ Hc).
  apply download_with_retries_thrown.
  destruct maxRetries as [|n]; [lia|]. cbn [seq].
  assert (D : download_attempt dropboxPath (getCacheFilePath dropboxPath)
                (metaFilePath dropboxPath) st0
              = (Thrown (Error "EISDIR: illegal operation on a directory, open"),
                 mkState (vars sa)
                   (<[getCacheFilePath dropboxPath := File content]> (files sa)) w
                   (trace sa ++ [DownloadCall dropboxPath true;
                                 WriteFile (getCacheFilePath dropboxPath)]))).
  { unfold download_attempt.
    rewrite (bind_Ok _ _ _ _ _ Hi). unfold method.
    erewrite bind_Ok; [| unfold call; rewrite Hd; reflexivity ].
    erewrite bind_Ok; [| apply writeFileSync_Ok; [exact Hcont | exact Hl] ].
    erewrite bind_Ok; [| reflexivity ].
    erewrite bind_Thrown; [reflexivity|].
    unfold writeFileSync. cbn.
    rewrite lookup_insert_ne by apply retry_paths_differ.
    rewrite Hm, <- app_assoc. reflexivity. }
  rewrite (attempts_Thrown _ _ _ _ _ _ _ _ _ _ D). reflexivity.
Qed.

End RetryExtras.

(** ** Further properties of the simplified service *)

Section SimpleExtras.
Context `{Runtime}.
Import Simple.

(** X7.  When the token endpoint refuses the refresh, the simplified
    [getDropboxInstance] throws an [Error] that quotes the text of the
    answer, keeps [dbx] null and does not query the account. *)
Theorem simple_refused_refresh_quotes_the_answer (st : State Vars) resp w errorText :
  dbx (vars st) = None ->
  fetch_token (world st) = (Ok resp, w) ->
  ok resp = false ->
  text resp = Ok errorText ->
  getDropboxInstance st
  = (Thrown (Error ("Failed to refresh access token: " +:+ errorText)),
     mkState (mkVars None) (files st) w (trace st ++ [TokenRequest false])).
Proof.
  intros Hn Hf Ho Ht.
  rewrite (simple_getDropboxInstance_refused _ _ _ _ Hn Hf Ho Ht).
  destruct st as [[d] fs w0 t]. cbn in *. now subst d.
Qed.

(** X8.  When the token is obtained but the connection test throws, the
    simplified [getDropboxInstance] rethrows the error of the test, yet the
    client is already stored: the next call returns it without asking for a
    token and without testing the connection again. *)
Theorem simple_failed_connection_test_keeps_client
    (st : State Vars) resp w tokenData access_token error w' :
  dbx (vars st) = None ->
  fetch_token (world st) = (Ok resp, w) ->
  ok resp = true ->
  json resp = Ok tokenData ->
  get_prop tokenData "access_token" = Ok access_token ->
  usersGetCurrentAccount (Dropbox access_token) w = (Thrown error, w') ->
  let st' := mkState (mkVars (Some (Dropbox access_token))) (files st) w'
                     (trace st ++ [TokenRequest true; CurrentAccount false]) in
  getDropboxInstance st = (Thrown error, st') /\
  getDropboxInstance st' = (Ok (Some (Dropbox access_token)), st').
Proof.
  intros Hn Hf Ho Hj Hg Ha st'. split.
  - exact (simple_getDropboxInstance_tested _ _ _ _ _ _ _ Hn Hf Ho Hj Hg Ha).
  - apply (simple_getDropboxInstance_held st'). cbn. eauto.
Qed.

Variable dropboxPath : string.

Lemma simple_downloadFile_follows (st : State Vars) :
  is_Some (dbx (vars st)) ->
  follows (getCacheFilePath dropboxPath) (metaFilePath dropboxPath) 1
          st (snd (downloadFile dropboxPath st)).
Proof.
  intros Hd.
  assert (G : forall s : State Vars, vars s = vars st ->
              getDropboxInstance s = (Ok (dbx (vars s)), s)).
  { intros s Vs. apply simple_getDropboxInstance_held. now rewrite Vs. }
  destruct (simple_cache_check_total dropboxPath (getCacheFilePath dropboxPath)
              (metaFilePath dropboxPath) st) as (cached & st0 & Hc).
  assert (F0 : follows (getCacheFilePath dropboxPath) (metaFilePath dropboxPath) 0 st st0).
  { destruct (simple_cache_check_follows _ _ _ _ _ _ Hc) as [-> | (r0 & sa & Hi & F)];
      [apply follows_refl|].
    rewrite (G st eq_refl) in Hi. injection Hi as _ <-. exact F. }
  destruct cached as [path|].
  - rewrite (simple_downloadFile_hit _ _ _ _ Hc). cbn.
    eapply follows_weaken; [exact F0 | lia].
  - rewrite (simple_downloadFile_miss _ _ _ Hc), download_or_rethrow_eq.
    destruct (download dropboxPath (getCacheFilePath dropboxPath)
                (metaFilePath dropboxPath) st0) as [r st1] eqn:D.
    destruct (simple_download_follows _ _ _ _ _ _ D) as (r0 & sa & Hi & F).
    rewrite (G st0 (proj1 F0)) in Hi. injection Hi as _ <-.
    exact (follows_trans _ _ 0 1 _ _ _ F0 F).
Qed.

(** X9.  Once the simplified service holds a client it never replaces it:
    [downloadFile] leaves [dbx] as it is and asks for no token, whatever the
    download answers, a rejection with status 401 included. *)
Theorem simple_never_refreshes_held_client (st : State Vars) :
  is_Some (dbx (vars st)) ->
  vars (snd (downloadFile dropboxPath st)) = vars st /\
  exists new,
    trace (snd (downloadFile dropboxPath st)) = trace st ++ new /\
    count is_token_request new = 0%nat.
Proof.
  intros Hd. destruct (simple_downloadFile_follows st Hd) as (Vs & _ & new & T & K & _).
  split; [exact Vs|]. exists new. auto.
Qed.

(** X10.  In the simplified service a download call that fails ends
    [downloadFile] with that error, whatever its status: there is no second
    call, and the client is kept. *)
Theorem simple_download_error_propagates (st st0 sa : State Vars) c error w :
  cache_check dropboxPath (getCacheFilePath dropboxPath) (metaFilePath dropboxPath) st
  = (Ok None, st0) ->
  getDropboxInstance st0 = (Ok (Some c), sa) ->
  filesDownload c dropboxPath (world sa) = (Thrown error, w) ->
  downloadFile dropboxPath st
  = (Thrown error,
     mkState (vars sa) (files sa) w (trace sa ++ [DownloadCall dropboxPath false])).
Proof.
  intros Hc Hi Hd.
  rewrite (simple_downloadFile_miss _ _ _ Hc), download_or_rethrow_eq.
  unfold download. rewrite (bind_Ok _ _ _ _ _ Hi). unfold method.
  erewrite bind_Thrown; [reflexivity|]. unfold call. now rewrite Hd.
Qed.

Lemma simple_downloadFile_within (st : State Vars) :
  within (getCacheFilePath dropboxPath) (metaFilePath dropboxPath) 1 2
         st (snd (downloadFile dropboxPath st)).
Proof.
  destruct (simple_cache_check_total dropboxPath (getCacheFilePath dropboxPath)
              (metaFilePath dropboxPath) st) as (cached & st0 & Hc).
  assert (W0 : within (getCacheFilePath dropboxPath) (metaFilePath dropboxPath) 0 1 st st0).
  { destruct (simple_cache_check_follows _ _ _ _ _ _ Hc) as [-> | (r0 & sa & Hi & F)].
    - eapply within_weaken; [apply within_refl | lia | lia].
    - exact (within_follows _ _ 0 1 0 _ _ _
               (simple_getDropboxInstance_within _ _ _ _ _ Hi) F). }
  destruct cached as [path|].
  - rewrite (simple_downloadFile_hit _ _ _ _ Hc). cbn.
    eapply within_weaken; [exact W0 | lia | lia].
  - rewrite (simple_downloadFile_miss _ _ _ Hc), download_or_rethrow_eq.
    destruct (download dropboxPath (getCacheFilePath dropboxPath)
                (metaFilePath dropboxPath) st0) as [r st1] eqn:D.
    destruct (simple_download_follows _ _ _ _ _ _ D) as (r0 & sa & Hi & F).
    pose proof (within_follows _ _ 0 1 1 _ _ _
                  (simple_getDropboxInstance_within _ _ _ _ _ Hi) F) as W1.
    exact (within_trans _ _ _ _ _ _ _ _ _ W0 W1).
Qed.

(** X11.  Whatever the outside answers, one [downloadFile] of the
    simplified service makes at most one download call and at most two
    token requests. *)
Theorem simple_downloadFile_calls_are_bounded (st : State Vars) :
  exists new,
    trace (snd (downloadFile dropboxPath st)) = trace st ++ new /\
    (count is_download_call new <= 1)%nat /\
    (count is_token_request new <= 2)%nat.
Proof. exact (proj2 (simple_downloadFile_within st)). Qed.

End SimpleExtras.

(** ** Cache files *)

Lemma append_nil_r (s : string) : s +:+ "" = s.
Proof.
  induction s as [|c s IH]; [reflexivity|]. rewrite append_cons. now rewrite IH.
Qed.

Lemma append_inj_same_length (a b x y : string) :
  String.length a = String.length b -> a +:+ x = b +:+ y -> a = b /\ x = y.
Proof.
  revert b. induction a as [|c a IH]; intros [|d b] L E; try discriminate L.
  - auto.
  - rewrite !append_cons in E. injection E as -> E. injection L as L.
    destruct (IH _ L E) as [-> ->]. auto.
Qed.

Section CachePaths.
Context `{Runtime}.

Lemma retry_path_shape p :
  Retry.getCacheFilePath p = tmpdir +:+ "/dropbox_cache/" +:+ sha256_hex p.
Proof.
  unfold Retry.getCacheFilePath, Retry.hashString, Retry.cacheDir, path_join.
  now rewrite !append_assoc.
Qed.

Lemma retry_meta_shape p :
  Retry.metaFilePath p = tmpdir +:+ "/dropbox_cache/" +:+ sha256_hex p +:+ ".meta.json".
Proof. unfold Retry.metaFilePath. now rewrite retry_path_shape, !append_assoc. Qed.

Lemma simple_path_shape p :
  Simple.getCacheFilePath p = tmpdir +:+ "/ijcvwabot_dropbox_cache/" +:+ sha256_hex p.
Proof.
  unfold Simple.getCacheFilePath, Simple.hashString, Simple.cacheDir, path_join.
  now rewrite !append_assoc.
Qed.

Lemma simple_meta_shape p :
  Simple.metaFilePath p
  = tmpdir +:+ "/ijcvwabot_dropbox_cache/" +:+ sha256_hex p +:+ ".meta.json".
Proof. unfold Simple.metaFilePath. now rewrite simple_path_shape, !append_assoc. Qed.

(** The files of one service are not files of the other. *)
Lemma services_paths_disjoint p q :
  Retry.getCacheFilePath p <> Simple.getCacheFilePath q /\
  Retry.getCacheFilePath p <> Simple.metaFilePath q /\
  Retry.metaFilePath p <> Simple.getCacheFilePath q /\
  Retry.metaFilePath p <> Simple.metaFilePath q.
Proof.
  rewrite retry_path_shape, retry_meta_shape, simple_path_shape, simple_meta_shape.
  repeat split; intros E; apply append_inj_l in E; vm_compute in E; discriminate E.
Qed.

(** Two remote paths with different digests of the same length have four
    different cache files, in either service. *)
Lemma digest_paths_disjoint (dir : string) p q :
  String.length (sha256_hex p) = String.length (sha256_hex q) ->
  sha256_hex p <> sha256_hex q ->
  let lp x := tmpdir +:+ dir +:+ sha256_hex x in
  let mp x := tmpdir +:+ dir +:+ sha256_hex x +:+ ".meta.json" in
  lp q <> lp p /\ lp q <> mp p /\ mp q <> lp p /\ mp q <> mp p.
Proof.
  intros L N lp mp. unfold lp, mp.
  repeat split; intros E; do 2 apply append_inj_l in E.
  - congruence.
  - rewrite <- (append_nil_r (sha256_hex q)) in E.
    destruct (append_inj_same_length _ _ _ _ (eq_sym L) E) as [_ E']. discriminate E'.
  - rewrite <- (append_nil_r (sha256_hex p)) in E.
    destruct (append_inj_same_length _ _ _ _ (eq_sym L) E) as [_ E']. discriminate E'.
  - destruct (append_inj_same_length _ _ _ _ (eq_sym L) E) as [E' _]. congruence.
Qed.

Variable dropboxPath : string.
Variable maxRetries : nat.

(** X12.  [downloadFile] leaves every file alone but the content file and
    the metadata file of its own remote path, in both services and whatever
    the outcome. *)
Theorem downloadFile_touches_only_its_cache_files :
  (forall (st : State Retry.Vars) x,
     x <> Retry.getCacheFilePath dropboxPath ->
     x <> Retry.metaFilePath dropboxPath ->
     files (snd (Retry.downloadFile dropboxPath maxRetries st)) !! x = files st !! x)
  /\
  (forall (st : State Simple.Vars) x,
     x <> Simple.getCacheFilePath dropboxPath ->
     x <> Simple.metaFilePath dropboxPath ->
     files (snd (Simple.downloadFile dropboxPath st)) !! x = files st !! x).
Proof.
  split; intros st x Hl Hm.
  - exact (proj1 (proj1 (downloadFile_within dropboxPath maxRetries st)) x Hl Hm).
  - exact (proj1 (simple_downloadFile_within dropboxPath st) x Hl Hm).
Qed.

(** X13.  When the digests of two remote paths have the same length and
    differ, downloading one leaves the cache entry of the other untouched,
    in both services. *)
Theorem distinct_digests_do_not_interfere (other : string) :
  String.length (sha256_hex dropboxPath) = String.length (sha256_hex other) ->
  sha256_hex dropboxPath <> sha256_hex other ->
  (forall st : State Retry.Vars,
     files (snd (Retry.downloadFile dropboxPath maxRetries st))
       !! Retry.getCacheFilePath other
     = files st !! Retry.getCacheFilePath other /\
     files (snd (Retry.downloadFile dropboxPath maxRetries st))
       !! Retry.metaFilePath other
     = files st !! Retry.metaFilePath other)
  /\
  (forall st : State Simple.Vars,
     files (snd (Simple.downloadFile dropboxPath st)) !! Simple.getCacheFilePath other
     = files st !! Simple.getCacheFilePath other /\
     files (snd (Simple.downloadFile dropboxPath st)) !! Simple.metaFilePath other
     = files st !! Simple.metaFilePath other).
Proof.
  intros L N.
  split; intros st.
  - destruct (digest_paths_disjoint "/dropbox_cache/" dropboxPath other L N)
      as (A & B & C & D).
    rewrite <- !retry_path_shape, <- !retry_meta_shape in *.
    split; apply (proj1 (proj1 (downloadFile_within dropboxPath maxRetries st))); auto.
  - destruct (digest_paths_disjoint "/ijcvwabot_dropbox_cache/" dropboxPath other L N)
      as (A & B & C & D).
    rewrite <- !simple_path_shape, <- !simple_meta_shape in *.
    split; apply (proj1 (simple_downloadFile_within dropboxPath st)); auto.
Qed.

(** X14.  The two services never write each other's cache: whatever remote
    paths they are given, a [downloadFile] of one leaves the content and
    metadata files of the other as they were. *)
Theorem services_do_not_share_cache_files (other : string) :
  (forall st : State Retry.Vars,
     files (snd (Retry.downloadFile dropboxPath maxRetries st))
       !! Simple.getCacheFilePath other
     = files st !! Simple.getCacheFilePath other /\
     files (snd (Retry.downloadFile dropboxPath maxRetries st))
       !! Simple.metaFilePath other
     = files st !! Simple.metaFilePath other)
  /\
  (forall st : State Simple.Vars,
     files (snd (Simple.downloadFile dropboxPath st)) !! Retry.getCacheFilePath other
     = files st !! Retry.getCacheFilePath other /\
     files (snd (Simple.downloadFile dropboxPath st)) !! Retry.metaFilePath other
     = files st !! Retry.metaFilePath other).
Proof.
  split; intros st.
  - destruct (services_paths_disjoint dropboxPath other) as (A & B & C & D).
    split; apply (proj1 (proj1 (downloadFile_within dropboxPath maxRetries st)));
      intros E; symmetry in E; auto.
  - destruct (services_paths_disjoint other dropboxPath) as (A & B & C & D).
    split; apply (proj1 (simple_downloadFile_within dropboxPath st)); auto.
Qed.

End CachePaths.

(** ** The cache entry across calls *)

Section CacheEntry.
Context `{Runtime}.

Lemma retry_meta_object_rev response last_updated :
  get_prop (retry_meta_object response last_updated) "rev" = Ok (rev_value (rev response)).
Proof.
  unfold retry_meta_object, object_literal.
  destruct (rev response), (server_modified response); reflexivity.
Qed.

Lemma simple_meta_object_rev response :
  get_prop (simple_meta_object response) "rev" = Ok (rev_value (rev response)).
Proof.
  unfold simple_meta_object, object_literal.
  destruct (rev response), (server_modified response); reflexivity.
Qed.

Lemma rev_strict_equal_refl (revision : option string) :
  rev_strict_equal revision (rev_value revision) = true.
Proof. destruct revision as [r|]; [apply String.eqb_refl | reflexivity]. Qed.

Lemma simple_cache_check_uncached dropboxPath localPath metaPath (st : State Simple.Vars) :
  files st !! localPath = None \/ files st !! metaPath = None ->
  Simple.cache_check dropboxPath localPath metaPath st = (Ok None, st).
Proof.
  intros Hn. unfold Simple.cache_check, bind, existsSync.
  destruct (files st !! localPath) as [n|] eqn:Hl.
  - destruct Hn as [Hn|Hn]; [discriminate|].
    rewrite bool_decide_eq_true_2 by eauto. cbn. rewrite Hn.
    rewrite bool_decide_eq_false_2 by (intros [? ?]; discriminate). reflexivity.
  - rewrite bool_decide_eq_false_2 by (intros [? ?]; discriminate). reflexivity.
Qed.

Lemma retry_cache_probe_Some dropboxPath localPath metaPath (st s1 : State Retry.Vars) path :
  Retry.cache_probe dropboxPath localPath metaPath st = (Ok (Some path), s1) ->
  path = localPath.
Proof.
  intros E. unfold Retry.cache_probe in E.
  destruct (readFileSync metaPath st) as [[content|e] s0] eqn:Hr;
    [rewrite (bind_Ok _ _ _ _ _ Hr) in E
    | rewrite (bind_Thrown _ _ _ _ _ Hr) in E; discriminate].
  destruct (lift (JSON_parse content) s0) as [[cachedMeta|e] s2] eqn:Hp;
    [rewrite (bind_Ok _ _ _ _ _ Hp) in E
    | rewrite (bind_Thrown _ _ _ _ _ Hp) in E; discriminate].
  destruct (Retry.getDropboxInstance s2) as [[dbx|e] sa] eqn:Hi;
    [rewrite (bind_Ok _ _ _ _ _ Hi) in E
    | rewrite (bind_Thrown _ _ _ _ _ Hi) in E; discriminate].
  match type of E with bind ?m _ _ = _ =>
    destruct (m sa) as [[currentMeta|e] s3] eqn:Hq end;
    [rewrite (bind_Ok _ _ _ _ _ Hq) in E
    | rewrite (bind_Thrown _ _ _ _ _ Hq) in E; discriminate].
  destruct (lift (get_prop cachedMeta "rev") s3) as [[cached_rev|e] s4] eqn:Hg;
    [rewrite (bind_Ok _ _ _ _ _ Hg) in E
    | rewrite (bind_Thrown _ _ _ _ _ Hg) in E; discriminate].
  destruct (rev_strict_equal (meta_rev currentMeta) cached_rev);
    [now injection E | discriminate].
Qed.

Lemma simple_cache_probe_Some dropboxPath localPath metaPath (st s1 : State Simple.Vars) path :
  Simple.cache_probe dropboxPath localPath metaPath st = (Ok (Some path), s1) ->
  path = localPath.
Proof.
  intros E. unfold Simple.cache_probe in E.
  destruct (readFileSync metaPath st) as [[content|e] s0] eqn:Hr;
    [rewrite (bind_Ok _ _ _ _ _ Hr) in E
    | rewrite (bind_Thrown _ _ _ _ _ Hr) in E; discriminate].
  destruct (lift (JSON_parse content) s0) as [[cachedMeta|e] s2] eqn:Hp;
    [rewrite (bind_Ok _ _ _ _ _ Hp) in E
    | rewrite (bind_Thrown _ _ _ _ _ Hp) in E; discriminate].
  destruct (Simple.getDropboxInstance s2) as [[dbx|e] sa] eqn:Hi;
    [rewrite (bind_Ok _ _ _ _ _ Hi) in E
    | rewrite (bind_Thrown _ _ _ _ _ Hi) in E; discriminate].
  match type of E with bind ?m _ _ = _ =>
    destruct (m sa) as [[currentMeta|e] s3] eqn:Hq end;
    [rewrite (bind_Ok _ _ _ _ _ Hq) in E
    | rewrite (bind_Thrown _ _ _ _ _ Hq) in E; discriminate].
  destruct (lift (get_prop cachedMeta "rev") s3) as [[cached_rev|e] s4] eqn:Hg;
    [rewrite (bind_Ok _ _ _ _ _ Hg) in E
    | rewrite (bind_Thrown _ _ _ _ _ Hg) in E; discriminate].
  destruct (rev_strict_equal (meta_rev currentMeta) cached_rev);
    [now injection E | discriminate].
Qed.

Lemma retry_cache_check_Some dropboxPath localPath metaPath (st st0 : State Retry.Vars) path :
  Retry.cache_check dropboxPath localPath metaPath st = (Ok (Some path), st0) ->
  path = localPath /\ is_Some (files st0 !! localPath).
Proof.
  intros E. pose proof (quiet_cache_check _ _ _ _ _ _ E) as [F _].
  destruct (files st !! localPath) as [n1|] eqn:Hl;
    [destruct (files st !! metaPath) as [n2|] eqn:Hm|].
  - rewrite cache_check_cached in E by (rewrite ?Hl, ?Hm; eauto).
    unfold try_catch in E.
    destruct (Retry.cache_probe dropboxPath localPath metaPath st) as [[o|e] s1] eqn:P;
      [| discriminate].
    injection E as -> <-. split; [exact (retry_cache_probe_Some _ _ _ _ _ _ P)|].
    rewrite F, Hl. eauto.
  - rewrite cache_check_uncached in E by auto. discriminate.
  - rewrite cache_check_uncached in E by auto. discriminate.
Qed.

Lemma simple_cache_check_Some dropboxPath localPath metaPath (st st0 : State Simple.Vars) path :
  Simple.cache_check dropboxPath localPath metaPath st = (Ok (Some path), st0) ->
  path = localPath /\ is_Some (files st0 !! localPath).
Proof.
  intros E. pose proof (simple_quiet_cache_check _ _ _ _ _ _ E) as [F _].
  destruct (files st !! localPath) as [n1|] eqn:Hl;
    [destruct (files st !! metaPath) as [n2|] eqn:Hm|].
  - rewrite simple_cache_check_cached in E by (rewrite ?Hl, ?Hm; eauto).
    unfold try_catch in E.
    destruct (Simple.cache_probe dropboxPath localPath metaPath st) as [[o|e] s1] eqn:P;
      [| discriminate].
    injection E as -> <-. split; [exact (simple_cache_probe_Some _ _ _ _ _ _ P)|].
    rewrite F, Hl. eauto.
  - rewrite simple_cache_check_uncached in E by auto. discriminate.
  - rewrite simple_cache_check_uncached in E by auto. discriminate.
Qed.

Variable dropboxPath : string.
Variable maxRetries : nat.

(** X15.  When the content file or the metadata file is missing, the cache
    is not consulted: no metadata query is made and [downloadFile] is the
    download phase run from the same state, in both services. *)
Theorem missing_cache_file_skips_the_check :
  (forall st : State Retry.Vars,
     files st !! Retry.getCacheFilePath dropboxPath = None \/
     files st !! Retry.metaFilePath dropboxPath = None ->
     Retry.downloadFile dropboxPath maxRetries st
     = Retry.download_with_retries dropboxPath (Retry.getCacheFilePath dropboxPath)
         (Retry.metaFilePath dropboxPath) maxRetries st)
  /\
  (forall st : State Simple.Vars,
     files st !! Simple.getCacheFilePath dropboxPath = None \/
     files st !! Simple.metaFilePath dropboxPath = None ->
     Simple.downloadFile dropboxPath st
     = Simple.download_or_rethrow dropboxPath (Simple.getCacheFilePath dropboxPath)
         (Simple.metaFilePath dropboxPath) st).
Proof.
  split; intros st Hn.
  - apply downloadFile_miss. now apply cache_check_uncached.
  - apply simple_downloadFile_miss. now apply simple_cache_check_uncached.
Qed.

(** X16.  The path a successful [downloadFile] returns is the cache path of
    the remote path, and something exists at it when the call returns, in
    both services. *)
Theorem returned_path_is_in_the_cache :
  (forall (st st' : State Retry.Vars) path,
     Retry.downloadFile dropboxPath maxRetries st = (Ok path, st') ->
     path = Retry.getCacheFilePath dropboxPath /\ is_Some (files st' !! path))
  /\
  (forall (st st' : State Simple.Vars) path,
     Simple.downloadFile dropboxPath st = (Ok path, st') ->
     path = Simple.getCacheFilePath dropboxPath /\ is_Some (files st' !! path)).
Proof.
  split; intros st st' path E.
  - destruct (cache_check_total dropboxPath (Retry.getCacheFilePath dropboxPath)
                (Retry.metaFilePath dropboxPath) st) as (cached & st0 & Hc).
    destruct cached as [path0|].
    + rewrite (downloadFile_hit _ _ _ _ _ Hc) in E. injection E as <- <-.
      destruct (retry_cache_check_Some _ _ _ _ _ _ Hc) as [-> S]. auto.
    + rewrite (downloadFile_miss _ _ _ _ Hc) in E.
      destruct (attempts_total dropboxPath (Retry.getCacheFilePath dropboxPath)
                  (Retry.metaFilePath dropboxPath) maxRetries (seq 1 maxRetries) None st0)
        as (exit & s' & A).
      rewrite (download_with_retries_exit _ _ _ _ _ _ _ A) in E.
      destruct exit as [path'|[e|]]; try discriminate. inversion E; subst. clear E.
      destruct (attempts_returned _ _ _ _ (retry_paths_differ dropboxPath) _ _ _ _ _ A)
        as [-> (new & k & response & content & last_updated & _ & _ & _ & _ & Fs & _)].
      split; [reflexivity|]. rewrite Fs.
      rewrite lookup_insert_ne
        by (intros N; symmetry in N; revert N; apply retry_paths_differ).
      rewrite lookup_insert_eq. eauto.
  - destruct (simple_cache_check_total dropboxPath (Simple.getCacheFilePath dropboxPath)
                (Simple.metaFilePath dropboxPath) st) as (cached & st0 & Hc).
    destruct cached as [path0|].
    + rewrite (simple_downloadFile_hit _ _ _ _ Hc) in E. injection E as <- <-.
      destruct (simple_cache_check_Some _ _ _ _ _ _ Hc) as [-> S]. auto.
    + rewrite (simple_downloadFile_miss _ _ _ Hc), download_or_rethrow_eq in E.
      destruct (download_Ok _ _ _ _ _ _ E (simple_paths_differ dropboxPath))
        as [-> (c & sa & response & w & content & _ & _ & _ & ->)].
      split; [reflexivity|]. cbn [downloaded files].
      rewrite lookup_insert_ne
        by (intros N; symmetry in N; revert N; apply simple_paths_differ).
      rewrite lookup_insert_eq. eauto.
Qed.

(** X17.  A file the retry-capable service has just downloaded is served
    from the cache by the next call: provided the metadata record it wrote
    is read back by [JSON.parse] as the object it wrote, and the metadata
    query answers with the revision of the download, the second
    [downloadFile] returns the same path, changes no file and neither
    downloads nor writes. *)
Theorem retry_download_then_cache_hit
    (st st0 sa sa1 : State Retry.Vars) c response w content c1 currentMeta w1 :
  let localPath := Retry.getCacheFilePath dropboxPath in
  let metaPath := Retry.metaFilePath dropboxPath in
  let st1 := downloaded dropboxPath localPath metaPath sa w content
               (JSON_stringify (retry_meta_object response (toISOString_now w))) in
  Retry.cache_check dropboxPath localPath metaPath st = (Ok None, st0) ->
  Retry.getDropboxInstance st0 = (Ok (Some c), sa) ->
  filesDownload c dropboxPath (world sa) = (Ok response, w) ->
  data_content (fileBinary response) = Some content ->
  files sa !! localPath <> Some Directory ->
  files sa !! metaPath <> Some Directory ->
  (1 <= maxRetries)%nat ->
  JSON_parse (JSON_stringify (retry_meta_object response (toISOString_now w)))
  = Ok (retry_meta_object response (toISOString_now w)) ->
  Retry.getDropboxInstance st1 = (Ok (Some c1), sa1) ->
  filesGetMetadata c1 dropboxPath (world sa1) = (Ok currentMeta, w1) ->
  meta_rev currentMeta = rev response ->
  Retry.downloadFile dropboxPath maxRetries st = (Ok localPath, st1) /\
  exists st2,
    Retry.downloadFile dropboxPath maxRetries st1 = (Ok localPath, st2) /\
    files st2 = files st1 /\
    exists new, trace st2 = trace st1 ++ new /\
      count is_download_call new = 0%nat /\ count is_write new = 0%nat.
Proof.
  intros localPath metaPath st1 Hc Hi Hd Hcont Hl Hm Hmax Hj Hi1 Hq Hrev.
  assert (Hne : localPath <> metaPath) by apply retry_paths_differ.
  split.
  - rewrite (downloadFile_miss _ _ _ _ Hc).
    apply download_with_retries_returned.
    destruct maxRetries as [|n]; [lia|]. cbn [seq].
    apply attempts_Ok.
    exact (download_attempt_downloaded _ _ _ _ _ _ _ _ _ Hi Hd Hcont Hl Hm Hne).
  - assert (Hc1 : Retry.cache_check dropboxPath localPath metaPath st1
                  = (Ok (Some localPath),
                     mkState (vars sa1) (files sa1) w1
                             (trace sa1 ++ [GetMetadata dropboxPath true]))).
    { rewrite cache_check_cached.
      - apply try_catch_Ok.
        eapply retry_cache_probe_hit; try eassumption.
        + unfold st1, downloaded. cbn. apply lookup_insert_eq.
        + apply retry_meta_object_rev.
        + rewrite Hrev. apply rev_strict_equal_refl.
      - unfold st1, downloaded. cbn.
        rewrite lookup_insert_ne by (intros N; symmetry in N; contradiction).
        rewrite lookup_insert_eq. eauto.
      - unfold st1, downloaded. cbn. rewrite lookup_insert_eq. eauto. }
    eexists. split; [exact (downloadFile_hit _ _ _ _ _ Hc1)|].
    exact (quiet_counts _ _ (quiet_cache_check _ _ _ _ _ _ Hc1)).
Qed.

(** X18.  The same for the simplified service. *)
Theorem simple_download_then_cache_hit
    (st st0 sa sa1 : State Simple.Vars) c response w content c1 currentMeta w1 :
  let localPath := Simple.getCacheFilePath dropboxPath in
  let metaPath := Simple.metaFilePath dropboxPath in
  let st1 := downloaded dropboxPath localPath metaPath sa w content
               (JSON_stringify (simple_meta_object response)) in
  Simple.cache_check dropboxPath localPath metaPath st = (Ok None, st0) ->
  Simple.getDropboxInstance st0 = (Ok (Some c), sa) ->
  filesDownload c dropboxPath (world sa) = (Ok response, w) ->
  data_content (data_or (data_or (fileBinary response) (fileBlob response))
                        (fileBinary response)) = Some content ->
  files sa !! localPath <> Some Directory ->
  files sa !! metaPath <> Some Directory ->
  JSON_parse (JSON_stringify (simple_meta_object response))
  = Ok (simple_meta_object response) ->
  Simple.getDropboxInstance st1 = (Ok (Some c1), sa1) ->
  filesGetMetadata c1 dropboxPath (world sa1) = (Ok currentMeta, w1) ->
  meta_rev currentMeta = rev response ->
  Simple.downloadFile dropboxPath st = (Ok localPath, st1) /\
  exists st2,
    Simple.downloadFile dropboxPath st1 = (Ok localPath, st2) /\
    files st2 = files st1 /\
    exists new, trace st2 = trace st1 ++ new /\
      count is_download_call new = 0%nat /\ count is_write new = 0%nat.
Proof.
  intros localPath metaPath st1 Hc Hi Hd Hcont Hl Hm Hj Hi1 Hq Hrev.
  assert (Hne : localPath <> metaPath) by apply simple_paths_differ.
  split.
  - rewrite (simple_downloadFile_miss _ _ _ Hc), download_or_rethrow_eq.
    exact (download_downloaded _ _ _ _ _ _ _ _ _ Hi Hd Hcont Hl Hm Hne).
  - assert (Hc1 : Simple.cache_check dropboxPath localPath metaPath st1
                  = (Ok (Some localPath),
                     mkState (vars sa1) (files sa1) w1
                             (trace sa1 ++ [GetMetadata dropboxPath true]))).
    { rewrite simple_cache_check_cached.
      - apply try_catch_Ok.
        eapply simple_cache_probe_hit; try eassumption.
        + unfold st1, downloaded. cbn. apply lookup_insert_eq.
        + apply simple_meta_object_rev.
        + rewrite Hrev. apply rev_strict_equal_refl.
      - unfold st1, downloaded. cbn.
        rewrite lookup_insert_ne by (intros N; symmetry in N; contradiction).
        rewrite lookup_insert_eq. eauto.
      - unfold st1, downloaded. cbn. rewrite lookup_insert_eq. eauto. }
    eexists. split; [exact (simple_downloadFile_hit _ _ _ _ Hc1)|].
    exact (quiet_counts _ _ (simple_quiet_cache_check _ _ _ _ _ _ Hc1)).
Qed.

(** X19.  [testConnection] leaves the cache alone: it changes no file,
    downloads nothing, writes nothing, and asks for a token at most once. *)
Theorem testConnection_leaves_cache_alone (st : State Retry.Vars) :
  files (snd (Retry.testConnection st)) = files st /\
  exists new,
    trace (snd (Retry.testConnection st)) = trace st ++ new /\
    count is_download_call new = 0%nat /\
    count is_write new = 0%nat /\
    (count is_token_request new <= 1)%nat.
Proof.
  assert (Q : quiet_run (V:=Retry.Vars) Retry.testConnection)
    by (unfold Retry.testConnection; quiet_steps).
  destruct (Retry.testConnection st) as [r st'] eqn:E. cbn.
  destruct (quiet_counts _ _ (Q _ _ _ E)) as [F (new & T & D & Wn)].
  split; [exact F|]. exists new. repeat split; auto.
  revert E. unfold Retry.testConnection, try_catch, bind.
  destruct (Retry.getDropboxInstance st) as [[dbx|e] sa] eqn:Hi;
    destruct (getDropboxInstance_frame _ _ _ Hi) as [_ (n0 & T0 & _ & _ & K0)].
  2:{ intros E. injection E as _ <-. rewrite T0 in T. apply app_inv_head in T.
      subst new. rewrite K0. destruct (Retry.holds_credentials (vars st)); lia. }
  destruct (getDropboxInstance_client _ _ _ Hi) as [c ->].
  unfold method, call.
  destruct (usersGetCurrentAccount c (world sa)) as [[account|e] w].
  2:{ intros E. injection E as _ <-. cbn in T. rewrite T0, <- app_assoc in T.
      apply app_inv_head in T. subst new. rewrite count_app, K0. cbn.
      destruct (Retry.holds_credentials (vars st)); lia. }
  destruct (truthy _); intros E; injection E as _ <-; cbn in T;
    rewrite T0, <- app_assoc in T; apply app_inv_head in T; subst new;
    rewrite count_app, K0; cbn; destruct (Retry.holds_credentials (vars st)); lia.
Qed.

End CacheEntry.

(** ** The two services side by side *)


Section Equivalence.
Context `{Runtime}.
Variable dropboxPath : string.
Variable maxRetries : nat.


End Equivalence.

(** ** The properties on the scenarios *)

#[local] Existing Instance Mock.runtime.

Lemma cached_revision_short_circuits_witness :
  (exists st',
     Retry.downloadFile Scenario.remote_path 3 Scenario.retry_fresh
     = (Ok "/tmp/dropbox_cache/sha256(/a/b.txt)", st') /\
     files st' = Scenario.retry_cache) /\
  (exists st',
     Simple.downloadFile Scenario.remote_path Scenario.simple_fresh
     = (Ok "/tmp/ijcvwabot_dropbox_cache/sha256(/a/b.txt)", st') /\
     files st' = Scenario.simple_cache).
Proof.
  destruct (cached_revision_short_circuits Scenario.remote_path 3) as [R S].
  split.
  - destruct (R Scenario.retry_fresh (snd (Retry.getDropboxInstance Scenario.retry_fresh))
                Scenario.revision_1
                (VObject [("rev", VString "rev1");
                          ("server_modified", VString "2024-05-01T10:00:00Z")])
                (Dropbox (VString "t1")) (mkMetadataResult (Some "rev1"))
                (Mock.script [] [] []) (VString "rev1"))
      as (st' & E & F & _);
      [ vm_compute; eauto | vm_compute; reflexivity .. | ].
    exists st'. split; [exact E | exact F].
  - destruct (S Scenario.simple_fresh (snd (Simple.getDropboxInstance Scenario.simple_fresh))
                Scenario.revision_1
                (VObject [("rev", VString "rev1");
                          ("server_modified", VString "2024-05-01T10:00:00Z")])
                (Dropbox (VString "t1")) (mkMetadataResult (Some "rev1"))
                (Mock.mkScript [] [] [] [] [] "2024-06-01T00:00:00.000Z") (VString "rev1"))
      as (st' & E & F & _);
      [ vm_compute; eauto | vm_compute; reflexivity .. | ].
    exists st'. split; [exact E | exact F].
Defined.

Lemma failed_check_falls_through_witness :
  Retry.downloadFile Scenario.remote_path 3 Scenario.retry_check_fails
  = Retry.download_with_retries Scenario.remote_path
      (Retry.getCacheFilePath Scenario.remote_path)
      (Retry.metaFilePath Scenario.remote_path) 3
      (snd (Retry.cache_probe Scenario.remote_path
              (Retry.getCacheFilePath Scenario.remote_path)
              (Retry.metaFilePath Scenario.remote_path) Scenario.retry_check_fails))
  /\
  Simple.downloadFile Scenario.remote_path Scenario.simple_check_fails
  = Simple.download_or_rethrow Scenario.remote_path
      (Simple.getCacheFilePath Scenario.remote_path)
      (Simple.metaFilePath Scenario.remote_path)
      (snd (Simple.cache_probe Scenario.remote_path
              (Simple.getCacheFilePath Scenario.remote_path)
              (Simple.metaFilePath Scenario.remote_path) Scenario.simple_check_fails)).
Proof.
  destruct (failed_check_falls_through Scenario.remote_path 3) as [R S].
  split.
  - apply (R Scenario.retry_check_fails _ Mock.unreachable);
      [ vm_compute; eauto | vm_compute; eauto | vm_compute; reflexivity ].
  - apply (S Scenario.simple_check_fails _ Mock.unreachable);
      [ vm_compute; eauto | vm_compute; eauto | vm_compute; reflexivity ].
Defined.


Lemma download_failure_rethrows_last_error_witness :
  exists k held s,
    after_rejections Scenario.remote_path (Retry.getCacheFilePath Scenario.remote_path)
      (Retry.metaFilePath Scenario.remote_path) k None Scenario.always_rejected
    = Some (held, s) /\
    S k = 3%nat.
Proof.
  destruct (download_failure_rethrows_last_error Scenario.remote_path 3
              Scenario.always_rejected
              (snd (Retry.downloadFile Scenario.remote_path 3 Scenario.always_rejected))
              Mock.expired_token)
    as (st0 & Hc & [(Hn & _) | (k & held & s & Hk & R & D & Hmax)]);
    [ vm_compute; reflexivity | discriminate Hn | ].
  assert (E0 : Retry.cache_check Scenario.remote_path
                 (Retry.getCacheFilePath Scenario.remote_path)
                 (Retry.metaFilePath Scenario.remote_path) Scenario.always_rejected
               = (Ok None, Scenario.always_rejected)) by (vm_compute; reflexivity).
  rewrite E0 in Hc. injection Hc as <-.
  exists k, held, s. split; [exact R | apply Hmax; reflexivity].
Defined.

Lemma not_found_fails_at_once_witness :
  Retry.downloadFile Scenario.remote_path 3 Scenario.missing_remotely
  = (Thrown Mock.not_found,
     mkState (Retry.mkVars (Some (Dropbox (VString "t1"))) (VString "t1")) ∅
       (Mock.script [] [] [])
       ([TokenRequest true] ++ [DownloadCall Scenario.remote_path false])).
Proof.
  apply (proj1 (not_found_fails_at_once Scenario.remote_path 3 Scenario.missing_remotely
                  Scenario.missing_remotely
                  (@mkState Mock.runtime _ (Retry.mkVars (Some (Dropbox (VString "t1"))) (VString "t1")) ∅
                           (Mock.script [] [] [Thrown Mock.not_found]) [TokenRequest true])
                  (Dropbox (VString "t1")) Mock.not_found (Mock.script [] [] [])
                  ltac:(vm_compute; reflexivity) ltac:(vm_compute; reflexivity)
                  ltac:(vm_compute; reflexivity) ltac:(reflexivity) ltac:(lia))).
Defined.

Lemma refetch_writes_content_then_metadata_witness :
  (exists content new,
     files (snd (Retry.downloadFile Scenario.remote_path 3 Stale.retry_expired))
       !! Retry.getCacheFilePath Scenario.remote_path = Some (File content) /\
     trace (snd (Retry.downloadFile Scenario.remote_path 3 Stale.retry_expired))
     = trace Stale.retry_expired ++ new /\
     count is_download_success new = 1%nat /\
     List.filter is_write new
     = [WriteFile (Retry.getCacheFilePath Scenario.remote_path);
        WriteFile (Retry.metaFilePath Scenario.remote_path)]) /\
  (exists content new,
     files (snd (Simple.downloadFile Scenario.remote_path Stale.simple_stale))
       !! Simple.getCacheFilePath Scenario.remote_path = Some (File content) /\
     trace (snd (Simple.downloadFile Scenario.remote_path Stale.simple_stale))
     = trace Stale.simple_stale ++ new /\
     List.filter is_download_call new = [DownloadCall Scenario.remote_path true] /\
     List.filter is_write new
     = [WriteFile (Simple.getCacheFilePath Scenario.remote_path);
        WriteFile (Simple.metaFilePath Scenario.remote_path)]).
Proof.
  destruct (refetch_writes_content_then_metadata Scenario.remote_path 3) as [R S].
  split.
  - destruct (R Stale.retry_expired
                (snd (Retry.cache_check Scenario.remote_path
                        (Retry.getCacheFilePath Scenario.remote_path)
                        (Retry.metaFilePath Scenario.remote_path) Stale.retry_expired))
                (snd (Retry.downloadFile Scenario.remote_path 3 Stale.retry_expired))
                (Retry.getCacheFilePath Scenario.remote_path))
      as [_ (k & held & before & c & fetched & response & w & content & mid & _ & _ & _ & _
             & _ & _ & _ & _ & _ & _ & _ & _ & L & _ & new & T & _ & C & W)].
    + apply (revision_differs Retry.getDropboxInstance _ Scenario.remote_path _ _
               Stale.retry_expired Scenario.revision_1
               (VObject [("rev", VString "rev1");
                         ("server_modified", VString "2024-05-01T10:00:00Z")])
               (Dropbox (VString "t1"))
               (snd (Retry.getDropboxInstance Stale.retry_expired))
               (mkMetadataResult (Some "rev2"))
               (Mock.script [Mock.token_ok "t2"] []
                  [Thrown Mock.expired_token; Ok (Mock.file_v "hello again" "rev2")])
               (VString "rev1")).
      * vm_compute. eauto.
      * vm_compute. reflexivity.
      * vm_compute. reflexivity.
      * vm_compute. reflexivity.
      * vm_compute. reflexivity.
      * reflexivity.
      * discriminate.
    + vm_compute. reflexivity.
    + exists content, new. auto.
  - destruct (S Stale.simple_stale
                (snd (Simple.cache_check Scenario.remote_path
                        (Simple.getCacheFilePath Scenario.remote_path)
                        (Simple.metaFilePath Scenario.remote_path) Stale.simple_stale))
                (snd (Simple.downloadFile Scenario.remote_path Stale.simple_stale))
                (Simple.getCacheFilePath Scenario.remote_path))
      as [_ (c & fetched & response & w & content & mid & _ & _
             & _ & _ & _ & _ & _ & _ & _ & _ & L & _ & new & T & D & _ & W)].
    + apply (revision_differs Simple.getDropboxInstance _ Scenario.remote_path _ _
               Stale.simple_stale Scenario.revision_1
               (VObject [("rev", VString "rev1");
                         ("server_modified", VString "2024-05-01T10:00:00Z")])
               (Dropbox (VString "t1"))
               (snd (Simple.getDropboxInstance Stale.simple_stale))
               (mkMetadataResult (Some "rev2"))
               (Mock.mkScript [] [] [] [Ok (Mock.file_v "hello again" "rev2")] [] Cases.noon)
               (VString "rev1")).
      * vm_compute. eauto.
      * vm_compute. reflexivity.
      * vm_compute. reflexivity.
      * vm_compute. reflexivity.
      * vm_compute. reflexivity.
      * reflexivity.
      * discriminate.
    + vm_compute. reflexivity.
    + exists content, new. auto.
Defined.

Lemma getDropboxInstance_refreshes_when_empty_witness :
  Retry.getDropboxInstance Scenario.retry_all_fine
  = (Ok (Some (Dropbox (VString "t1"))),
     mkState (Retry.mkVars (Some (Dropbox (VString "t1"))) (VString "t1"))
       ∅ (Mock.script [] [] [Ok (Mock.file_v "hello" "rev1")])
       ([] ++ [TokenRequest true]))
  /\
  Retry.getDropboxInstance Scenario.refresh_rejected
  = (Thrown (Error "No se pudo refrescar el token de acceso a Dropbox"),
     mkState Retry.initial ∅ (Mock.script [] [] []) ([] ++ [TokenRequest false])).
Proof.
  split.
  - apply (proj1 (proj1 (proj2 (getDropboxInstance_refreshes_when_empty
                                  Scenario.retry_all_fine)) eq_refl)
                 (VObject [("access_token", VString "t1"); ("token_type", VString "bearer")])
                 (Mock.script [] [] [Ok (Mock.file_v "hello" "rev1")]) (VString "t1"));
      reflexivity.
  - apply (proj2 (proj1 (proj2 (getDropboxInstance_refreshes_when_empty
                                  Scenario.refresh_rejected)) eq_refl)
                 Mock.token_rejection (Mock.script [] [] []));
      reflexivity.
Defined.


Lemma last_rejection_keeps_credentials_witness :
  exists final,
    Retry.downloadFile Scenario.remote_path 3 Scenario.always_rejected
    = (Thrown Mock.expired_token, final) /\
    Retry.dbxInstance (vars final) = Some (Dropbox (VString "t3")) /\
    Retry.getDropboxInstance final = (Ok (Some (Dropbox (VString "t3"))), final).
Proof.
  pose (s := @mkState Mock.runtime _ Retry.initial ∅
               (Mock.script [Mock.token_ok "t3"] [] [Thrown Mock.expired_token])
               [TokenRequest true; DownloadCall Scenario.remote_path false;
                TokenRequest true; DownloadCall Scenario.remote_path false]).
  destruct (last_rejection_keeps_credentials Scenario.remote_path 3
              Scenario.always_rejected Scenario.always_rejected s
              (snd (Retry.getDropboxInstance s)) (Some Mock.expired_token)
              (Dropbox (VString "t3")) Mock.expired_token (Mock.script [] [] []))
    as (E & D & G & _);
    [ vm_compute; reflexivity | lia | vm_compute; reflexivity | vm_compute; reflexivity
    | vm_compute; reflexivity | reflexivity | ].
  eexists. split; [exact E|]. split; [exact D|]. apply G. reflexivity.
Defined.

(** ** Where the specification and the code part *)

(** C4, as stated, fails: the error that [downloadFile] throws is the error
    of the SDK itself, which is no [DownloadError] and names neither the
    remote path nor the number of attempts. *)
Lemma download_error_is_not_wrapped :
  (exists st',
     Retry.downloadFile Scenario.remote_path 3 Scenario.missing_remotely
     = (Thrown Mock.not_found, st')) /\
  e_name Mock.not_found <> "DownloadError" /\
  mentions Scenario.remote_path (message Mock.not_found) = false /\
  mentions "1" (message Mock.not_found) = false /\
  ~ is_DownloadError Mock.not_found Scenario.remote_path "1" /\
  (exists st',
     Retry.downloadFile Scenario.remote_path 3 Scenario.always_rejected
     = (Thrown Mock.expired_token, st')) /\
  e_name Mock.expired_token <> "DownloadError" /\
  mentions Scenario.remote_path (message Mock.expired_token) = false /\
  mentions "3" (message Mock.expired_token) = false /\
  ~ is_DownloadError Mock.expired_token Scenario.remote_path "3".
Proof.
  split; [eexists; vm_compute; reflexivity|].
  split; [discriminate|]. split; [reflexivity|]. split; [reflexivity|].
  split; [intros (N & _); vm_compute in N; discriminate N|].
  split; [eexists; vm_compute; reflexivity|].
  split; [discriminate|]. split; [reflexivity|]. split; [reflexivity|].
  intros (N & _); vm_compute in N; discriminate N.
Qed.

(** C6, as stated, fails in the retry-capable service: the cached revision
    differs from the remote one and [downloadFile] succeeds, having made two
    download calls, the first of them rejected with status 401. *)
Lemma stale_refetch_makes_two_download_calls :
  exists st0 st',
    needs_refetch Retry.getDropboxInstance
      (Retry.cache_probe Scenario.remote_path (Retry.getCacheFilePath Scenario.remote_path)
                         (Retry.metaFilePath Scenario.remote_path))
      Scenario.remote_path (Retry.getCacheFilePath Scenario.remote_path)
      (Retry.metaFilePath Scenario.remote_path) Stale.retry_expired st0 /\
    Retry.downloadFile Scenario.remote_path 3 Stale.retry_expired
    = (Ok (Retry.getCacheFilePath Scenario.remote_path), st') /\
    List.filter is_download_call (trace st')
    = [DownloadCall Scenario.remote_path false; DownloadCall Scenario.remote_path true] /\
    count is_download_call (trace st') = 2%nat /\
    files st' !! Retry.getCacheFilePath Scenario.remote_path = Some (File "hello again").
Proof.
  eexists. eexists. split.
  - apply (revision_differs Retry.getDropboxInstance _ Scenario.remote_path _ _
             Stale.retry_expired Scenario.revision_1
             (VObject [("rev", VString "rev1");
                       ("server_modified", VString "2024-05-01T10:00:00Z")])
             (Dropbox (VString "t1"))
             (snd (Retry.getDropboxInstance Stale.retry_expired))
             (mkMetadataResult (Some "rev2"))
             (Mock.script [Mock.token_ok "t2"] []
                [Thrown Mock.expired_token; Ok (Mock.file_v "hello again" "rev2")])
             (VString "rev1")).
    + vm_compute. eauto.
    + vm_compute. reflexivity.
    + vm_compute. reflexivity.
    + vm_compute. reflexivity.
    + vm_compute. reflexivity.
    + reflexivity.
    + discriminate.
  - split; [vm_compute; reflexivity|].
    split; [reflexivity|]. split; [reflexivity|]. vm_compute. reflexivity.
Qed.

(** C7, as stated, fails: when the token endpoint answers 400 with a body,
    the error thrown carries neither. *)
Lemma refresh_error_carries_no_diagnostics :
  fst (axios_post_token (world Scenario.refresh_rejected)) = Thrown Mock.token_rejection /\
  response Mock.token_rejection = Some (400%Z, "invalid_grant") /\
  exists error st',
    Retry.getDropboxInstance Scenario.refresh_rejected = (Thrown error, st') /\
    ~ carries_status_and_body error 400 "invalid_grant".
Proof.
  split; [reflexivity|]. split; [reflexivity|].
  do 2 eexists. split; [vm_compute; reflexivity|].
  intros [N | [N _]]; vm_compute in N; discriminate N.
Qed.


(** ** The further properties on the scenarios *)

Lemma retry_client_stays_bound_to_token_witness :
  coherent (vars (snd (Retry.downloadFile Scenario.remote_path 3 Scenario.expired_then_fine))).
Proof.
  apply (retry_client_stays_bound_to_token Scenario.remote_path 3 Scenario.expired_then_fine).
  intros c Hc. discriminate Hc.
Defined.

Lemma getDropboxInstance_reuses_client_witness :
  Retry.getDropboxInstance (snd (Retry.getDropboxInstance Scenario.retry_all_fine))
  = (Ok (Some (Dropbox (VString "t1"))),
     snd (Retry.getDropboxInstance Scenario.retry_all_fine)).
Proof.
  apply (getDropboxInstance_reuses_client Scenario.retry_all_fine);
    [vm_compute; reflexivity | reflexivity].
Defined.

Lemma missing_access_token_is_not_an_error_witness :
  exists sa,
    Retry.getDropboxInstance Cases.token_missing = (Ok (Some (Dropbox VUndefined)), sa) /\
    Retry.holds_credentials (vars sa) = false.
Proof.
  destruct (missing_access_token_is_not_an_error Cases.token_missing
              (VObject [("token_type", VString "bearer")]) (Mock.script [] [] []) VUndefined)
    as (sa & E & _ & Hh & _); try reflexivity.
  exists sa. auto.
Defined.

Lemma refresh_failure_is_not_retried_witness :
  exists sa new,
    Retry.downloadFile Scenario.remote_path 3 Stale.rejected_then_refused
    = (Thrown (Error "No se pudo refrescar el token de acceso a Dropbox"), sa) /\
    trace sa = trace Stale.rejected_then_refused ++ new /\
    count is_download_call new = 1%nat.
Proof.
  destruct (refresh_failure_is_not_retried Scenario.remote_path 3
              Stale.rejected_then_refused Stale.rejected_then_refused
              (cleared (snd (Retry.download_attempt Scenario.remote_path
                               (Retry.getCacheFilePath Scenario.remote_path)
                               (Retry.metaFilePath Scenario.remote_path)
                               Stale.rejected_then_refused)))
              (snd (Retry.getDropboxInstance
                      (cleared (snd (Retry.download_attempt Scenario.remote_path
                                       (Retry.getCacheFilePath Scenario.remote_path)
                                       (Retry.metaFilePath Scenario.remote_path)
                                       Stale.rejected_then_refused)))))
              1%nat (Some Mock.expired_token) Retry.refresh_failed)
    as (E & _ & _ & new & T & _ & C & _);
    [ vm_compute; reflexivity | lia | vm_compute; reflexivity | vm_compute; reflexivity | ].
  eexists. exists new. split; [exact E|]. split; [exact T | exact C].
Defined.

Lemma metadata_write_failure_leaves_new_content_witness :
  exists st',
    Retry.downloadFile Scenario.remote_path 3 Cases.meta_is_directory
    = (Thrown (Error "EISDIR: illegal operation on a directory, open"), st') /\
    files st' !! Retry.getCacheFilePath Scenario.remote_path = Some (File "hello") /\
    files st' !! Retry.metaFilePath Scenario.remote_path = Some Directory.
Proof.
  eexists. split.
  - apply (metadata_write_failure_leaves_new_content Scenario.remote_path 3
             Cases.meta_is_directory Cases.meta_is_directory
             (snd (Retry.getDropboxInstance Cases.meta_is_directory))
             (Dropbox (VString "t1")) (Mock.file_v "hello" "rev1") (Mock.script [] [] [])
             "hello");
      try (vm_compute; reflexivity); [vm_compute; discriminate | lia].
  - split; vm_compute; reflexivity.
Defined.

Lemma simple_refused_refresh_quotes_the_answer_witness :
  fst (Simple.getDropboxInstance Cases.simple_refused)
  = Thrown (Error "Failed to refresh access token: invalid_grant").
Proof.
  rewrite (simple_refused_refresh_quotes_the_answer Cases.simple_refused
             Cases.fetch_refused (Mock.mkScript [] [] [] [] [] Cases.noon) "invalid_grant");
    reflexivity.
Defined.

Lemma simple_failed_connection_test_keeps_client_witness :
  exists st',
    Simple.getDropboxInstance Cases.simple_test_fails = (Thrown Mock.unreachable, st') /\
    Simple.getDropboxInstance st' = (Ok (Some (Dropbox (VString "t1"))), st').
Proof.
  eexists.
  apply (simple_failed_connection_test_keeps_client Cases.simple_test_fails
           (mkFetchResponse true (Ok "") (Ok (VObject [("access_token", VString "t1")])))
           (Mock.mkScript [] [] [] [] [] Cases.noon)
           (VObject [("access_token", VString "t1")]) (VString "t1")
           Mock.unreachable (Mock.mkScript [] [] [] [] [] Cases.noon));
    reflexivity.
Defined.

Lemma simple_never_refreshes_held_client_witness :
  vars (snd (Simple.downloadFile Scenario.remote_path Cases.simple_holding_expired))
  = Simple.mkVars (Some (Dropbox (VString "old"))).
Proof.
  apply (simple_never_refreshes_held_client Scenario.remote_path
           Cases.simple_holding_expired).
  cbn. eauto.
Defined.

Lemma simple_download_error_propagates_witness :
  fst (Simple.downloadFile Scenario.remote_path Cases.simple_holding_expired)
  = Thrown Mock.expired_token.
Proof.
  rewrite (simple_download_error_propagates Scenario.remote_path
             Cases.simple_holding_expired Cases.simple_holding_expired
             Cases.simple_holding_expired (Dropbox (VString "old")) Mock.expired_token
             (Mock.mkScript [] [Mock.fetch_ok "t2"] [] [] [Mock.account_ok] Cases.noon));
    reflexivity.
Defined.

Lemma downloadFile_touches_only_its_cache_files_witness :
  files (snd (Retry.downloadFile Scenario.remote_path 3 Cases.retry_with_neighbour))
    !! Retry.getCacheFilePath Cases.other_path
  = Some (File "neighbour").
Proof.
  rewrite (proj1 (downloadFile_touches_only_its_cache_files Scenario.remote_path 3)
             Cases.retry_with_neighbour);
    [reflexivity | vm_compute; discriminate | vm_compute; discriminate].
Defined.

Lemma distinct_digests_do_not_interfere_witness :
  files (snd (Retry.downloadFile Scenario.remote_path 3 Cases.retry_with_neighbour))
    !! Retry.getCacheFilePath Cases.other_path
  = files Cases.retry_with_neighbour !! Retry.getCacheFilePath Cases.other_path.
Proof.
  assert (L : String.length (sha256_hex Scenario.remote_path)
               = String.length (sha256_hex Cases.other_path)) by reflexivity.
  assert (N : sha256_hex Scenario.remote_path <> sha256_hex Cases.other_path)
    by (vm_compute; discriminate).
  apply (proj1 (distinct_digests_do_not_interfere Scenario.remote_path 3 Cases.other_path
                  L N) Cases.retry_with_neighbour).
Defined.

Lemma missing_cache_file_skips_the_check_witness :
  Retry.downloadFile Scenario.remote_path 3 Scenario.retry_all_fine
  = Retry.download_with_retries Scenario.remote_path
      (Retry.getCacheFilePath Scenario.remote_path)
      (Retry.metaFilePath Scenario.remote_path) 3 Scenario.retry_all_fine.
Proof.
  apply (proj1 (missing_cache_file_skips_the_check Scenario.remote_path 3)).
  left. reflexivity.
Defined.

Lemma returned_path_is_in_the_cache_witness :
  is_Some (files (snd (Retry.downloadFile Scenario.remote_path 3 Scenario.retry_all_fine))
             !! "/tmp/dropbox_cache/sha256(/a/b.txt)").
Proof.
  apply (proj1 (returned_path_is_in_the_cache Scenario.remote_path 3)
               Scenario.retry_all_fine
               (snd (Retry.downloadFile Scenario.remote_path 3 Scenario.retry_all_fine))
               "/tmp/dropbox_cache/sha256(/a/b.txt)").
  vm_compute. reflexivity.
Defined.

Lemma retry_download_then_cache_hit_witness :
  exists st1 st2,
    Retry.downloadFile Scenario.remote_path 3 Cases.retry_download_then_query
    = (Ok "/tmp/dropbox_cache/sha256(/a/b.txt)", st1) /\
    Retry.downloadFile Scenario.remote_path 3 st1
    = (Ok "/tmp/dropbox_cache/sha256(/a/b.txt)", st2) /\
    files st2 = files st1.
Proof.
  pose (sa := snd (Retry.getDropboxInstance Cases.retry_download_then_query)).
  pose (w := Mock.script [] [Scenario.same_revision] []).
  pose (st1 := downloaded Scenario.remote_path (Retry.getCacheFilePath Scenario.remote_path)
                 (Retry.metaFilePath Scenario.remote_path) sa w "hello"
                 (JSON_stringify
                    (retry_meta_object (Mock.file_v "hello" "rev1") (toISOString_now w)))).
  destruct (retry_download_then_cache_hit Scenario.remote_path 3
              Cases.retry_download_then_query Cases.retry_download_then_query sa
              (snd (Retry.getDropboxInstance st1))
              (Dropbox (VString "t1")) (Mock.file_v "hello" "rev1") w "hello"
              (Dropbox (VString "t1")) (mkMetadataResult (Some "rev1"))
              (Mock.script [] [] []))
    as (E1 & st2 & E2 & F & _);
    [ vm_compute; reflexivity | vm_compute; reflexivity | vm_compute; reflexivity
    | reflexivity | vm_compute; discriminate | vm_compute; discriminate | lia
    | vm_compute; reflexivity | vm_compute; reflexivity | vm_compute; reflexivity
    | reflexivity | ].
  exists st1, st2. split; [exact E1|]. split; [exact E2 | exact F].
Defined.

Lemma simple_download_then_cache_hit_witness :
  exists st1 st2,
    Simple.downloadFile Scenario.remote_path Cases.simple_download_then_query
    = (Ok "/tmp/ijcvwabot_dropbox_cache/sha256(/a/b.txt)", st1) /\
    Simple.downloadFile Scenario.remote_path st1
    = (Ok "/tmp/ijcvwabot_dropbox_cache/sha256(/a/b.txt)", st2) /\
    files st2 = files st1.
Proof.
  pose (sa := snd (Simple.getDropboxInstance Cases.simple_download_then_query)).
  pose (w := Mock.mkScript [] [] [Scenario.same_revision] [] [] Cases.noon).
  pose (st1 := downloaded Scenario.remote_path (Simple.getCacheFilePath Scenario.remote_path)
                 (Simple.metaFilePath Scenario.remote_path) sa w "hello"
                 (JSON_stringify (simple_meta_object (Mock.file_v "hello" "rev1")))).
  destruct (simple_download_then_cache_hit Scenario.remote_path
              Cases.simple_download_then_query Cases.simple_download_then_query sa
              (snd (Simple.getDropboxInstance st1))
              (Dropbox (VString "t1")) (Mock.file_v "hello" "rev1") w "hello"
              (Dropbox (VString "t1")) (mkMetadataResult (Some "rev1"))
              (Mock.mkScript [] [] [] [] [] Cases.noon))
    as (E1 & st2 & E2 & F & _);
    [ vm_compute; reflexivity | vm_compute; reflexivity | vm_compute; reflexivity
    | reflexivity | vm_compute; discriminate | vm_compute; discriminate
    | vm_compute; reflexivity | vm_compute; reflexivity | vm_compute; reflexivity
    | reflexivity | ].
  exists st1, st2. split; [exact E1|]. split; [exact E2 | exact F].
Defined.
